(** * MyBIRME: crop geometry, smart-crop analysis and the image collection

    A shallow embedding of the TypeScript sources

    - [src/lib/cropMath.ts]        (modules [CropMath] and [CropMath64])
    - [src/types/image.ts]         (module [Types])
    - [src/context/AppContext.tsx] (modules [AppContext] and [AppProvider])
    - [src/lib/smartCropWorker.ts] (module [SmartCropWorker])
    - [src/lib/imageUtils.ts], [src/lib/exportImages.ts] (modules
      [ExportImages] and [ImageUtils])
    - [src/hooks/useCropState.ts], [src/hooks/useAspectRatio.ts] (modules
      [UseCropState] and [UseAspectRatio])
    - [src/lib/storage.ts]          (module [Storage])

    Numbers.  A JavaScript [number] is an IEEE 754 double.  The arithmetic
    of the sources is read in two ways.

    - Exactly: a number is a rational [Q], [+ - * /] are the field
      operations, [Math.max]/[Math.min] are [Qmax]/[Qmin], [>=] is
      [Qle_bool] with swapped arguments and [Math.round x] is
      [Qfloor (x + 1/2)].  This is the reading of [CropMath] and of every
      module built on it.  Rounding, signed zeros and the non-finite values
      are outside it, and a statement proved in it is a statement on the
      formulas of the code in exact arithmetic; a division whose divisor is
      zero only occurs under hypotheses that exclude it, or is said so
      where it is not.

    - As doubles: [CropMath64] gives [calculateCrop] and [getMaxScale] over
      the binary64 numbers of Rocq, [float], whose [+ - * /] and
      comparisons are the IEEE 754 operations (round to nearest, ties to
      even), with [Math.max] and [Math.min] as ECMAScript defines them.
      What depends on rounding is stated, and evaluated, in this reading. *)

From Stdlib Require Import QArith Qminmax Qround Lqa Lia ZArith List String.
From Stdlib Require Import DecimalString.
From Stdlib Require Import Floats.
From stdpp Require Import gmap strings list.

Open Scope Q_scope.

(** ** src/types/image.ts *)

Module Types.

(** [ImageBitmap] handles are opaque: a handle is a natural number. *)
Definition ImageBitmap := nat.
(** [File] objects are opaque as well. *)
Definition File := nat.

Record CropState := mkCropState {
  centerX : Q;                 (* 0..1 normalized position *)
  centerY : Q;                 (* 0..1 normalized position *)
  scale : Q;                   (* 1 = fit; >1 = zoom in *)
  aspect : Q;                  (* targetWidth / targetHeight *)
  rotation : option Q;         (* reserved *)
  sourceHash : option string   (* for persistence *)
}.

Record SmartCropResult := mkSmartCropResult {
  sc_x : Q; sc_y : Q; sc_width : Q; sc_height : Q; sc_score : Q
}.

Record CropRect := mkCropRect {
  rect_x : Q; rect_y : Q; rect_width : Q; rect_height : Q
}.

Record CropCalculation := mkCropCalculation {
  baseWidth : Q; baseHeight : Q;
  cropWidth : Q; cropHeight : Q;
  cropX : Q; cropY : Q
}.

(** [ImageFile].  The image's own [isProcessing] flag keeps its name; the
    application-wide flag of [AppState] is [appIsProcessing]. *)
Record ImageFile := mkImageFile {
  id : string;
  file : File;
  name : string;
  originalWidth : Q;
  originalHeight : Q;
  bitmap : option ImageBitmap;
  thumbnail : string;
  cropState : CropState;
  smartCropResult : option SmartCropResult;
  isProcessing : bool;
  isSmartCropPending : bool
}.

Inductive ImageFormat := jpeg | png | webp.

Record ExportSettings := mkExportSettings {
  format : ImageFormat;
  quality : Q;
  targetWidth : Q;
  targetHeight : Q;
  aspectLocked : bool;
  prefix : string;
  suffix : string;
  startIndex : Q
}.

Record AppSettings := mkAppSettings {
  enableCrop : bool;
  enableSmartCrop : bool;
  showRuleOfThirds : bool;
  exportSettings : ExportSettings
}.

Definition DEFAULT_CROP_STATE : CropState :=
  {| centerX := 1 # 2; centerY := 1 # 2; scale := 1; aspect := 1;
     rotation := None; sourceHash := None |}.

Definition DEFAULT_EXPORT_SETTINGS : ExportSettings :=
  {| format := jpeg; quality := 90; targetWidth := 1200; targetHeight := 800;
     aspectLocked := true; prefix := "image-"; suffix := ""; startIndex := 1 |}.

Definition DEFAULT_APP_SETTINGS : AppSettings :=
  {| enableCrop := true; enableSmartCrop := true; showRuleOfThirds := true;
     exportSettings := DEFAULT_EXPORT_SETTINGS |}.

(** [Partial<ExportSettings>] and [Partial<AppSettings>]: every field is
    optional; [{...a, ...p}] takes a field from [p] where [p] has it. *)
Record PartialExportSettings := mkPartialExportSettings {
  p_format : option ImageFormat;
  p_quality : option Q;
  p_targetWidth : option Q;
  p_targetHeight : option Q;
  p_aspectLocked : option bool;
  p_prefix : option string;
  p_suffix : option string;
  p_startIndex : option Q
}.

Record PartialAppSettings := mkPartialAppSettings {
  p_enableCrop : option bool;
  p_enableSmartCrop : option bool;
  p_showRuleOfThirds : option bool;
  p_exportSettings : option ExportSettings
}.

Definition spreadExportSettings (a : ExportSettings) (p : PartialExportSettings)
  : ExportSettings :=
  {| format := default (format a) (p_format p);
     quality := default (quality a) (p_quality p);
     targetWidth := default (targetWidth a) (p_targetWidth p);
     targetHeight := default (targetHeight a) (p_targetHeight p);
     aspectLocked := default (aspectLocked a) (p_aspectLocked p);
     prefix := default (prefix a) (p_prefix p);
     suffix := default (suffix a) (p_suffix p);
     startIndex := default (startIndex a) (p_startIndex p) |}.

Definition spreadAppSettings (a : AppSettings) (p : PartialAppSettings)
  : AppSettings :=
  {| enableCrop := default (enableCrop a) (p_enableCrop p);
     enableSmartCrop := default (enableSmartCrop a) (p_enableSmartCrop p);
     showRuleOfThirds := default (showRuleOfThirds a) (p_showRuleOfThirds p);
     exportSettings := default (exportSettings a) (p_exportSettings p) |}.

End Types.
Export Types.

(** ** src/lib/cropMath.ts *)

Module CropMath.

(** [Math.max(lo, Math.min(hi, x))], the clamp every function of this file
    writes out. *)
Definition clamp (lo hi x : Q) : Q := Qmax lo (Qmin hi x).

Definition calculateCrop (imageWidth imageHeight : Q) (cropState : CropState)
  : CropCalculation :=
  let imageAspect := imageWidth / imageHeight in
  let '(baseWidth, baseHeight) :=
    if Qle_bool imageAspect (aspect cropState)
    then (imageWidth, imageWidth / aspect cropState)
    else (imageHeight * aspect cropState, imageHeight) in
  let cropWidth := baseWidth / scale cropState in
  let cropHeight := baseHeight / scale cropState in
  let cropX := centerX cropState * imageWidth - cropWidth / 2 in
  let cropY := centerY cropState * imageHeight - cropHeight / 2 in
  let cropX := Qmax 0 (Qmin (imageWidth - cropWidth) cropX) in
  let cropY := Qmax 0 (Qmin (imageHeight - cropHeight) cropY) in
  mkCropCalculation baseWidth baseHeight cropWidth cropHeight cropX cropY.

(** [Math.round]: the nearest integer, halves rounded up. *)
Definition Math_round (x : Q) : Q := inject_Z (Qfloor (x + (1 # 2))).

Definition getCropRect (imageWidth imageHeight : Q) (cropState : CropState)
  : CropRect :=
  let calc := calculateCrop imageWidth imageHeight cropState in
  {| rect_x := Math_round (cropX calc);
     rect_y := Math_round (cropY calc);
     rect_width := Math_round (cropWidth calc);
     rect_height := Math_round (cropHeight calc) |}.

Definition smartCropToCropState (smartCrop : SmartCropResult)
    (imageWidth imageHeight targetAspect : Q) : CropState :=
  let centerX := (sc_x smartCrop + sc_width smartCrop / 2) / imageWidth in
  let centerY := (sc_y smartCrop + sc_height smartCrop / 2) / imageHeight in
  let imageAspect := imageWidth / imageHeight in
  let '(baseWidth, baseHeight) :=
    if Qle_bool imageAspect targetAspect
    then (imageWidth, imageWidth / targetAspect)
    else (imageHeight * targetAspect, imageHeight) in
  let scaleX := baseWidth / sc_width smartCrop in
  let scaleY := baseHeight / sc_height smartCrop in
  let scale := Qmin scaleX scaleY in
  let scale := Qmax 1 (Qmin scale 5) in
  {| centerX := centerX; centerY := centerY; scale := scale;
     aspect := targetAspect; rotation := None; sourceHash := None |}.

Definition clampCropCenter
    (centerX centerY cropWidth cropHeight imageWidth imageHeight : Q) : Q * Q :=
  let minCenterX := (cropWidth / 2) / imageWidth in
  let maxCenterX := 1 - minCenterX in
  let minCenterY := (cropHeight / 2) / imageHeight in
  let maxCenterY := 1 - minCenterY in
  (Qmax minCenterX (Qmin maxCenterX centerX),
   Qmax minCenterY (Qmin maxCenterY centerY)).

Definition getMaxScale (imageWidth imageHeight aspect : Q) : Q :=
  let imageAspect := imageWidth / imageHeight in
  let '(baseWidth, baseHeight) :=
    if Qle_bool imageAspect aspect
    then (imageWidth, imageWidth / aspect)
    else (imageHeight * aspect, imageHeight) in
  let maxScaleX := baseWidth / 50 in
  let maxScaleY := baseHeight / 50 in
  Qmin (Qmin maxScaleX maxScaleY) 10.

Definition applyFramingToImage (sourceCropState : CropState)
    (targetImageWidth targetImageHeight targetAspect : Q) : CropState :=
  {| centerX := centerX sourceCropState;
     centerY := centerY sourceCropState;
     scale := scale sourceCropState;
     aspect := targetAspect;
     rotation := None; sourceHash := None |}.

(** The base rectangle and the zoom ceiling as section 4.1 of the
    specification words them, to compare the code with. *)
Module Spec.
Definition baseRectangle (imageWidth imageHeight targetAspect : Q) : Q * Q :=
  if Qle_bool (imageWidth / imageHeight) targetAspect
  then (imageWidth, imageWidth / targetAspect)
  else (imageHeight * targetAspect, imageHeight).

End Spec.

End CropMath.

(** ** src/lib/cropMath.ts, in double arithmetic *)

Module CropMath64.

(** [Math.max] and [Math.min] of two numbers: [NaN] when an argument is
    [NaN], and [-0] below [+0]. *)
Definition Math_max (a b : float) : float :=
  if is_nan a || is_nan b then nan
  else if (a <? b)%float then b
  else if (b <? a)%float then a
  else if get_sign a then b else a.

Definition Math_min (a b : float) : float :=
  if is_nan a || is_nan b then nan
  else if (a <? b)%float then a
  else if (b <? a)%float then b
  else if get_sign a then a else b.

Record CropState := mkCropState {
  centerX : float;
  centerY : float;
  scale : float;
  aspect : float;
  rotation : option float;
  sourceHash : option string
}.

Record CropCalculation := mkCropCalculation {
  baseWidth : float; baseHeight : float;
  cropWidth : float; cropHeight : float;
  cropX : float; cropY : float
}.

Definition calculateCrop (imageWidth imageHeight : float)
    (cropState : CropState) : CropCalculation :=
  let imageAspect := (imageWidth / imageHeight)%float in
  let '(baseWidth, baseHeight) :=
    if (imageAspect <=? aspect cropState)%float
    then (imageWidth, (imageWidth / aspect cropState)%float)
    else ((imageHeight * aspect cropState)%float, imageHeight) in
  let cropWidth := (baseWidth / scale cropState)%float in
  let cropHeight := (baseHeight / scale cropState)%float in
  let cropX := (centerX cropState * imageWidth - cropWidth / 2)%float in
  let cropY := (centerY cropState * imageHeight - cropHeight / 2)%float in
  let cropX := Math_max 0 (Math_min (imageWidth - cropWidth) cropX) in
  let cropY := Math_max 0 (Math_min (imageHeight - cropHeight) cropY) in
  mkCropCalculation baseWidth baseHeight cropWidth cropHeight cropX cropY.

Definition getMaxScale (imageWidth imageHeight aspect : float) : float :=
  let imageAspect := (imageWidth / imageHeight)%float in
  let '(baseWidth, baseHeight) :=
    if (imageAspect <=? aspect)%float
    then (imageWidth, (imageWidth / aspect)%float)
    else ((imageHeight * aspect)%float, imageHeight) in
  let maxScaleX := (baseWidth / 50)%float in
  let maxScaleY := (baseHeight / 50)%float in
  Math_min (Math_min maxScaleX maxScaleY) 10.

End CropMath64.

(** ** The order of the doubles

    A double that is not [NaN] is ranked by a triple of integers, compared
    lexicographically: the class (minus infinity, negative, zero, positive,
    plus infinity), the exponent and the mantissa, the last two negated for
    the negative numbers.  Both zeros have the same rank. *)

Module Float64Order.





End Float64Order.

(** ** src/lib/smartCropWorker.ts *)

Module SmartCropWorker.

(** What [analyzeImage] is handed: an image element, a canvas or a bitmap. *)
Inductive ImageElement :=
| HTMLImageElement (handle : nat)
| HTMLCanvasElement (handle : nat)
| Bitmap (b : ImageBitmap).

(** [result.topCrop] of the smartcrop library; [score] may be absent. *)
Record Crop := mkCrop {
  x : Q; y : Q; width : Q; height : Q; score : option Q
}.

(** One invocation of [smartcrop.crop(source, {width, height, minScale})]. *)
Record DetectorCall := mkDetectorCall {
  call_source : ImageElement; call_width : Q; call_height : Q
}.

(** The module-level [cropCache] together with the log of detector
    invocations made so far.  A cached value has the type
    [SmartCropJobResult['result']], which admits [null]. *)
Record Analyzer := mkAnalyzer {
  cropCache : gmap string (option SmartCropResult);
  detectorCalls : list DetectorCall
}.

Definition emptyAnalyzer : Analyzer :=
  {| cropCache := ∅; detectorCalls := [] |}.

(** An [analyzeImage] call suspended at its [await]: either it has its
    value already, or it waits for the detector, whose eventual answer
    ([None] when it rejects) the environment has fixed. *)
Inductive Pending :=
| Settled (r : option SmartCropResult)
| Awaiting (cacheKey : string) (answer : option Crop).

Record Job := mkJob {
  imageId : string;
  bitmap : ImageBitmap;
  targetWidth : Q;
  targetHeight : Q
}.

(** [results], [completed] and the analyzer of a running [batchAnalyze];
    [progressCalls] logs the calls of [onProgress] and [settledJobs] the
    calls of [results.set], both oldest first. *)
Record BatchState := mkBatchState {
  batchAnalyzer : Analyzer;
  results : gmap string (option SmartCropResult);
  completed : nat;
  progressCalls : list (nat * nat);
  settledJobs : list (string * option SmartCropResult)
}.

(** The map a sequence of [results.set] calls builds, oldest call first. *)
Definition recorded (calls : list (string * option SmartCropResult))
  : gmap string (option SmartCropResult) :=
  foldl (fun m call => <[fst call := snd call]> m) ∅ calls.

(** JavaScript's [Array.prototype.slice] on integer arguments. *)
Definition relativeIndex (len k : Z) : Z :=
  if (k <? 0)%Z then Z.max (len + k) 0 else Z.min k len.

Definition slice {A} (l : list A) (start stop : Z) : list A :=
  let len := Z.of_nat (length l) in
  let s := relativeIndex len start in
  let e := relativeIndex len stop in
  take (Z.to_nat (e - s)) (drop (Z.to_nat s) l).

Section Environment.

(** Number-to-string conversion of template literals. *)
Variable numberToString : Q -> string.
(** Whether [canvas.getContext('2d')] yields a context for the canvas a
    bitmap is drawn to. *)
Variable getContext2d : ImageBitmap -> bool.
(** The smartcrop detector: its answer to the invocation that follows the
    given earlier ones, [None] when it rejects. *)
Variable smartcrop_crop : list DetectorCall -> DetectorCall -> option Crop.
(** The order in which the suspended jobs of one batch resume. *)
Variable resumeOrder : list (Job * Pending) -> list (Job * Pending).

Definition getCacheKey (imageId : string) (targetWidth targetHeight : Q)
  : string :=
  imageId +:+ "_" +:+ numberToString targetWidth +:+ "_"
          +:+ numberToString targetHeight.

(** [analyzeImage] up to its [await]. *)
Definition analyzeImage_start (imageElement : ImageElement)
    (targetWidth targetHeight : Q) (imageId : string) (a : Analyzer)
  : Pending * Analyzer :=
  let cacheKey := getCacheKey imageId targetWidth targetHeight in
  match cropCache a !! cacheKey with
  | Some cached => (Settled cached, a)
  | None =>
      let source :=
        match imageElement with
        | Bitmap b =>
            if getContext2d b then Some imageElement else None
        | _ => Some imageElement
        end in
      match source with
      | None => (Settled None, a)
      | Some source =>
          let call := mkDetectorCall source targetWidth targetHeight in
          (Awaiting cacheKey (smartcrop_crop (detectorCalls a) call),
           {| cropCache := cropCache a;
              detectorCalls := detectorCalls a ++ [call] |})
      end
  end.

(** [analyzeImage] from its [await] on. *)
Definition analyzeImage_finish (p : Pending) (a : Analyzer)
  : option SmartCropResult * Analyzer :=
  match p with
  | Settled r => (r, a)
  | Awaiting cacheKey (Some topCrop) =>
      let cropResult :=
        {| sc_x := x topCrop; sc_y := y topCrop;
           sc_width := width topCrop; sc_height := height topCrop;
           sc_score := default 1 (score topCrop) |} in
      (Some cropResult,
       {| cropCache := <[cacheKey := Some cropResult]> (cropCache a);
          detectorCalls := detectorCalls a |})
  | Awaiting _ None => (None, a)
  end.

(** A call of [analyzeImage] that nothing else interleaves with. *)
Definition analyzeImage (imageElement : ImageElement)
    (targetWidth targetHeight : Q) (imageId : string) (a : Analyzer)
  : option SmartCropResult * Analyzer :=
  let '(p, a1) :=
    analyzeImage_start imageElement targetWidth targetHeight imageId a in
  analyzeImage_finish p a1.

Definition clearSmartCropCache (imageId : option string) (a : Analyzer)
  : Analyzer :=
  match imageId with
  | Some i =>
      if String.eqb i "" then
        {| cropCache := ∅; detectorCalls := detectorCalls a |}
      else
        {| cropCache :=
             filter (fun kv => negb (String.prefix i (fst kv)) = true)
                    (cropCache a);
           detectorCalls := detectorCalls a |}
  | None => {| cropCache := ∅; detectorCalls := detectorCalls a |}
  end.

(** [batch.map(async job => ...)]: every callback runs to its [await]. *)
Fixpoint startBatch (batch : list Job) (a : Analyzer)
  : list (Job * Pending) * Analyzer :=
  match batch with
  | [] => ([], a)
  | job :: rest =>
      let '(p, a1) :=
        analyzeImage_start (Bitmap (bitmap job)) (targetWidth job)
                           (targetHeight job) (imageId job) a in
      let '(ps, a2) := startBatch rest a1 in
      ((job, p) :: ps, a2)
  end.

(** The rest of one callback, after its [await]. *)
Definition resumeJob (onProgress : bool) (total : nat)
    (st : BatchState) (jp : Job * Pending) : BatchState :=
  let '(result, a1) := analyzeImage_finish (snd jp) (batchAnalyzer st) in
  {| batchAnalyzer := a1;
     results := <[imageId (fst jp) := result]> (results st);
     completed := S (completed st);
     progressCalls :=
       if onProgress
       then progressCalls st ++ [(S (completed st), total)]
       else progressCalls st;
     settledJobs := settledJobs st ++ [(imageId (fst jp), result)] |}.

Definition runBatch (onProgress : bool) (total : nat)
    (batch : list Job) (st : BatchState) : BatchState :=
  let '(ps, a1) := startBatch batch (batchAnalyzer st) in
  fold_left (resumeJob onProgress total) (resumeOrder ps)
    {| batchAnalyzer := a1; results := results st;
       completed := completed st; progressCalls := progressCalls st;
       settledJobs := settledJobs st |}.

(** The [for] loop of [batchAnalyze].  [concurrency] is an integer-valued
    number and [onProgress] tells whether a callback was passed; [fuel]
    bounds the iterations, and [None] says the bound was reached with the
    loop still running. *)
Fixpoint batchLoop (fuel : nat) (onProgress : bool) (jobs : list Job)
    (concurrency : Z) (i : Z) (st : BatchState) : option BatchState :=
  match fuel with
  | O => None
  | S fuel' =>
      if (i <? Z.of_nat (length jobs))%Z then
        let batch := slice jobs i (i + concurrency) in
        batchLoop fuel' onProgress jobs concurrency (i + concurrency)
                  (runBatch onProgress (length jobs) batch st)
      else Some st
  end.

Definition batchAnalyze (fuel : nat) (jobs : list Job) (concurrency : Z)
    (onProgress : bool) (a : Analyzer) : option BatchState :=
  batchLoop fuel onProgress jobs concurrency 0
    {| batchAnalyzer := a; results := ∅; completed := 0;
       progressCalls := []; settledJobs := [] |}.

(** The cache key of a job. *)
Definition jobKey (job : Job) : string :=
  getCacheKey (imageId job) (targetWidth job) (targetHeight job).

(** A job whose analysis cannot yield a region: its canvas has no context,
    or the detector rejects its invocation, whatever was invoked before. *)
Definition jobFails (job : Job) : Prop :=
  getContext2d (bitmap job) = false \/
  forall calls,
    smartcrop_crop calls
      (mkDetectorCall (Bitmap (bitmap job)) (targetWidth job)
                      (targetHeight job)) = None.

(** To compare [batchAnalyze] with: the jobs analysed one after the other,
    each by a call of [analyzeImage] of its own that finds nothing cached,
    the first one after the detector invocations [calls].  The result is
    each job's image identity with what its call returns, and the detector
    invocations made when the last call has returned. *)
Fixpoint analyzeInTurn (jobs : list Job) (calls : list DetectorCall)
  : list (string * option SmartCropResult) * list DetectorCall :=
  match jobs with
  | [] => ([], calls)
  | job :: rest =>
      let '(result, a1) :=
        analyzeImage (Bitmap (bitmap job)) (targetWidth job)
                     (targetHeight job) (imageId job)
                     {| cropCache := ∅; detectorCalls := calls |} in
      let '(results, calls') := analyzeInTurn rest (detectorCalls a1) in
      ((imageId job, result) :: results, calls')
  end.

End Environment.

End SmartCropWorker.

(** ** src/context/AppContext.tsx *)

Module AppContext.

Record AppState := mkAppState {
  images : list ImageFile;
  settings : AppSettings;
  appIsProcessing : bool;
  selectedImageId : option string;
  editingImageId : option string
}.

(** [Partial<AppState>], the payload of [LOAD_STATE]. *)
Record PartialAppState := mkPartialAppState {
  p_images : option (list ImageFile);
  p_settings : option AppSettings;
  p_isProcessing : option bool;
  p_selectedImageId : option (option string);
  p_editingImageId : option (option string)
}.

Inductive AppAction :=
| ADD_IMAGES (payload : list ImageFile)
| REMOVE_IMAGE (payload : string)
| CLEAR_IMAGES
| UPDATE_CROP_STATE (id : string) (cropState : CropState)
| UPDATE_ALL_CROP_STATES (aspect : Q)
| APPLY_CROP_TO_ALL (payload : CropState)
| UPDATE_SETTINGS (payload : PartialAppSettings)
| UPDATE_EXPORT_SETTINGS (payload : PartialExportSettings)
| SET_PROCESSING (payload : bool)
| SET_SELECTED_IMAGE (payload : option string)
| SET_EDITING_IMAGE (payload : option string)
| SET_IMAGE_SMART_CROP (id : string) (result : option SmartCropResult)
| SET_IMAGE_PROCESSING (id : string) (isProcessing : bool)
| SET_IMAGE_SMART_CROP_PENDING (id : string) (pending : bool)
| LOAD_STATE (payload : PartialAppState).

Definition initialState : AppState :=
  {| images := [];
     settings := DEFAULT_APP_SETTINGS;
     appIsProcessing := false;
     selectedImageId := None;
     editingImageId := None |}.

(** [{ ...state, images: imgs }] *)
Definition withImages (state : AppState) (imgs : list ImageFile) : AppState :=
  {| images := imgs;
     settings := settings state;
     appIsProcessing := appIsProcessing state;
     selectedImageId := selectedImageId state;
     editingImageId := editingImageId state |}.

(** [{ ...state, settings: s }] *)
Definition withSettings (state : AppState) (s : AppSettings) : AppState :=
  {| images := images state;
     settings := s;
     appIsProcessing := appIsProcessing state;
     selectedImageId := selectedImageId state;
     editingImageId := editingImageId state |}.

(** [{ ...img, cropState: c }] *)
Definition withCropState (img : ImageFile) (c : CropState) : ImageFile :=
  {| id := id img; file := file img; name := name img;
     originalWidth := originalWidth img;
     originalHeight := originalHeight img;
     bitmap := bitmap img; thumbnail := thumbnail img;
     cropState := c;
     smartCropResult := smartCropResult img;
     isProcessing := isProcessing img;
     isSmartCropPending := isSmartCropPending img |}.

(** [{ ...c, aspect: a }] *)
Definition withAspect (c : CropState) (a : Q) : CropState :=
  {| centerX := centerX c; centerY := centerY c; scale := scale c;
     aspect := a; rotation := rotation c; sourceHash := sourceHash c |}.

Definition appReducer (state : AppState) (action : AppAction) : AppState :=
  match action with
  | ADD_IMAGES payload => withImages state (images state ++ payload)

  | REMOVE_IMAGE payload =>
      withImages state
        (List.filter (fun img => negb (String.eqb (id img) payload))
                     (images state))

  | CLEAR_IMAGES =>
      {| images := [];
         settings := settings state;
         appIsProcessing := appIsProcessing state;
         selectedImageId := None;
         editingImageId := None |}

  | UPDATE_CROP_STATE i c =>
      withImages state
        (map (fun img => if String.eqb (id img) i
                         then withCropState img c
                         else img)
             (images state))

  | UPDATE_ALL_CROP_STATES a =>
      withImages state
        (map (fun img => withCropState img (withAspect (cropState img) a))
             (images state))

  | APPLY_CROP_TO_ALL payload =>
      withImages state
        (map (fun img =>
                withCropState img
                  (withAspect payload
                     (targetWidth (exportSettings (settings state))
                      / targetHeight (exportSettings (settings state)))))
             (images state))

  | UPDATE_SETTINGS payload =>
      withSettings state (spreadAppSettings (settings state) payload)

  | UPDATE_EXPORT_SETTINGS payload =>
      withSettings state
        {| enableCrop := enableCrop (settings state);
           enableSmartCrop := enableSmartCrop (settings state);
           showRuleOfThirds := showRuleOfThirds (settings state);
           exportSettings :=
             spreadExportSettings (exportSettings (settings state)) payload |}

  | SET_PROCESSING payload =>
      {| images := images state;
         settings := settings state;
         appIsProcessing := payload;
         selectedImageId := selectedImageId state;
         editingImageId := editingImageId state |}

  | SET_SELECTED_IMAGE payload =>
      {| images := images state;
         settings := settings state;
         appIsProcessing := appIsProcessing state;
         selectedImageId := payload;
         editingImageId := editingImageId state |}

  | SET_EDITING_IMAGE payload =>
      {| images := images state;
         settings := settings state;
         appIsProcessing := appIsProcessing state;
         selectedImageId := selectedImageId state;
         editingImageId := payload |}

  | SET_IMAGE_SMART_CROP i result =>
      withImages state
        (map (fun img =>
                if String.eqb (id img) i
                then {| id := id img; file := file img; name := name img;
                        originalWidth := originalWidth img;
                        originalHeight := originalHeight img;
                        bitmap := bitmap img; thumbnail := thumbnail img;
                        cropState := cropState img;
                        smartCropResult := result;
                        isProcessing := isProcessing img;
                        isSmartCropPending := false |}
                else img)
             (images state))

  | SET_IMAGE_PROCESSING i b =>
      withImages state
        (map (fun img =>
                if String.eqb (id img) i
                then {| id := id img; file := file img; name := name img;
                        originalWidth := originalWidth img;
                        originalHeight := originalHeight img;
                        bitmap := bitmap img; thumbnail := thumbnail img;
                        cropState := cropState img;
                        smartCropResult := smartCropResult img;
                        isProcessing := b;
                        isSmartCropPending := isSmartCropPending img |}
                else img)
             (images state))

  | SET_IMAGE_SMART_CROP_PENDING i pending =>
      withImages state
        (map (fun img =>
                if String.eqb (id img) i
                then {| id := id img; file := file img; name := name img;
                        originalWidth := originalWidth img;
                        originalHeight := originalHeight img;
                        bitmap := bitmap img; thumbnail := thumbnail img;
                        cropState := cropState img;
                        smartCropResult := smartCropResult img;
                        isProcessing := isProcessing img;
                        isSmartCropPending := pending |}
                else img)
             (images state))

  | LOAD_STATE payload =>
      {| images := default (images state) (p_images payload);
         settings := default (settings state) (p_settings payload);
         appIsProcessing :=
           default (appIsProcessing state) (p_isProcessing payload);
         selectedImageId :=
           default (selectedImageId state) (p_selectedImageId payload);
         editingImageId :=
           default (editingImageId state) (p_editingImageId payload) |}
  end.

(** The states the store can be in: those [dispatch] reaches from
    [initialState]. *)
Inductive reachable : AppState -> Prop :=
| reachable_initial : reachable initialState
| reachable_dispatch state action :
    reachable state -> reachable (appReducer state action).

(** An identity is in the collection when some entry has it; a state has
    no dangling reference when the selected and the edited identity, where
    set, are in the collection. *)
Definition inCollection (i : string) (s : AppState) : Prop :=
  exists img, In img (images s) /\ id img = i.

Definition noDanglingReference (s : AppState) : Prop :=
  (forall i, selectedImageId s = Some i -> inCollection i s) /\
  (forall i, editingImageId s = Some i -> inCollection i s).

(** [state.images.find(img => img.id === i)] *)
Definition findImage (i : string) (imgs : list ImageFile) : option ImageFile :=
  List.find (fun img => String.eqb (id img) i) imgs.

(** The entry [Index] resolves [editingImageId] to before it renders the
    editor: [state.editingImageId ? state.images.find(...) : null], with
    [undefined] and [null] both [None]. *)
Definition editingImage (state : AppState) : option ImageFile :=
  match editingImageId state with
  | Some i => if String.eqb i "" then None else findImage i (images state)
  | None => None
  end.

(** The provider's store: the reducer state and the analyzer module's
    state.  [localStorage] is left out. *)
Record Store := mkStore {
  state : AppState;
  analyzer : SmartCropWorker.Analyzer
}.

Definition dispatch (action : AppAction) (w : Store) : Store :=
  {| state := appReducer (state w) action; analyzer := analyzer w |}.

(** What a running [runSmartCropForImage] holds across its [await]. *)
Record SmartCropRun := mkSmartCropRun {
  run_id : string;
  run_image : ImageFile;
  run_targetWidth : Q;
  run_targetHeight : Q;
  run_pending : SmartCropWorker.Pending
}.

Section Provider.

Variable numberToString : Q -> string.
Variable getContext2d : ImageBitmap -> bool.
Variable smartcrop_crop :
  list SmartCropWorker.DetectorCall -> SmartCropWorker.DetectorCall ->
  option SmartCropWorker.Crop.

(** [runSmartCropForImage] up to its [await].  [closure] is the settings
    value the callback was created with.  [None] is the early [return]. *)
Definition runSmartCropForImage_start (closure : AppSettings)
    (i : string) (imageOverride : option ImageFile) (w : Store)
  : option SmartCropRun * Store :=
  let image :=
    match imageOverride with
    | Some img => Some img
    | None => findImage i (images (state w))
    end in
  match image with
  | None => (None, w)
  | Some image =>
      match bitmap image with
      | None => (None, w)
      | Some bmp =>
          if negb (enableSmartCrop closure) then (None, w)
          else
            let w1 := dispatch (SET_IMAGE_SMART_CROP_PENDING i true) w in
            let tw := targetWidth (exportSettings closure) in
            let th := targetHeight (exportSettings closure) in
            let '(p, a1) :=
              SmartCropWorker.analyzeImage_start numberToString
                getContext2d smartcrop_crop
                (SmartCropWorker.Bitmap bmp) tw th i (analyzer w1) in
            (Some (mkSmartCropRun i image tw th p),
             {| state := state w1; analyzer := a1 |})
      end
  end.

(** [runSmartCropForImage] from its [await] on.  Nothing in the [try]
    block throws ([analyzeImage] catches every error itself), so the
    [catch] clause, which alone dispatches
    [SET_IMAGE_SMART_CROP_PENDING false], is never entered. *)
Definition runSmartCropForImage_finish (run : SmartCropRun) (w : Store)
  : Store :=
  let '(result, a1) :=
    SmartCropWorker.analyzeImage_finish (run_pending run) (analyzer w) in
  let w1 := {| state := state w; analyzer := a1 |} in
  match result with
  | Some result =>
      let w2 :=
        dispatch (SET_IMAGE_SMART_CROP (run_id run) (Some result)) w1 in
      let newCropState :=
        CropMath.smartCropToCropState result
          (originalWidth (run_image run)) (originalHeight (run_image run))
          (run_targetWidth run / run_targetHeight run) in
      let newCropState :=
        {| centerX := centerX newCropState;
           centerY := centerY newCropState;
           scale := scale newCropState;
           aspect := aspect newCropState;
           rotation := rotation newCropState;
           sourceHash := sourceHash (cropState (run_image run)) |} in
      dispatch (UPDATE_CROP_STATE (run_id run) newCropState) w2
  | None => w1
  end.

(** A run that nothing else interleaves with. *)
Definition runSmartCropForImage (closure : AppSettings)
    (i : string) (imageOverride : option ImageFile) (w : Store) : Store :=
  match runSmartCropForImage_start closure i imageOverride w with
  | (Some run, w1) => runSmartCropForImage_finish run w1
  | (None, w1) => w1
  end.

Definition removeImage (i : string) (w : Store) : Store :=
  let w1 := dispatch (REMOVE_IMAGE i) w in
  {| state := state w1;
     analyzer := SmartCropWorker.clearSmartCropCache (Some i) (analyzer w1) |}.

Definition clearImages (w : Store) : Store :=
  let w1 := dispatch CLEAR_IMAGES w in
  {| state := state w1;
     analyzer := SmartCropWorker.clearSmartCropCache None (analyzer w1) |}.

Definition updateCropState (i : string) (c : CropState) (w : Store) : Store :=
  dispatch (UPDATE_CROP_STATE i c) w.

Definition setSelectedImage (i : option string) (w : Store) : Store :=
  dispatch (SET_SELECTED_IMAGE i) w.

Definition setEditingImage (i : option string) (w : Store) : Store :=
  dispatch (SET_EDITING_IMAGE i) w.

Definition applyCropToAll (c : CropState) (w : Store) : Store :=
  dispatch (APPLY_CROP_TO_ALL c) w.

End Provider.

End AppContext.

(** ** src/lib/imageUtils.ts and src/lib/exportImages.ts *)

Module ExportImages.

(** Encoded output bytes are opaque handles. *)
Definition Blob := nat.

(** What [saveAs] is called with: a blob or a generated archive. *)
Inductive Download :=
| BlobFile (b : Blob)
| ZipFile (entries : gmap string Blob).

Inductive Outcome :=
| Resolved
| Rejected (message : string).

(** One call of [exportImages]: the [saveAs] calls it made, the
    [onProgress] calls it made, and how its promise settled. *)
Record ExportRun := mkExportRun {
  saved : list (Download * string);
  progress : list (nat * nat);
  outcome : Outcome
}.

Section Environment.

Variable numberToString : Q -> string.
(** The canvas: what drawing the crop and [canvas.toBlob] end in, the
    error message when [processImage] throws or rejects. *)
Variable rasterize :
  ImageBitmap -> CropRect -> ExportSettings -> string + Blob.
(** [new Date().toISOString().slice(0, 10)] *)
Variable today : string.

Definition processImage (bitmap : ImageBitmap) (cropRect : CropRect)
    (settings : ExportSettings) : string + Blob :=
  rasterize bitmap cropRect settings.

Definition formatName (f : ImageFormat) : string :=
  match f with jpeg => "jpeg" | png => "png" | webp => "webp" end.

Definition generateExportFilename (index : nat) (settings : ExportSettings)
  : string :=
  let actualIndex := startIndex settings + inject_Z (Z.of_nat index) in
  let extension :=
    match format settings with
    | jpeg => "jpg"
    | f => formatName f
    end in
  prefix settings +:+ numberToString actualIndex +:+ suffix settings
    +:+ "." +:+ extension.

(** The [for] loop of the multi-image branch, at index [i] with the
    images from [i] on still to do; [total] is [images.length].  When
    [processImage] rejects, the loop is left with the error and with the
    [onProgress] calls made until then. *)
Fixpoint zipLoop (rest : list ImageFile) (i total : nat)
    (settings : ExportSettings)
    (zip : gmap string Blob) (progress : list (nat * nat))
  : (string * list (nat * nat)) + (gmap string Blob * list (nat * nat)) :=
  match rest with
  | [] => inr (zip, progress)
  | image :: rest' =>
      match bitmap image with
      | None => zipLoop rest' (S i) total settings zip progress
      | Some bmp =>
          let cropRect :=
            CropMath.getCropRect (originalWidth image)
              (originalHeight image) (cropState image) in
          match processImage bmp cropRect settings with
          | inl e => inl (e, progress)
          | inr blob =>
              let filename := generateExportFilename i settings in
              zipLoop rest' (S i) total settings
                (<[filename := blob]> zip)
                (progress ++ [(S i, total)])
          end
      end
  end.

Definition exportImages (images : list ImageFile)
    (settings : ExportSettings) : ExportRun :=
  match images with
  | [] => mkExportRun [] [] (Rejected "No images to export")
  | [image] =>
      match bitmap image with
      | None => mkExportRun [] [] (Rejected "Image not loaded")
      | Some bmp =>
          let cropRect :=
            CropMath.getCropRect (originalWidth image)
              (originalHeight image) (cropState image) in
          match processImage bmp cropRect settings with
          | inl e => mkExportRun [] [] (Rejected e)
          | inr blob =>
              mkExportRun
                [(BlobFile blob, generateExportFilename 0 settings)]
                [(1%nat, 1%nat)] Resolved
          end
      end
  | _ =>
      match zipLoop images 0 (length images) settings ∅ [] with
      | inl (e, progress) => mkExportRun [] progress (Rejected e)
      | inr (zip, progress) =>
          mkExportRun
            [(ZipFile zip, "mybirme-export-" +:+ today +:+ ".zip")]
            progress Resolved
      end
  end.

(** [handleExport] of the sidebar: the toast it ends with. *)
Inductive Toast :=
| toast_error (message : string)
| toast_success (message : string).

Definition handleExport (images : list ImageFile)
    (settings : ExportSettings) : Toast * list (Download * string) :=
  match images with
  | [] => (toast_error "No images to export", [])
  | _ =>
      let run := exportImages images settings in
      match outcome run with
      | Resolved =>
          (toast_success
             ("Exported "
                +:+ numberToString (inject_Z (Z.of_nat (length images)))
                +:+ " images"),
           saved run)
      | Rejected _ =>
          (toast_error "Export failed. Please try again.", saved run)
      end
  end.

End Environment.

End ExportImages.

(** ** Concrete environments for the examples *)

Module Examples.

(** Number-to-string on integer-valued numbers, the only ones the
    examples format. *)
Definition integerToString (q : Q) : string :=
  DecimalString.NilZero.string_of_int (Z.to_int (Qfloor q)).

(** A 1200 x 800 image with the default framing. *)
Definition sampleImage (i : string) (b : option ImageBitmap) : ImageFile :=
  {| id := i; file := 0%nat; name := i +:+ ".png";
     originalWidth := 1200; originalHeight := 800;
     bitmap := b; thumbnail := "";
     cropState := DEFAULT_CROP_STATE;
     smartCropResult := None;
     isProcessing := false; isSmartCropPending := false |}.

(** The store after [sampleImage "a"] has been added to the initial one. *)
Definition sampleStore : AppContext.Store :=
  {| AppContext.state :=
       AppContext.appReducer AppContext.initialState
         (AppContext.ADD_IMAGES [sampleImage "a" (Some 0%nat)]);
     AppContext.analyzer := SmartCropWorker.emptyAnalyzer |}.

(** A canvas context is always to be had. *)
Definition anyContext : ImageBitmap -> bool := fun _ => true.

(** A detector that rejects every invocation, and one that always answers
    with the same region. *)
Definition failingDetector
  : list SmartCropWorker.DetectorCall -> SmartCropWorker.DetectorCall ->
    option SmartCropWorker.Crop :=
  fun _ _ => None.

Definition fixedDetector
  : list SmartCropWorker.DetectorCall -> SmartCropWorker.DetectorCall ->
    option SmartCropWorker.Crop :=
  fun _ _ => Some (SmartCropWorker.mkCrop 100 50 600 400 None).

(** A detector that rejects bitmap 0 and answers for every other source. *)
Definition rejectsBitmapZero
  : list SmartCropWorker.DetectorCall -> SmartCropWorker.DetectorCall ->
    option SmartCropWorker.Crop :=
  fun _ call =>
    match SmartCropWorker.call_source call with
    | SmartCropWorker.Bitmap O => None
    | _ => Some (SmartCropWorker.mkCrop 100 50 600 400 None)
    end.

(** A detector that rejects every target of 1000 pixels or more in width
    and answers for the narrower ones. *)
Definition rejectsWideTargets
  : list SmartCropWorker.DetectorCall -> SmartCropWorker.DetectorCall ->
    option SmartCropWorker.Crop :=
  fun _ call =>
    if Qle_bool 1000 (SmartCropWorker.call_width call) then None
    else Some (SmartCropWorker.mkCrop 100 50 600 400 None).

(** Suspended jobs resume in the order they were started, or in the
    opposite one. *)
Definition inOrder
  : list (SmartCropWorker.Job * SmartCropWorker.Pending) ->
    list (SmartCropWorker.Job * SmartCropWorker.Pending) := fun l => l.

Definition lastFirst
  : list (SmartCropWorker.Job * SmartCropWorker.Pending) ->
    list (SmartCropWorker.Job * SmartCropWorker.Pending) := @rev _.

Definition sampleJob (i : string) (b : ImageBitmap) : SmartCropWorker.Job :=
  SmartCropWorker.mkJob i b 1200 800.

Definition fiveJobs : list SmartCropWorker.Job :=
  [sampleJob "a" 1; sampleJob "b" 0; sampleJob "c" 2; sampleJob "d" 0;
   sampleJob "e" 3]%nat.

(** A canvas that fails to rasterize bitmap 0 and encodes every other
    bitmap to the blob of the same number. *)
Definition failsOnFirst
  : ImageBitmap -> CropRect -> ExportSettings -> string + ExportImages.Blob :=
  fun b _ _ =>
    match b with
    | O => inl "Failed to create blob"
    | S _ => inr b
    end.

Definition alwaysRasterizes
  : ImageBitmap -> CropRect -> ExportSettings -> string + ExportImages.Blob :=
  fun b _ _ => inr b.

End Examples.

(** ** src/hooks/useCropState.ts *)

Module UseCropState.

Section Hook.

(** The arguments of [useCropState]. *)
Variable cropState : CropState.
Variable imageWidth imageHeight : Q.

Definition calculation : CropCalculation :=
  CropMath.calculateCrop imageWidth imageHeight cropState.

Definition cropRect : CropRect :=
  CropMath.getCropRect imageWidth imageHeight cropState.

Definition maxScale : Q :=
  CropMath.getMaxScale imageWidth imageHeight (aspect cropState).

Definition displayCrop : CropRect :=
  {| rect_x := cropX calculation;
     rect_y := cropY calculation;
     rect_width := cropWidth calculation;
     rect_height := cropHeight calculation |}.

Definition updateCenter (centerX centerY : Q) : CropState :=
  let clamped :=
    CropMath.clampCropCenter centerX centerY
      (cropWidth calculation) (cropHeight calculation)
      imageWidth imageHeight in
  {| centerX := fst clamped; centerY := snd clamped;
     scale := scale cropState; aspect := aspect cropState;
     rotation := rotation cropState; sourceHash := sourceHash cropState |}.

Definition updateScale (scale : Q) : CropState :=
  let clampedScale := Qmax 1 (Qmin maxScale scale) in
  {| centerX := centerX cropState; centerY := centerY cropState;
     scale := clampedScale; aspect := aspect cropState;
     rotation := rotation cropState; sourceHash := sourceHash cropState |}.

Definition reset : CropState :=
  {| centerX := 1 # 2; centerY := 1 # 2; scale := 1;
     aspect := aspect cropState;
     rotation := rotation cropState; sourceHash := sourceHash cropState |}.

Definition center : CropState :=
  {| centerX := 1 # 2; centerY := 1 # 2; scale := scale cropState;
     aspect := aspect cropState;
     rotation := rotation cropState; sourceHash := sourceHash cropState |}.

Definition fit : CropState :=
  {| centerX := 1 # 2; centerY := 1 # 2; scale := 1;
     aspect := aspect cropState;
     rotation := rotation cropState; sourceHash := sourceHash cropState |}.

End Hook.

End UseCropState.

(** ** src/hooks/useAspectRatio.ts

    Each setter ends in one call of [updateExportSettings]; it is modelled
    by the payload of that call. *)

Module UseAspectRatio.

Definition noChange : PartialExportSettings :=
  mkPartialExportSettings None None None None None None None None.

Section Hook.

(** [state.settings.exportSettings] *)
Variable es : ExportSettings.

Definition aspect : Q := targetWidth es / targetHeight es.

Definition setWidth (width : Q) : PartialExportSettings :=
  if aspectLocked es then
    let newHeight := CropMath.Math_round (width / aspect) in
    mkPartialExportSettings None None (Some width) (Some newHeight)
                            None None None None
  else
    mkPartialExportSettings None None (Some width) None None None None None.

Definition setHeight (height : Q) : PartialExportSettings :=
  if aspectLocked es then
    let newWidth := CropMath.Math_round (height * aspect) in
    mkPartialExportSettings None None (Some newWidth) (Some height)
                            None None None None
  else
    mkPartialExportSettings None None None (Some height) None None None None.

Definition setAspect (newAspect : Q) : PartialExportSettings :=
  let newHeight := CropMath.Math_round (targetWidth es / newAspect) in
  mkPartialExportSettings None None None (Some newHeight) None None None None.

Definition toggleAspectLock : PartialExportSettings :=
  mkPartialExportSettings None None None None
                          (Some (negb (aspectLocked es))) None None None.

End Hook.

End UseAspectRatio.

(** ** src/context/AppContext.tsx: the other callbacks of [AppProvider] *)

Module AppProvider.

Import AppContext.

(** A [File] the browser hands to [addImages]: the opaque object, its
    [name] and its [type]. *)
Record BrowserFile := mkBrowserFile {
  bf_file : File;
  bf_name : string;
  bf_type : string
}.

(** What loading one file yields when none of [generateFileHash],
    [loadImageWithOrientation] and [generateThumbnail] fails. *)
Record LoadedFile := mkLoadedFile {
  lf_hash : string;
  lf_bitmap : ImageBitmap;
  lf_width : Q;
  lf_height : Q;
  lf_thumbnail : string
}.

(** [isValidImageFile] of src/lib/imageUtils.ts *)
Definition validTypes : list string :=
  ["image/jpeg"; "image/png"; "image/webp"; "image/gif"; "image/bmp"].

Definition isValidImageFile (f : BrowserFile) : bool :=
  existsb (String.eqb (bf_type f)) validTypes.

(** The map the effect "save crop states when they change" builds from
    [state.images]; a [sourceHash] that is absent or empty is skipped. *)
Definition cropStatesOf (imgs : list ImageFile) : gmap string CropState :=
  foldl (fun m img =>
           match sourceHash (cropState img) with
           | Some h => if String.eqb h "" then m else <[h := cropState img]> m
           | None => m
           end)
        ∅ imgs.

(** What the effect passes to [saveCropStates], when it calls it. *)
Definition cropStatesToSave (imgs : list ImageFile)
  : option (gmap string CropState) :=
  let cropStates := cropStatesOf imgs in
  if decide (cropStates = ∅) then None else Some cropStates.

Section Provider.

Variable numberToString : Q -> string.
Variable getContext2d : ImageBitmap -> bool.
Variable smartcrop_crop :
  list SmartCropWorker.DetectorCall -> SmartCropWorker.DetectorCall ->
  option SmartCropWorker.Crop.
(** [generateImageId]: the identity the [n]-th call within one [addImages]
    returns. *)
Variable generateImageId : nat -> string.
(** The three loading steps of one file, [None] when one of them fails. *)
Variable loadFile : BrowserFile -> option LoadedFile.

Definition updateSettings (p : PartialAppSettings) (w : Store) : Store :=
  dispatch (UPDATE_SETTINGS p) w.

(** [updateExportSettings]; [closure] is the settings value the callback
    was created with. *)
Definition updateExportSettings (closure : AppSettings)
    (p : PartialExportSettings) (w : Store) : Store :=
  let w1 := dispatch (UPDATE_EXPORT_SETTINGS p) w in
  match p_targetWidth p, p_targetHeight p with
  | None, None => w1
  | _, _ =>
      let newWidth :=
        default (targetWidth (exportSettings closure)) (p_targetWidth p) in
      let newHeight :=
        default (targetHeight (exportSettings closure)) (p_targetHeight p) in
      let newAspect := newWidth / newHeight in
      let w2 := dispatch (UPDATE_ALL_CROP_STATES newAspect) w1 in
      if enableSmartCrop closure then
        {| state := state w2;
           analyzer :=
             SmartCropWorker.clearSmartCropCache None (analyzer w2) |}
      else w2
  end.

(** [recomputeSmartCrop]; [closure] is the state the callback was created
    with.  The runs are awaited one after the other. *)
Definition recomputeSmartCrop (closure : AppState) (w : Store) : Store :=
  if negb (enableSmartCrop (settings closure)) then w
  else
    let w1 :=
      {| state := state w;
         analyzer := SmartCropWorker.clearSmartCropCache None (analyzer w) |} in
    fold_left
      (fun w img =>
         match bitmap img with
         | Some _ =>
             runSmartCropForImage numberToString getContext2d smartcrop_crop
               (settings closure) (id img) None w
         | None => w
         end)
      (images closure) w1.

(** The loop of [addImages] over the valid files; [n] counts the calls of
    [generateImageId] made so far. *)
Fixpoint loadImages (closure : AppSettings)
    (savedCrops : gmap string CropState) (validFiles : list BrowserFile)
    (n : nat) : list ImageFile :=
  match validFiles with
  | [] => []
  | f :: rest =>
      let i := generateImageId n in
      match loadFile f with
      | None => loadImages closure savedCrops rest (S n)
      | Some l =>
          let aspect :=
            targetWidth (exportSettings closure)
            / targetHeight (exportSettings closure) in
          let savedCrop := savedCrops !! lf_hash l in
          let cropState :=
            match savedCrop with
            | Some c => c
            | None =>
                {| centerX := centerX DEFAULT_CROP_STATE;
                   centerY := centerY DEFAULT_CROP_STATE;
                   scale := scale DEFAULT_CROP_STATE;
                   aspect := aspect;
                   rotation := rotation DEFAULT_CROP_STATE;
                   sourceHash := Some (lf_hash l) |}
            end in
          let cropState :=
            {| centerX := centerX cropState; centerY := centerY cropState;
               scale := scale cropState; aspect := Types.aspect cropState;
               rotation := rotation cropState;
               sourceHash := Some (lf_hash l) |} in
          {| id := i; file := bf_file f; name := bf_name f;
             originalWidth := lf_width l; originalHeight := lf_height l;
             bitmap := Some (lf_bitmap l); thumbnail := lf_thumbnail l;
             cropState := cropState;
             smartCropResult := None;
             isProcessing := false;
             isSmartCropPending :=
               enableSmartCrop closure
               && match savedCrop with Some _ => false | None => true end |}
          :: loadImages closure savedCrops rest (S n)
      end
  end.

(** [addImages]: the store after its three dispatches, and the runs of
    [runSmartCropForImage] it schedules with [setTimeout], as the pairs
    [(img.id, img)] they are called with.  [savedCrops] is
    [loadCropStates() || {}]. *)
Definition addImages (closure : AppSettings)
    (savedCrops : gmap string CropState) (files : list BrowserFile)
    (w : Store) : Store * list (string * ImageFile) :=
  let w1 := dispatch (SET_PROCESSING true) w in
  let validFiles := List.filter isValidImageFile files in
  let newImages := loadImages closure savedCrops validFiles 0 in
  let w2 := dispatch (ADD_IMAGES newImages) w1 in
  let w3 := dispatch (SET_PROCESSING false) w2 in
  let scheduled :=
    if enableSmartCrop closure then
      map (fun img => (id img, img))
          (List.filter
             (fun img => isSmartCropPending img
                         && match bitmap img with
                            | Some _ => true
                            | None => false
                            end)
             newImages)
    else [] in
  (w3, scheduled).

(** [handleApplyToAll] of the sidebar. *)
Definition handleApplyToAll (w : Store) : Store :=
  match images (state w) with
  | [] => w
  | firstImage :: _ => applyCropToAll (cropState firstImage) w
  end.

End Provider.

End AppProvider.

(** ** src/lib/storage.ts *)

Module Storage.

Definition STORAGE_PREFIX : string := "mybirme_".
Definition SETTINGS_KEY : string := STORAGE_PREFIX +:+ "settings".
Definition CROPS_KEY : string := STORAGE_PREFIX +:+ "crops".

Section LocalStorage.

(** [JSON.stringify] and [JSON.parse] at the two types stored; [parse]
    is [None] where [JSON.parse] throws or yields [null]. *)
Variable stringifySettings : AppSettings -> string.
Variable parseSettings : string -> option AppSettings.
Variable stringifyCrops : gmap string CropState -> string.
Variable parseCrops : string -> option (gmap string CropState).
(** Whether [localStorage.setItem] throws (the quota is exceeded). *)
Variable setItemThrows : gmap string string -> string -> string -> bool.

(** [localStorage.setItem] inside [try]: the storage afterwards. *)
Definition trySetItem (key value : string) (storage : gmap string string)
  : gmap string string :=
  if setItemThrows storage key value then storage
  else <[key := value]> storage.

Definition saveSettings (settings : AppSettings)
    (storage : gmap string string) : gmap string string :=
  trySetItem SETTINGS_KEY (stringifySettings settings) storage.

Definition loadSettings (storage : gmap string string) : option AppSettings :=
  match storage !! SETTINGS_KEY with
  | Some stored => if String.eqb stored "" then None else parseSettings stored
  | None => None
  end.

Definition saveCropStates (crops : gmap string CropState)
    (storage : gmap string string) : gmap string string :=
  trySetItem CROPS_KEY (stringifyCrops crops) storage.

Definition loadCropStates (storage : gmap string string)
  : option (gmap string CropState) :=
  match storage !! CROPS_KEY with
  | Some stored => if String.eqb stored "" then None else parseCrops stored
  | None => None
  end.

Definition clearStorage (storage : gmap string string) : gmap string string :=
  delete CROPS_KEY (delete SETTINGS_KEY storage).

Definition getCropStateByHash (hash : string) (storage : gmap string string)
  : option CropState :=
  match loadCropStates storage with
  | Some crops => crops !! hash
  | None => None
  end.

Definition updateCropState (hash : string) (cropState : CropState)
    (storage : gmap string string) : gmap string string :=
  let crops := default ∅ (loadCropStates storage) in
  saveCropStates (<[hash := cropState]> crops) storage.

End LocalStorage.

End Storage.

(** ** src/lib/imageUtils.ts: [generateThumbnail];
       src/lib/exportImages.ts: [exportSingleImage] *)

Module ImageUtils.

(** The canvas size [generateThumbnail] draws a bitmap of the given size
    to. *)
Definition thumbnailSize (bitmapWidth bitmapHeight maxSize : Q) : Q * Q :=
  let scale := Qmin (Qmin (maxSize / bitmapWidth) (maxSize / bitmapHeight)) 1 in
  let width := CropMath.Math_round (bitmapWidth * scale) in
  let height := CropMath.Math_round (bitmapHeight * scale) in
  (width, height).

Section Canvas.

(** [bitmap.width] and [bitmap.height] *)
Variable bitmapSize : ImageBitmap -> Q * Q.
(** Drawing the bitmap to a canvas of the given size and reading it as a
    JPEG data URL; [None] when no 2d context is to be had. *)
Variable drawToDataURL : ImageBitmap -> Q -> Q -> option string.

(** [generateThumbnail]; [None] is the thrown error. *)
Definition generateThumbnail (bitmap : ImageBitmap) (maxSize : Q)
  : option string :=
  let size :=
    thumbnailSize (fst (bitmapSize bitmap)) (snd (bitmapSize bitmap)) maxSize in
  drawToDataURL bitmap (fst size) (snd size).

End Canvas.

Section SingleExport.

Variable numberToString : Q -> string.
Variable rasterize :
  ImageBitmap -> CropRect -> ExportSettings -> string + ExportImages.Blob.

(** [exportSingleImage]: the [saveAs] calls it makes and how its promise
    settles. *)
Definition exportSingleImage (image : ImageFile) (settings : ExportSettings)
    (index : nat)
  : list (ExportImages.Download * string) * ExportImages.Outcome :=
  match bitmap image with
  | None => ([], ExportImages.Rejected "Image not loaded")
  | Some bmp =>
      let cropRect :=
        CropMath.getCropRect (originalWidth image) (originalHeight image)
                             (cropState image) in
      match ExportImages.processImage rasterize bmp cropRect settings with
      | inl e => ([], ExportImages.Rejected e)
      | inr blob =>
          ([(ExportImages.BlobFile blob,
             ExportImages.generateExportFilename numberToString index settings)],
           ExportImages.Resolved)
      end
  end.

End SingleExport.

End ImageUtils.

(** * Properties *)

(** ** Crop geometry *)

Module CropMathFacts.
Import CropMath.

Lemma Qmax_cases (a b : Q) : (Qmax a b = a /\ b <= a) \/ (Qmax a b = b /\ a < b).
Proof.
  unfold Qmax, GenericMinMax.gmax.
  destruct (a ?= b) eqn:E.
  - left. split; [reflexivity|]. apply Qeq_alt in E. lra.
  - right. split; [reflexivity|]. apply Qlt_alt in E. lra.
  - left. split; [reflexivity|]. apply Qgt_alt in E. lra.
Qed.

Lemma Qmin_cases (a b : Q) : (Qmin a b = a /\ a <= b) \/ (Qmin a b = b /\ b < a).
Proof.
  unfold Qmin, GenericMinMax.gmin.
  destruct (a ?= b) eqn:E.
  - left. split; [reflexivity|]. apply Qeq_alt in E. lra.
  - left. split; [reflexivity|]. apply Qlt_alt in E. lra.
  - right. split; [reflexivity|]. apply Qgt_alt in E. lra.
Qed.

Lemma Qmax_l_eq (a b : Q) : b <= a -> Qmax a b = a.
Proof. intros H. destruct (Qmax_cases a b) as [[E _]|[_ H']]; [exact E | lra]. Qed.

Lemma Qmax_r_eq (a b : Q) : a < b -> Qmax a b = b.
Proof. intros H. destruct (Qmax_cases a b) as [[_ H']|[E _]]; [lra | exact E]. Qed.

Lemma Qmin_l_eq (a b : Q) : a <= b -> Qmin a b = a.
Proof. intros H. destruct (Qmin_cases a b) as [[E _]|[_ H']]; [exact E | lra]. Qed.

Lemma Qmin_r_eq (a b : Q) : b < a -> Qmin a b = b.
Proof. intros H. destruct (Qmin_cases a b) as [[_ H']|[E _]]; [lra | exact E]. Qed.

(** [Math.max(lo, Math.min(hi, _))] is idempotent for any [lo] and [hi],
    ordered or not; the results are equal as terms, not only as
    rationals. *)
Lemma clamp_idempotent (lo hi x : Q) :
  clamp lo hi (clamp lo hi x) = clamp lo hi x.
Proof.
  unfold clamp.
  destruct (Qmax_cases lo (Qmin hi x)) as [[E Hm]|[E Hm]]; rewrite E.
  - destruct (Qmin_cases hi lo) as [[E' H']|[E' H']]; rewrite E'.
    + apply Qmax_l_eq; exact H'.
    + apply Qmax_l_eq; lra.
  - destruct (Qmin_cases hi x) as [[E' H']|[E' H']]; rewrite E' in *.
    + rewrite (Qmin_l_eq hi hi) by lra. apply Qmax_r_eq; exact Hm.
    + rewrite E'. apply Qmax_r_eq; exact Hm.
Qed.



Lemma div_pos (b s : Q) : 0 < b -> 0 < s -> 0 < b / s.
Proof. intros Hb Hs. apply Qlt_shift_div_l; [exact Hs | lra]. Qed.


Lemma ratio_le_mult (w h a : Q) : 0 < h -> w / h <= a -> w <= a * h.
Proof.
  intros Hh H.
  assert (E : w == (w / h) * h) by (field; lra).
  rewrite E. apply Qmult_le_compat_r; lra.
Qed.

Lemma ratio_gt_mult (w h a : Q) : 0 < h -> ~ w / h <= a -> a * h < w.
Proof.
  intros Hh H. apply Qnot_le_lt in H.
  assert (E : w == (w / h) * h) by (field; lra).
  rewrite E. apply Qmult_lt_compat_r; lra.
Qed.

(** The base rectangle of [calculateCrop] is the specification's, and it
    fits inside the image. *)
Lemma calculateCrop_base (iw ih : Q) (cs : CropState) :
  (baseWidth (calculateCrop iw ih cs), baseHeight (calculateCrop iw ih cs))
  = Spec.baseRectangle iw ih (aspect cs).
Proof.
  unfold calculateCrop, Spec.baseRectangle.
  destruct (Qle_bool (iw / ih) (aspect cs)); reflexivity.
Qed.

Lemma baseRectangle_fits (iw ih a : Q) :
  0 < iw -> 0 < ih -> 0 < a ->
  let b := Spec.baseRectangle iw ih a in
  0 < fst b /\ fst b <= iw /\ 0 < snd b /\ snd b <= ih.
Proof.
  intros Hw Hh Ha. unfold Spec.baseRectangle.
  destruct (Qle_bool (iw / ih) a) eqn:E; simpl.
  - apply Qle_bool_iff in E. apply ratio_le_mult in E; [|exact Hh].
    repeat split; try lra.
    + apply div_pos; assumption.
    + apply Qle_shift_div_r; [exact Ha | lra].
  - assert (N : ~ iw / ih <= a).
    { intros C. apply Qle_bool_iff in C. congruence. }
    apply ratio_gt_mult in N; [|exact Hh].
    repeat split; try lra. nra.
Qed.





(** C9: [clampCropCenter] is idempotent, for all crop and image
    dimensions: clamping a clamped centre returns it.  This rests on
    [clamp_idempotent], which holds for any pair of bounds, also for a
    lower bound above the upper one (a crop larger than the image), so it
    does not depend on what the two divisions of the function yield. *)
Theorem clampCropCenter_idempotent
    (centerX centerY cropWidth cropHeight imageWidth imageHeight : Q) :
  let once := clampCropCenter centerX centerY cropWidth cropHeight
                              imageWidth imageHeight in
  clampCropCenter (fst once) (snd once) cropWidth cropHeight
                  imageWidth imageHeight = once.
Proof.
  unfold clampCropCenter. cbn [fst snd].
  f_equal; apply clamp_idempotent.
Qed.

(** The worked example of the specification: a 1200 x 800 image, a square
    target, fit and centred. *)
Example square_crop_of_1200_by_800 :
  let c := calculateCrop 1200 800 DEFAULT_CROP_STATE in
  baseWidth c == 800 /\ baseHeight c == 800 /\
  cropX c == 200 /\ cropY c == 0 /\
  cropWidth c == 800 /\ cropHeight c == 800 /\
  getCropRect 1200 800 DEFAULT_CROP_STATE = mkCropRect 200 0 800 800.
Proof. vm_compute. repeat split; reflexivity. Qed.

(** The degenerate case of [clampCropCenter]: a crop wider than the image
    has its lower bound above its upper bound, and the lower bound wins. *)
Example clampCropCenter_crop_exceeds_image :
  fst (clampCropCenter (1 # 2) (1 # 2) 300 50 100 100) == 3 # 2.
Proof. vm_compute. reflexivity. Qed.

End CropMathFacts.

(** ** Crop geometry in double arithmetic *)

Module CropMath64Facts.
Import Float64Order.




















(** The same overshoot for an image of 161 x 115 and a target aspect of
    1400 / 1000. *)
Example calculateCrop_161_by_115 :
  let cs := CropMath64.mkCropState 0.5 0.5 1 (1400 / 1000) None None in
  let d := CropMath64.calculateCrop 161 115 cs in
  CropMath64.cropY d = 0%float /\
  (115 <? CropMath64.cropHeight d)%float = true.
Proof. vm_compute. split; reflexivity. Qed.




End CropMath64Facts.

(** ** The image collection: [appReducer] and the provider callbacks *)

Module AppContextFacts.
Import AppContext.

Import Examples.

Lemma state_eta (s : AppState) :
  {| images := images s; settings := settings s;
     appIsProcessing := appIsProcessing s;
     selectedImageId := selectedImageId s;
     editingImageId := editingImageId s |} = s.
Proof. destruct s; reflexivity. Qed.

Lemma withImages_same (s : AppState) : withImages s (images s) = s.
Proof. apply state_eta. Qed.

(** Mapping an update guarded by [img.id === i] over a list that has no
    entry of identity [i] returns the list. *)
Lemma map_guarded_absent (f : ImageFile -> ImageFile) (i : string)
    (imgs : list ImageFile) :
  (forall img, In img imgs -> id img <> i) ->
  map (fun img => if String.eqb (id img) i then f img else img) imgs = imgs.
Proof.
  induction imgs as [|img imgs IH]; intros H; [reflexivity|].
  cbn [map]. rewrite IH by (intros x Hx; apply H; right; exact Hx).
  destruct (String.eqb_spec (id img) i) as [E|_]; [|reflexivity].
  exfalso. apply (H img); [left; reflexivity | exact E].
Qed.

Lemma findImage_filter_removed (i : string) (imgs : list ImageFile) :
  findImage i (List.filter (fun img => negb (String.eqb (id img) i)) imgs)
  = None.
Proof.
  induction imgs as [|img imgs IH]; [reflexivity|].
  cbn [List.filter]. destruct (String.eqb (id img) i) eqn:E; cbn [negb].
  - exact IH.
  - unfold findImage in *. cbn [List.find]. rewrite E. exact IH.
Qed.

Lemma findImage_some (i : string) (imgs : list ImageFile) (img : ImageFile) :
  findImage i imgs = Some img -> In img imgs /\ id img = i.
Proof.
  unfold findImage. intros H. apply List.find_some in H as [H1 H2].
  split; [exact H1|]. apply String.eqb_eq. exact H2.
Qed.

(** C1: the claim holds of [CLEAR_IMAGES] and fails of [REMOVE_IMAGE],
    which filters the collection and resets neither identity, as its
    sibling case [CLEAR_IMAGES] does.  Adding an image, opening it in the
    editor, selecting it and removing it reaches a state whose
    [editingImageId] and [selectedImageId] still name the removed entry;
    clearing the collection instead resets both. *)
Lemma removeImage_leaves_dangling_reference :
  let w0 := setSelectedImage (Some "a")
              (setEditingImage (Some "a") sampleStore) in
  let w := removeImage "a" w0 in
  reachable (state w) /\
  images (state w) = [] /\
  editingImageId (state w) = Some "a" /\
  selectedImageId (state w) = Some "a" /\
  ~ noDanglingReference (state w) /\
  (editingImageId (state (clearImages w0)) = None /\
   selectedImageId (state (clearImages w0)) = None /\
   noDanglingReference (state (clearImages w0))).
Proof.
  cbv zeta. split; [|split; [|split; [|split; [|split]]]].
  - unfold removeImage, setSelectedImage, setEditingImage, dispatch, sampleStore.
    cbn [state]. repeat apply reachable_dispatch. apply reachable_initial.
  - reflexivity.
  - reflexivity.
  - reflexivity.
  - intros [_ H]. destruct (H "a" eq_refl) as (img & Hin & _).
    exact Hin.
  - split; [reflexivity|]. split; [reflexivity|].
    split; intros j H; discriminate H.
Qed.

(** What the two reducer cases do, for every state: [CLEAR_IMAGES]
    empties the collection and resets both identities; [REMOVE_IMAGE]
    removes every entry of the given identity and does not touch
    [selectedImageId] and [editingImageId], whatever they name.  The
    lookup [Index] makes before rendering the editor returns an entry of
    the collection or none, and none once the edited entry is removed. *)
Lemma removal_and_clearing_of_references (s : AppState) (i : string) :
  (images (appReducer s CLEAR_IMAGES) = [] /\
   selectedImageId (appReducer s CLEAR_IMAGES) = None /\
   editingImageId (appReducer s CLEAR_IMAGES) = None /\
   noDanglingReference (appReducer s CLEAR_IMAGES)) /\
  (selectedImageId (appReducer s (REMOVE_IMAGE i)) = selectedImageId s /\
   editingImageId (appReducer s (REMOVE_IMAGE i)) = editingImageId s /\
   findImage i (images (appReducer s (REMOVE_IMAGE i))) = None /\
   ~ inCollection i (appReducer s (REMOVE_IMAGE i))) /\
  (match editingImage s with
   | Some img => In img (images s) /\ editingImageId s = Some (id img)
   | None => True
   end) /\
  editingImage
    (appReducer (appReducer s (SET_EDITING_IMAGE (Some i))) (REMOVE_IMAGE i))
  = None.
Proof.
  repeat split.
  - cbn. intros j H. discriminate H.
  - cbn. intros j H. discriminate H.
  - apply findImage_filter_removed.
  - intros (img & Hin & E). cbn in Hin.
    apply List.filter_In in Hin as [_ Hn].
    rewrite E, String.eqb_refl in Hn. discriminate Hn.
  - unfold editingImage. destruct (editingImageId s) as [j|] eqn:Ej; [|exact I].
    destruct (String.eqb j ""); [exact I|].
    destruct (findImage j (images s)) as [img|] eqn:F; [|exact I].
    apply findImage_some in F as [Hin E]. split; [exact Hin | congruence].
  - unfold editingImage. cbn [appReducer withImages editingImageId images].
    destruct (String.eqb i ""); [reflexivity|].
    apply findImage_filter_removed.
Qed.

(** C5: in a state that has no entry of identity [i], the two transitions
    an analysis completion dispatches, [SET_IMAGE_SMART_CROP] and
    [UPDATE_CROP_STATE], return the state they were given, and so does the
    whole completion handler [runSmartCropForImage_finish] on the store's
    state; all three are total functions, there is no error to raise. *)
Theorem late_result_is_discarded (s : AppState) (i : string)
    (result : option SmartCropResult) (c : CropState) :
  (forall img, In img (images s) -> id img <> i) ->
  appReducer s (SET_IMAGE_SMART_CROP i result) = s /\
  appReducer s (UPDATE_CROP_STATE i c) = s /\
  forall (a : SmartCropWorker.Analyzer) (run : SmartCropRun),
    run_id run = i ->
    state (runSmartCropForImage_finish run {| state := s; analyzer := a |}) = s.
Proof.
  intros H. repeat split.
  - cbn [appReducer]. rewrite map_guarded_absent by exact H.
    apply withImages_same.
  - cbn [appReducer]. rewrite map_guarded_absent by exact H.
    apply withImages_same.
  - intros a run <-. unfold runSmartCropForImage_finish.
    destruct (SmartCropWorker.analyzeImage_finish (run_pending run) _)
      as [[r|] a1]; cbn [analyzer state]; [|reflexivity].
    unfold dispatch. cbn [state appReducer].
    rewrite map_guarded_absent by exact H. rewrite withImages_same.
    cbn [images]. rewrite map_guarded_absent by exact H.
    apply withImages_same.
Qed.

Lemma late_result_is_discarded_witness :
  let s := state sampleStore in
  let r := mkSmartCropResult 100 50 600 400 1 in
  let run :=
    mkSmartCropRun "gone" (sampleImage "gone" (Some 1%nat)) 1200 800
      (SmartCropWorker.Awaiting "gone_1200_800"
         (Some (SmartCropWorker.mkCrop 100 50 600 400 None))) in
  map id (images s) = ["a"] /\
  appReducer s (SET_IMAGE_SMART_CROP "gone" (Some r)) = s /\
  appReducer s (UPDATE_CROP_STATE "gone" (mkCropState 0 0 2 1 None None)) = s /\
  state (runSmartCropForImage_finish run
           {| state := s; analyzer := SmartCropWorker.emptyAnalyzer |}) = s.
Proof.
  cbv zeta.
  assert (H : forall img, In img (images (state sampleStore)) ->
                          id img <> "gone").
  { intros img [<-|[]]. cbn. discriminate. }
  pose proof (late_result_is_discarded (state sampleStore) "gone"
                (Some (mkSmartCropResult 100 50 600 400 1))
                (mkCropState 0 0 2 1 None None) H) as (H1 & H2 & H3).
  split; [reflexivity|]. split; [exact H1|]. split; [exact H2|].
  apply H3. reflexivity.
Defined.

(** C10: after [APPLY_CROP_TO_ALL payload] the collection has the same
    entries in the same order, and every entry's crop state is the payload
    field by field, fingerprint ([sourceHash]) and [rotation] included,
    except that [aspect] is the export settings'
    [targetWidth / targetHeight] (a quotient the number model only covers
    for a non-zero [targetHeight]); no entry keeps its own fingerprint. *)
Theorem applyCropToAll_overwrites_every_framing (s : AppState)
    (payload : CropState) :
  let s' := appReducer s (APPLY_CROP_TO_ALL payload) in
  map id (images s') = map id (images s) /\
  settings s' = settings s /\
  Forall (fun img =>
            centerX (cropState img) = centerX payload /\
            centerY (cropState img) = centerY payload /\
            scale (cropState img) = scale payload /\
            aspect (cropState img)
            = targetWidth (exportSettings (settings s))
              / targetHeight (exportSettings (settings s)) /\
            rotation (cropState img) = rotation payload /\
            sourceHash (cropState img) = sourceHash payload)
         (images s').
Proof.
  cbn [appReducer withImages images settings]. repeat split.
  - rewrite map_map. reflexivity.
  - apply List.Forall_forall. intros img Hin.
    apply in_map_iff in Hin as (img0 & <- & _).
    cbn. repeat split; reflexivity.
Qed.

End AppContextFacts.

(** ** The saliency cache: [analyzeImage] *)

Module AnalyzeFacts.
Import SmartCropWorker Examples.

(** A cache key starts with the image identity. *)
Lemma prefix_append (i s : string) : String.prefix i (i +:+ s) = true.
Proof.
  induction i as [|c i IH]; [destruct s; reflexivity|].
  change (String c i +:+ s) with (String c (i +:+ s)).
  cbn [String.prefix].
  destruct (Ascii.ascii_dec c c) as [_|N]; [exact IH | contradiction].
Qed.

Section WithEnvironment.

Variable numberToString : Q -> string.
Variable getContext2d : ImageBitmap -> bool.
Variable smartcrop_crop : list DetectorCall -> DetectorCall -> option Crop.

Let analyze := analyzeImage numberToString getContext2d smartcrop_crop.
Let key := getCacheKey numberToString.

(** Case analysis on the answer of the detector invocation in the goal. *)
Local Ltac detector_cases :=
  match goal with
  | |- context [smartcrop_crop ?l ?c] =>
      destruct (smartcrop_crop l c) as [top|]
  end.




(** A call that misses the cache invokes the detector, once, unless no
    canvas context is to be had for a bitmap. *)
Lemma analyzeImage_miss_invokes (e : ImageElement) (tw th : Q)
    (i : string) (a : Analyzer) :
  cropCache a !! key i tw th = None ->
  match e with Bitmap b => getContext2d b = true | _ => True end ->
  detectorCalls (snd (analyze e tw th i a))
  = detectorCalls a ++ [mkDetectorCall e tw th].
Proof.
  intros C G. unfold analyze, analyzeImage, analyzeImage_start.
  fold (key i tw th). rewrite C.
  destruct e as [h|h|b]; try rewrite G; cbn;
    detector_cases; reflexivity.
Qed.


End WithEnvironment.



End AnalyzeFacts.

(** ** Scheduling and completing an analysis: [runSmartCropForImage] *)

Module SmartCropRunFacts.
Import AppContext Examples.

Section WithEnvironment.

Variable numberToString : Q -> string.
Variable getContext2d : ImageBitmap -> bool.
Variable smartcrop_crop :
  list SmartCropWorker.DetectorCall -> SmartCropWorker.DetectorCall ->
  option SmartCropWorker.Crop.

Let start := runSmartCropForImage_start numberToString getContext2d
               smartcrop_crop.

(** Once a run has started, every entry of its identity is pending. *)
Lemma start_marks_pending (closure : AppSettings) (i : string)
    (override : option ImageFile) (w w1 : Store) (run : SmartCropRun) :
  start closure i override w = (Some run, w1) ->
  run_id run = i /\
  Forall (fun img => id img = i -> isSmartCropPending img = true)
         (images (state w1)).
Proof.
  unfold start, runSmartCropForImage_start.
  destruct (match override with
            | Some img => Some img
            | None => findImage i (images (state w))
            end) as [image|]; [|discriminate].
  destruct (bitmap image) as [bmp|]; [|discriminate].
  destruct (enableSmartCrop closure); cbn [negb]; [|discriminate].
  destruct (SmartCropWorker.analyzeImage_start _ _ _ _ _ _ _ _) as [p a1].
  intros [= <- <-]. split; [reflexivity|].
  cbn [state dispatch appReducer withImages images].
  apply List.Forall_forall. intros img Hin.
  apply in_map_iff in Hin as (img0 & <- & _).
  destruct (String.eqb_spec (id img0) i) as [E|N]; cbn; [reflexivity|].
  intros E. contradiction.
Qed.

(** A run whose analysis yields no result ends in the store it was
    resumed in: nothing is dispatched, so the entries of its identity
    stay pending and keep their crop state. *)
Lemma finish_without_result_dispatches_nothing (run : SmartCropRun)
    (w : Store) :
  fst (SmartCropWorker.analyzeImage_finish (run_pending run) (analyzer w))
  = None ->
  state (runSmartCropForImage_finish run w) = state w.
Proof.
  unfold runSmartCropForImage_finish.
  destruct (SmartCropWorker.analyzeImage_finish _ _) as [[r|] a1];
    cbn [fst]; [discriminate|reflexivity].
Qed.

(** A run whose analysis yields a result clears the pending flag of the
    entries of its identity and stores the result with them. *)
Lemma finish_with_result_clears_pending (run : SmartCropRun) (w : Store)
    (r : SmartCropResult) :
  fst (SmartCropWorker.analyzeImage_finish (run_pending run) (analyzer w))
  = Some r ->
  Forall (fun img =>
            id img = run_id run ->
            isSmartCropPending img = false /\
            smartCropResult img = Some r)
         (images (state (runSmartCropForImage_finish run w))).
Proof.
  unfold runSmartCropForImage_finish.
  destruct (SmartCropWorker.analyzeImage_finish _ _) as [[r'|] a1];
    cbn [fst]; [|discriminate].
  intros [= ->].
  cbn [state dispatch appReducer withImages images].
  rewrite map_map.
  apply List.Forall_forall. intros img Hin.
  apply in_map_iff in Hin as (img0 & <- & _).
  destruct (String.eqb_spec (id img0) (run_id run)) as [E|N].
  - cbn [id]. rewrite E, String.eqb_refl. cbn. intros _. split; reflexivity.
  - rewrite (proj2 (String.eqb_neq _ _) N). intros E. contradiction.
Qed.

End WithEnvironment.

(** C2 on the code, where the detector rejects: the image was marked
    pending when its job was scheduled, the job has completed (the
    detector was invoked, and nothing was memoized), the crop state is
    the default one, and [isSmartCropPending] is still [true]. *)
Theorem failed_analysis_leaves_image_pending :
  let w := runSmartCropForImage integerToString anyContext failingDetector
             DEFAULT_APP_SETTINGS "a" None sampleStore in
  map id (images (state w)) = ["a"] /\
  map isSmartCropPending (images (state w)) = [true] /\
  map cropState (images (state w)) = [DEFAULT_CROP_STATE] /\
  length (SmartCropWorker.detectorCalls (analyzer w)) = 1%nat.
Proof. cbv zeta. vm_compute. repeat split; reflexivity. Qed.

(** The same run with a detector that answers: the flag is cleared. *)
Example answered_analysis_clears_pending :
  let w := runSmartCropForImage integerToString anyContext fixedDetector
             DEFAULT_APP_SETTINGS "a" None sampleStore in
  map isSmartCropPending (images (state w)) = [false].
Proof. cbv zeta. vm_compute. reflexivity. Qed.

End SmartCropRunFacts.

(** ** Batch analysis: [batchAnalyze] *)

Module BatchFacts.
Import SmartCropWorker Examples.

Lemma recorded_snoc (l : list (string * option SmartCropResult))
    (i : string) (r : option SmartCropResult) :
  recorded (l ++ [(i, r)]) = <[i := r]> (recorded l).
Proof. unfold recorded. rewrite foldl_app. reflexivity. Qed.

Lemma recorded_lookup_is_Some (l : list (string * option SmartCropResult))
    (i : string) :
  i ∈ map fst l -> is_Some (recorded l !! i).
Proof.
  induction l as [|[j r] l IH] using rev_ind; intros H.
  - cbn in H. inversion H.
  - rewrite recorded_snoc. rewrite map_app in H. cbn in H.
    destruct (decide (j = i)) as [->|N].
    + rewrite lookup_insert_eq. eexists; reflexivity.
    + rewrite lookup_insert_ne by exact N. apply IH.
      apply elem_of_app in H as [H|H]; [exact H|].
      apply list_elem_of_singleton in H. congruence.
Qed.

Lemma recorded_lookup_NoDup (l : list (string * option SmartCropResult))
    (i : string) (r : option SmartCropResult) :
  NoDup (map fst l) -> (i, r) ∈ l -> recorded l !! i = Some r.
Proof.
  induction l as [|[j r'] l IH] using rev_ind; intros ND H.
  - inversion H.
  - rewrite recorded_snoc. rewrite map_app in ND. cbn in ND.
    apply NoDup_app in ND as (ND & Hd & _).
    apply elem_of_app in H as [H|H].
    + assert (i ∈ map fst l) as Hi.
      { change i with (fst (i, r)). apply list_elem_of_fmap_2. exact H. }
      assert (j <> i) as N.
      { intros ->. apply (Hd i Hi). apply list_elem_of_singleton. reflexivity. }
      rewrite lookup_insert_ne by exact N. apply IH; assumption.
    + apply list_elem_of_singleton in H. injection H as -> ->.
      apply lookup_insert_eq.
Qed.

(** Inside the list and with a positive step, [slice l i (i + c)] is the
    next [c] elements from position [i], or those that are left. *)
Lemma slice_next {A} (l : list A) (i c : Z) :
  (0 <= i < Z.of_nat (length l))%Z -> (1 <= c)%Z ->
  let k := Z.to_nat i in
  let k' := Z.to_nat (Z.min (i + c) (Z.of_nat (length l))) in
  slice l i (i + c) = take (k' - k) (drop k l) /\
  (k < k')%nat /\ (k' <= length l)%nat /\
  take k l ++ slice l i (i + c) = take k' l.
Proof.
  intros Hi Hc k k'. unfold slice, relativeIndex.
  assert ((i <? 0)%Z = false) as -> by lia.
  assert ((i + c <? 0)%Z = false) as -> by lia.
  assert (Z.min i (Z.of_nat (length l)) = i) as -> by lia.
  assert (Z.to_nat (Z.min (i + c) (Z.of_nat (length l)) - i) = (k' - k)%nat)
    as -> by (unfold k, k'; lia).
  fold k. repeat split; try (unfold k, k'; lia).
  rewrite take_take_drop. f_equal. unfold k, k'. lia.
Qed.

Section WithEnvironment.

Variable numberToString : Q -> string.
Variable getContext2d : ImageBitmap -> bool.
Variable smartcrop_crop : list DetectorCall -> DetectorCall -> option Crop.
Variable resumeOrder : list (Job * Pending) -> list (Job * Pending).
Hypothesis resumeOrder_permutes : forall l, resumeOrder l ≡ₚ l.

Let start := startBatch numberToString getContext2d smartcrop_crop.
Let run := runBatch numberToString getContext2d smartcrop_crop resumeOrder.
Let loop := batchLoop numberToString getContext2d smartcrop_crop resumeOrder.

Lemma startBatch_jobs (batch : list Job) (a : Analyzer) :
  map fst (fst (start batch a)) = batch.
Proof.
  unfold start. revert a.
  induction batch as [|job batch IH]; intros a; [reflexivity|].
  cbn [startBatch].
  destruct (analyzeImage_start _ _ _ _ _ _ _ a) as [p a1].
  specialize (IH a1).
  destruct (startBatch _ _ _ batch a1) as [ps a2].
  cbn [fst map] in *. rewrite IH. reflexivity.
Qed.

Lemma resumeJob_step (total : nat) (st : BatchState) (jp : Job * Pending) :
  exists r,
    completed (resumeJob true total st jp) = S (completed st) /\
    progressCalls (resumeJob true total st jp)
    = progressCalls st ++ [(S (completed st), total)] /\
    settledJobs (resumeJob true total st jp)
    = settledJobs st ++ [(imageId (fst jp), r)] /\
    results (resumeJob true total st jp)
    = <[imageId (fst jp) := r]> (results st).
Proof.
  unfold resumeJob.
  destruct (analyzeImage_finish _ _) as [r a1]. exists r.
  repeat split; reflexivity.
Qed.

(** Resuming the suspended jobs [l] one after the other. *)
Lemma resume_all (total : nat) (l : list (Job * Pending)) (st : BatchState) :
  let st' := fold_left (resumeJob true total) l st in
  completed st' = (completed st + length l)%nat /\
  progressCalls st'
  = progressCalls st
      ++ map (fun k => (k, total)) (seq (S (completed st)) (length l)) /\
  map fst (settledJobs st')
  = map fst (settledJobs st) ++ map (fun jp => imageId (fst jp)) l /\
  (results st = recorded (settledJobs st) ->
   results st' = recorded (settledJobs st')).
Proof.
  revert st. induction l as [|jp l IH]; intros st; cbn [fold_left length].
  - cbn. rewrite !app_nil_r, Nat.add_0_r.
    repeat split; try reflexivity. auto.
  - specialize (IH (resumeJob true total st jp)).
    cbv zeta in IH. destruct IH as (C & P & S & R).
    destruct (resumeJob_step total st jp) as (r & C1 & P1 & S1 & R1).
    repeat split.
    + rewrite C, C1. lia.
    + rewrite P, P1, C1, <- app_assoc. reflexivity.
    + rewrite S, S1, map_app, <- app_assoc. reflexivity.
    + intros H. apply R. rewrite R1, S1, recorded_snoc, H. reflexivity.
Qed.

(** One batch: its jobs all settle, each reporting progress. *)
Lemma runBatch_effect (total : nat) (batch : list Job) (st : BatchState) :
  completed (run true total batch st)
  = (completed st + length batch)%nat /\
  progressCalls (run true total batch st)
  = progressCalls st
      ++ map (fun k => (k, total))
             (seq (S (completed st)) (length batch)) /\
  map fst (settledJobs (run true total batch st))
  ≡ₚ map fst (settledJobs st) ++ map imageId batch /\
  (results st = recorded (settledJobs st) ->
   results (run true total batch st)
   = recorded (settledJobs (run true total batch st))).
Proof.
  unfold run, runBatch.
  pose proof (startBatch_jobs batch (batchAnalyzer st)) as J.
  unfold start in J.
  destruct (startBatch _ _ _ batch (batchAnalyzer st)) as [ps a1].
  cbn [fst] in J.
  pose proof (resumeOrder_permutes ps) as Pm.
  assert (L : length (resumeOrder ps) = length batch).
  { rewrite (Permutation_length Pm), <- J, length_map. reflexivity. }
  match goal with
  | |- context [fold_left _ _ ?s0] =>
      destruct (resume_all total (resumeOrder ps) s0) as (C & P & S & R)
  end.
  cbn [completed progressCalls settledJobs results] in C, P, S, R.
  rewrite L in C, P.
  repeat split; try assumption.
  rewrite S. apply Permutation_app_head.
  rewrite <- J, map_map. apply Permutation_map. exact Pm.
Qed.

(** The loop of [batchAnalyze] from index [i] on, for a step of at
    least one: with more fuel than jobs are left it ends, with every
    job settled and progress reported once per job. *)
Lemma batchLoop_completes (jobs : list Job) (c : Z) :
  (1 <= c)%Z ->
  forall (fuel : nat) (i : Z) (st : BatchState),
    (0 <= i)%Z ->
    (Z.max 0 (Z.of_nat (length jobs) - i) < Z.of_nat fuel)%Z ->
    completed st = Z.to_nat (Z.min i (Z.of_nat (length jobs))) ->
    progressCalls st
    = map (fun k => (k, length jobs)) (seq 1 (completed st)) ->
    map fst (settledJobs st)
    ≡ₚ map imageId (take (completed st) jobs) ->
    results st = recorded (settledJobs st) ->
    exists out,
      loop fuel true jobs c i st = Some out /\
      completed out = length jobs /\
      progressCalls out
      = map (fun k => (k, length jobs)) (seq 1 (length jobs)) /\
      map fst (settledJobs out) ≡ₚ map imageId jobs /\
      results out = recorded (settledJobs out).
Proof.
  intros Hc fuel.
  induction fuel as [|fuel IH]; intros i st Hi Hf C P Sj R; [lia|].
  unfold loop in *. cbn [batchLoop].
  destruct (i <? Z.of_nat (length jobs))%Z eqn:Lt.
  - apply Z.ltb_lt in Lt.
    destruct (slice_next jobs i c ltac:(lia) Hc) as (Es & Hk & Hk' & Et).
    cbv zeta in Es, Hk, Hk', Et.
    assert (Ck : completed st = Z.to_nat i) by lia.
    destruct (runBatch_effect (length jobs) (slice jobs i (i + c)) st)
      as (C1 & P1 & S1 & R1).
    unfold run in C1, P1, S1, R1.
    assert (Ls : length (slice jobs i (i + c))
                 = (Z.to_nat (Z.min (i + c) (Z.of_nat (length jobs)))
                    - Z.to_nat i)%nat).
    { rewrite Es, length_take, length_drop. lia. }
    apply IH; try lia.
    + rewrite P1, P, C1. rewrite <- map_app. f_equal.
      rewrite (seq_app (completed st) (length (slice jobs i (i + c))) 1).
      reflexivity.
    + rewrite S1, Sj, C1, <- map_app, Ck, Ls.
      rewrite Et. apply Permutation_map'.
      assert ((Z.to_nat i + (Z.to_nat (Z.min (i + c) (Z.of_nat (length jobs))) - Z.to_nat i))%nat
              = Z.to_nat (Z.min (i + c) (Z.of_nat (length jobs)))) as -> by lia.
      reflexivity.
    + apply R1. exact R.
  - apply Z.ltb_ge in Lt. exists st.
    assert (Cn : completed st = length jobs) by lia.
    rewrite Cn in P, Sj. rewrite firstn_all in Sj.
    repeat split; assumption.
Qed.

Lemma batchLoop_more_fuel (jobs : list Job) (c : Z) (out : BatchState) :
  forall (fuel fuel' : nat) (i : Z) (st : BatchState),
    (fuel <= fuel')%nat ->
    loop fuel true jobs c i st = Some out ->
    loop fuel' true jobs c i st = Some out.
Proof.
  unfold loop.
  induction fuel as [|fuel IH]; intros fuel' i st Hle H; [discriminate H|].
  destruct fuel' as [|fuel']; [lia|].
  cbn [batchLoop] in *.
  destruct (i <? Z.of_nat (length jobs))%Z; [|exact H].
  apply IH; [lia | exact H].
Qed.

(** What a suspended call returns does not depend on the analyzer it
    resumes in, and resuming it invokes no detector and caches under its
    own key only. *)
Lemma finish_result (p : Pending) (a : Analyzer) :
  fst (analyzeImage_finish p a) = fst (analyzeImage_finish p emptyAnalyzer).
Proof. destruct p as [r|k [top|]]; reflexivity. Qed.

Lemma finish_keeps_calls (p : Pending) (a : Analyzer) :
  detectorCalls (snd (analyzeImage_finish p a)) = detectorCalls a.
Proof. destruct p as [r|k [top|]]; reflexivity. Qed.

Lemma finish_cache (p : Pending) (a : Analyzer) (k : string) :
  cropCache (snd (analyzeImage_finish p a)) !! k <> None ->
  cropCache a !! k <> None \/ exists top, p = Awaiting k (Some top).
Proof.
  destruct p as [r|k' [top|]]; cbn [analyzeImage_finish snd cropCache];
    try (intros H; left; exact H).
  intros H. destruct (decide (k' = k)) as [->|N].
  - right. eexists; reflexivity.
  - left. rewrite lookup_insert_ne in H by exact N. exact H.
Qed.

Let key := jobKey numberToString.
Let inTurn := analyzeInTurn numberToString getContext2d smartcrop_crop.

(** The image identity of a suspended job with what its call of
    [analyzeImage] returns. *)
Let returned (jp : Job * Pending) : string * option SmartCropResult :=
  (imageId (fst jp), fst (analyzeImage_finish (snd jp) emptyAnalyzer)).

(** A call that misses the cache goes the way of a call that finds
    nothing cached at all. *)
Lemma start_miss (job : Job) (a : Analyzer) :
  cropCache a !! key job = None ->
  let r := analyzeImage_start numberToString getContext2d smartcrop_crop
             (Bitmap (bitmap job)) (targetWidth job) (targetHeight job)
             (imageId job) a in
  let alone := analyzeImage numberToString getContext2d smartcrop_crop
                 (Bitmap (bitmap job)) (targetWidth job) (targetHeight job)
                 (imageId job)
                 {| cropCache := ∅; detectorCalls := detectorCalls a |} in
  cropCache (snd r) = cropCache a /\
  detectorCalls (snd r) = detectorCalls (snd alone) /\
  fst (analyzeImage_finish (fst r) emptyAnalyzer) = fst alone /\
  (fst r = Settled None \/ exists answer, fst r = Awaiting (key job) answer).
Proof.
  intros H. unfold key, jobKey in H.
  unfold analyzeImage, analyzeImage_start. rewrite H.
  cbn [cropCache detectorCalls]. rewrite lookup_empty.
  destruct (getContext2d (bitmap job)).
  - destruct (smartcrop_crop (detectorCalls a) _) as [top|];
      cbn [fst snd analyzeImage_finish cropCache detectorCalls];
      repeat split; right; eexists; reflexivity.
  - cbn [fst snd analyzeImage_finish]. repeat split. left. reflexivity.
Qed.

Lemma startBatch_miss (batch : list Job) (a : Analyzer) :
  (forall job, job ∈ batch -> cropCache a !! key job = None) ->
  let r := start batch a in
  cropCache (snd r) = cropCache a /\
  detectorCalls (snd r) = snd (inTurn batch (detectorCalls a)) /\
  map returned (fst r) = fst (inTurn batch (detectorCalls a)) /\
  Forall (fun jp => snd jp = Settled None \/
                    exists answer, snd jp = Awaiting (key (fst jp)) answer)
         (fst r).
Proof.
  unfold start, inTurn. revert a.
  induction batch as [|job batch IH]; intros a H.
  - cbn. repeat split. constructor.
  - cbn [startBatch analyzeInTurn].
    destruct (start_miss job a) as (C1 & D1 & R1 & S1).
    { apply H. apply elem_of_cons. left. reflexivity. }
    cbv zeta in C1, D1, R1, S1.
    destruct (analyzeImage_start _ _ _ _ _ _ _ a) as [p a1].
    destruct (analyzeImage _ _ _ _ _ _ _ _) as [result alone].
    cbn [fst snd] in C1, D1, R1, S1.
    destruct (IH a1) as (C2 & D2 & R2 & S2).
    { intros job' Hj. rewrite C1. apply H. apply elem_of_cons. right. exact Hj. }
    cbv zeta in C2, D2, R2, S2. rewrite D1 in D2, R2.
    destruct (startBatch _ _ _ batch a1) as [ps a2].
    destruct (analyzeInTurn _ _ _ batch (detectorCalls alone)) as [rs calls'].
    cbn [fst snd map] in *.
    split; [congruence|]. split; [exact D2|]. split.
    + unfold returned at 1. cbn [fst snd]. rewrite R1, R2. reflexivity.
    + constructor; [exact S1 | exact S2].
Qed.

(** Resuming suspended jobs: each result is stored as it was returned, no
    detector is invoked, and the cache grows by keys of these jobs only. *)
Lemma resume_all_returns (total : nat) (l : list (Job * Pending))
    (st : BatchState) :
  let st' := fold_left (resumeJob true total) l st in
  settledJobs st' = settledJobs st ++ map returned l /\
  detectorCalls (batchAnalyzer st') = detectorCalls (batchAnalyzer st) /\
  forall k, cropCache (batchAnalyzer st') !! k <> None ->
            cropCache (batchAnalyzer st) !! k <> None \/
            exists jp top, jp ∈ l /\ snd jp = Awaiting k (Some top).
Proof.
  revert st. induction l as [|jp l IH]; intros st; cbn [fold_left map].
  - rewrite app_nil_r. repeat split. intros k H. left. exact H.
  - specialize (IH (resumeJob true total st jp)). cbv zeta in IH.
    destruct IH as (S & D & C).
    assert (S1 : settledJobs (resumeJob true total st jp)
                 = settledJobs st ++ [returned jp]).
    { unfold resumeJob, returned.
      rewrite <- (finish_result (snd jp) (batchAnalyzer st)).
      destruct (analyzeImage_finish (snd jp) (batchAnalyzer st)); reflexivity. }
    assert (A1 : batchAnalyzer (resumeJob true total st jp)
                 = snd (analyzeImage_finish (snd jp) (batchAnalyzer st))).
    { unfold resumeJob.
      destruct (analyzeImage_finish (snd jp) (batchAnalyzer st)); reflexivity. }
    split; [|split].
    + rewrite S, S1, <- app_assoc. reflexivity.
    + rewrite D, A1. apply finish_keeps_calls.
    + intros k H. destruct (C k H) as [H1|(jp' & answer & Hin & E)].
      * rewrite A1 in H1. destruct (finish_cache _ _ _ H1) as [H2|[answer E]].
        -- left. exact H2.
        -- right. exists jp, answer. split; [|exact E].
           apply elem_of_cons. left. reflexivity.
      * right. exists jp', answer. split; [|exact E].
        apply elem_of_cons. right. exact Hin.
Qed.

(** One batch whose jobs all miss the cache: the results stored are those
    of the jobs analysed in turn. *)
Lemma runBatch_miss (total : nat) (batch : list Job) (st : BatchState) :
  (forall job, job ∈ batch ->
               cropCache (batchAnalyzer st) !! key job = None) ->
  let st' := run true total batch st in
  settledJobs st'
  ≡ₚ settledJobs st ++ fst (inTurn batch (detectorCalls (batchAnalyzer st))) /\
  detectorCalls (batchAnalyzer st')
  = snd (inTurn batch (detectorCalls (batchAnalyzer st))) /\
  forall k, cropCache (batchAnalyzer st') !! k <> None ->
            cropCache (batchAnalyzer st) !! k <> None \/ k ∈ map key batch.
Proof.
  intros H. unfold run, runBatch.
  destruct (startBatch_miss batch (batchAnalyzer st) H) as (C & D & R & Sh).
  cbv zeta in C, D, R, Sh. unfold start in C, D, R, Sh.
  pose proof (startBatch_jobs batch (batchAnalyzer st)) as J. unfold start in J.
  destruct (startBatch _ _ _ batch (batchAnalyzer st)) as [ps a1].
  cbn [fst snd] in C, D, R, Sh, J.
  pose proof (resumeOrder_permutes ps) as Pm.
  match goal with
  | |- context [fold_left _ _ ?s0] =>
      destruct (resume_all_returns total (resumeOrder ps) s0) as (S1 & D1 & C1)
  end.
  cbn [settledJobs batchAnalyzer] in S1, D1, C1.
  cbv zeta. split; [|split].
  - rewrite S1. apply Permutation_app_head. rewrite <- R.
    apply Permutation_map. exact Pm.
  - rewrite D1. exact D.
  - intros k Hk. destruct (C1 k Hk) as [H1|(jp & answer & Hin & E)].
    + left. rewrite <- C. exact H1.
    + right. rewrite Pm in Hin.
      rewrite List.Forall_forall in Sh.
      apply list_elem_of_In in Hin.
      destruct (Sh jp Hin) as [E'|[answer' E']]; rewrite E' in E;
        [discriminate E|].
      injection E as <- _. rewrite <- J.
      rewrite map_map. apply list_elem_of_In.
      apply (in_map (fun x => key (fst x))). exact Hin.
Qed.

Lemma inTurn_app (l1 l2 : list Job) (calls : list DetectorCall) :
  inTurn (l1 ++ l2) calls
  = (fst (inTurn l1 calls) ++ fst (inTurn l2 (snd (inTurn l1 calls))),
     snd (inTurn l2 (snd (inTurn l1 calls)))).
Proof.
  unfold inTurn. revert calls.
  induction l1 as [|job l1 IH]; intros calls.
  - cbn. destruct (analyzeInTurn _ _ _ l2 calls); reflexivity.
  - cbn [app analyzeInTurn].
    destruct (analyzeImage _ _ _ _ _ _ _ _) as [result a1].
    rewrite IH.
    destruct (analyzeInTurn _ _ _ l1 (detectorCalls a1)) as [rs calls'].
    reflexivity.
Qed.

(** The loop of [batchAnalyze] on jobs with pairwise distinct cache keys,
    none of them cached at the start: when it ends, the results stored
    are those of the jobs analysed in turn. *)
Lemma batchLoop_miss (jobs : list Job) (c : Z) (a0 : Analyzer) :
  (1 <= c)%Z ->
  NoDup (map key jobs) ->
  (forall job, job ∈ jobs -> cropCache a0 !! key job = None) ->
  forall (fuel : nat) (i : Z) (st out : BatchState),
    (0 <= i)%Z ->
    loop fuel true jobs c i st = Some out ->
    let k := Z.to_nat (Z.min i (Z.of_nat (length jobs))) in
    settledJobs st ≡ₚ fst (inTurn (take k jobs) (detectorCalls a0)) ->
    detectorCalls (batchAnalyzer st)
    = snd (inTurn (take k jobs) (detectorCalls a0)) ->
    (forall k', cropCache (batchAnalyzer st) !! k' <> None ->
                cropCache a0 !! k' <> None \/ k' ∈ map key (take k jobs)) ->
    settledJobs out ≡ₚ fst (inTurn jobs (detectorCalls a0)) /\
    detectorCalls (batchAnalyzer out) = snd (inTurn jobs (detectorCalls a0)).
Proof.
  intros Hc ND Hmiss fuel.
  induction fuel as [|fuel IH]; intros i st out Hi L k Sj D C;
    [discriminate L|].
  unfold loop in *. cbn [batchLoop] in L.
  destruct (i <? Z.of_nat (length jobs))%Z eqn:Lt.
  - apply Z.ltb_lt in Lt.
    destruct (slice_next jobs i c ltac:(lia) Hc) as (Es & Hk & Hk' & Et).
    cbv zeta in Es, Hk, Hk', Et.
    assert (Ek : k = Z.to_nat i) by (unfold k; lia).
    rewrite Ek in Sj, D, C.
    set (batch := slice jobs i (i + c)) in *.
    set (k' := Z.to_nat (Z.min (i + c) (Z.of_nat (length jobs)))) in *.
    assert (Hsub : forall job, job ∈ take k' jobs -> job ∈ jobs).
    { intros job Hj. rewrite <- (take_drop k' jobs).
      apply elem_of_app. left. exact Hj. }
    assert (NDk : NoDup (map key (take (Z.to_nat i) jobs) ++ map key batch)).
    { rewrite <- map_app, Et. rewrite <- (take_drop k' jobs) in ND.
      rewrite map_app in ND. apply NoDup_app in ND as (ND & _). exact ND. }
    apply NoDup_app in NDk as (_ & Disj & _).
    assert (Hb : forall job, job ∈ batch ->
                   cropCache (batchAnalyzer st) !! key job = None).
    { intros job Hj.
      destruct (cropCache (batchAnalyzer st) !! key job) as [v|] eqn:E;
        [|reflexivity].
      exfalso.
      destruct (C (key job)) as [H0|H0]; [rewrite E; discriminate| |].
      - apply H0. apply Hmiss. apply Hsub. rewrite <- Et.
        apply elem_of_app. right. exact Hj.
      - apply (Disj (key job) H0). apply list_elem_of_fmap_2. exact Hj. }
    destruct (runBatch_miss (length jobs) batch st Hb) as (S1 & D1 & C1).
    cbv zeta in S1, D1, C1. unfold run in S1, D1, C1.
    pose proof (inTurn_app (take (Z.to_nat i) jobs) batch (detectorCalls a0))
      as App.
    rewrite Et in App.
    apply (IH (i + c)%Z _ out ltac:(lia) L); fold k'.
    + rewrite S1, Sj, D, App. reflexivity.
    + rewrite D1, D, App. reflexivity.
    + intros x Hx. destruct (C1 x Hx) as [H1|H1].
      * destruct (C x H1) as [H2|H2]; [left; exact H2|].
        right. rewrite <- Et, map_app. apply elem_of_app. left. exact H2.
      * right. rewrite <- Et, map_app. apply elem_of_app. right. exact H1.
  - apply Z.ltb_ge in Lt. injection L as <-.
    assert (Ek : k = length jobs) by (unfold k; lia).
    rewrite Ek, firstn_all in Sj, D. split; assumption.
Qed.

Let fails := jobFails getContext2d smartcrop_crop.

(** A suspended call that is to cache a region caches it under the key of
    its job, and its job is not one that fails. *)
Lemma start_shape (job : Job) (a : Analyzer) (k : string) (top : Crop) :
  fst (analyzeImage_start numberToString getContext2d smartcrop_crop
         (Bitmap (bitmap job)) (targetWidth job) (targetHeight job)
         (imageId job) a) = Awaiting k (Some top) ->
  k = key job /\ ~ fails job.
Proof.
  unfold analyzeImage_start.
  destruct (cropCache a !! _); [discriminate|].
  destruct (getContext2d (bitmap job)) eqn:G; cbn [fst]; [|discriminate].
  intros E. injection E as <- E. split; [reflexivity|].
  intros [F|F]; [congruence|]. rewrite F in E. discriminate E.
Qed.

Lemma start_keeps_cache (job : Job) (a : Analyzer) :
  cropCache (snd (analyzeImage_start numberToString getContext2d
                    smartcrop_crop (Bitmap (bitmap job)) (targetWidth job)
                    (targetHeight job) (imageId job) a))
  = cropCache a.
Proof.
  unfold analyzeImage_start.
  destruct (cropCache a !! _); [reflexivity|].
  destruct (getContext2d (bitmap job)); reflexivity.
Qed.

(** A job that fails and misses the cache is returned [null]. *)
Lemma start_failed (job : Job) (a : Analyzer) :
  cropCache a !! key job = None -> fails job ->
  fst (analyzeImage_finish
         (fst (analyzeImage_start numberToString getContext2d smartcrop_crop
                 (Bitmap (bitmap job)) (targetWidth job) (targetHeight job)
                 (imageId job) a)) emptyAnalyzer) = None.
Proof.
  intros H F. unfold key, jobKey in H. unfold analyzeImage_start. rewrite H.
  destruct F as [F|F].
  - rewrite F. reflexivity.
  - destruct (getContext2d (bitmap job)); [|reflexivity].
    rewrite F. reflexivity.
Qed.

Lemma startBatch_shape (batch : list Job) (a : Analyzer) :
  cropCache (snd (start batch a)) = cropCache a /\
  Forall (fun jp => forall k top, snd jp = Awaiting k (Some top) ->
                                  k = key (fst jp) /\ ~ fails (fst jp))
         (fst (start batch a)).
Proof.
  unfold start. revert a.
  induction batch as [|job batch IH]; intros a.
  - cbn. split; [reflexivity | constructor].
  - cbn [startBatch].
    pose proof (start_keeps_cache job a) as C1.
    pose proof (start_shape job a) as S1.
    destruct (analyzeImage_start _ _ _ _ _ _ _ a) as [p a1].
    cbn [fst snd] in C1, S1.
    destruct (IH a1) as (C2 & S2).
    destruct (startBatch _ _ _ batch a1) as [ps a2].
    cbn [fst snd] in *. split; [congruence|].
    constructor; [|exact S2]. intros k top E. exact (S1 k top E).
Qed.

Lemma startBatch_failed (batch : list Job) (a : Analyzer) (job : Job) :
  job ∈ batch -> cropCache a !! key job = None -> fails job ->
  (imageId job, None) ∈ map returned (fst (start batch a)).
Proof.
  unfold start. intros Hin H F. revert a H.
  induction batch as [|job' batch IH]; intros a H; [inversion Hin|].
  cbn [startBatch].
  pose proof (start_keeps_cache job' a) as C1.
  pose proof (start_failed job' a) as F1.
  destruct (analyzeImage_start _ _ _ _ _ _ _ a) as [p a1].
  cbn [fst snd] in C1, F1.
  apply elem_of_cons in Hin as [<-|Hin].
  - destruct (startBatch _ _ _ batch a1) as [ps a2].
    cbn [fst map]. apply elem_of_cons. left.
    unfold returned. cbn [fst snd]. rewrite (F1 H F). reflexivity.
  - specialize (IH Hin a1). rewrite C1 in IH. specialize (IH H).
    destruct (startBatch _ _ _ batch a1) as [ps a2].
    cbn [fst map] in *. apply elem_of_cons. right. exact IH.
Qed.

(** One batch, seen from a cache key under which nothing is cached and
    whose jobs all fail: nothing is cached under it, and each of its jobs
    has [null] stored. *)
Lemma runBatch_failed (total : nat) (batch : list Job) (st : BatchState)
    (k0 : string) :
  cropCache (batchAnalyzer st) !! k0 = None ->
  (forall job, job ∈ batch -> key job = k0 -> fails job) ->
  let st' := run true total batch st in
  cropCache (batchAnalyzer st') !! k0 = None /\
  (forall x, x ∈ settledJobs st -> x ∈ settledJobs st') /\
  (forall job, job ∈ batch -> key job = k0 ->
               (imageId job, None) ∈ settledJobs st').
Proof.
  intros H0 Hf. unfold run, runBatch.
  destruct (startBatch_shape batch (batchAnalyzer st)) as (C & Sh).
  pose proof (fun job Hin Hk =>
                startBatch_failed batch (batchAnalyzer st) job Hin Hk)
    as Fl.
  pose proof (startBatch_jobs batch (batchAnalyzer st)) as J.
  unfold start in C, Sh, Fl, J.
  destruct (startBatch _ _ _ batch (batchAnalyzer st)) as [ps a1].
  cbn [fst snd] in C, Sh, Fl, J.
  pose proof (resumeOrder_permutes ps) as Pm.
  match goal with
  | |- context [fold_left _ _ ?s0] =>
      destruct (resume_all_returns total (resumeOrder ps) s0) as (S1 & _ & C1)
  end.
  cbn [settledJobs batchAnalyzer] in S1, C1.
  cbv zeta. split; [|split].
  - match goal with
    | |- ?m !! k0 = None => destruct (m !! k0) as [v|] eqn:E; [|reflexivity]
    end.
    exfalso. destruct (C1 k0) as [H1|(jp & top & Hin & E1)].
    + rewrite E. discriminate.
    + apply H1. rewrite C. exact H0.
    + rewrite Pm in Hin. apply list_elem_of_In in Hin.
      rewrite List.Forall_forall in Sh.
      destruct (Sh jp Hin k0 top E1) as [Ek Nf].
      apply Nf. apply Hf; [|symmetry; exact Ek].
      rewrite <- J. apply list_elem_of_In. apply in_map. exact Hin.
  - intros x Hx. rewrite S1. apply elem_of_app. left. exact Hx.
  - intros job Hin Hk. rewrite S1. apply elem_of_app. right.
    rewrite Pm. apply Fl; [exact Hin | | apply Hf; assumption].
    rewrite Hk, <- C. rewrite C. exact H0.
Qed.

(** The loop of [batchAnalyze], seen from such a key. *)
Lemma batchLoop_failed (jobs : list Job) (c : Z) (k0 : string) :
  (1 <= c)%Z ->
  (forall job, job ∈ jobs -> key job = k0 -> fails job) ->
  forall (fuel : nat) (i : Z) (st out : BatchState),
    (0 <= i)%Z ->
    loop fuel true jobs c i st = Some out ->
    cropCache (batchAnalyzer st) !! k0 = None ->
    (forall job,
       job ∈ take (Z.to_nat (Z.min i (Z.of_nat (length jobs)))) jobs ->
       key job = k0 -> (imageId job, None) ∈ settledJobs st) ->
    forall job, job ∈ jobs -> key job = k0 ->
                (imageId job, None) ∈ settledJobs out.
Proof.
  intros Hc Hf fuel.
  induction fuel as [|fuel IH]; intros i st out Hi L H0 Hs;
    [discriminate L|].
  unfold loop in *. cbn [batchLoop] in L.
  destruct (i <? Z.of_nat (length jobs))%Z eqn:Lt.
  - apply Z.ltb_lt in Lt.
    destruct (slice_next jobs i c ltac:(lia) Hc) as (Es & Hk & Hk' & Et).
    cbv zeta in Es, Hk, Hk', Et.
    assert (Ek : Z.to_nat (Z.min i (Z.of_nat (length jobs))) = Z.to_nat i)
      by lia.
    rewrite Ek in Hs.
    set (batch := slice jobs i (i + c)) in *.
    set (k' := Z.to_nat (Z.min (i + c) (Z.of_nat (length jobs)))) in *.
    assert (Hsub : forall job, job ∈ batch -> job ∈ jobs).
    { intros job Hj. rewrite <- (take_drop k' jobs).
      apply elem_of_app. left. rewrite <- Et.
      apply elem_of_app. right. exact Hj. }
    destruct (runBatch_failed (length jobs) batch st k0 H0) as (C1 & K1 & F1).
    { intros job Hj. apply Hf. apply Hsub. exact Hj. }
    cbv zeta in C1, K1, F1. unfold run in C1, K1, F1.
    apply (IH (i + c)%Z _ out ltac:(lia) L C1). fold k'.
    intros job Hj Hkey. rewrite <- Et in Hj.
    apply elem_of_app in Hj as [Hj|Hj].
    + apply K1. apply Hs; assumption.
    + apply F1; assumption.
  - apply Z.ltb_ge in Lt. injection L as <-.
    assert (Ek : Z.to_nat (Z.min i (Z.of_nat (length jobs))) = length jobs)
      by lia.
    rewrite Ek, firstn_all in Hs. exact Hs.
Qed.

(** C8, amended: for every list of [n] jobs and every concurrency ceiling
    of at least one, whatever the order in which the jobs of a batch
    resume, [batchAnalyze] ends (with any fuel above [n]), has called
    [onProgress] exactly [n] times, with [(1, n)], [(2, n)], ...,
    [(n, n)] in this order, and has settled every job: the settled
    identities are those of the jobs and every job's image has an entry
    in the returned map.  A job that fails (its canvas has no context or
    the detector rejects its invocation) and is not served from the
    cache has [None] (null) stored for its image, and where the image
    identities of the jobs are pairwise distinct, what is stored for a
    job is what the returned map holds for its image: the failed job is
    reported as a null result.  For jobs with pairwise distinct cache
    keys of which none is cached at the start, the results stored are
    what [analyzeImage] returns for each job, the jobs analysed in
    turn. *)
Theorem batchAnalyze_reports_every_job (jobs : list Job) (c : Z)
    (a : Analyzer) :
  (1 <= c)%Z ->
  exists out,
    (forall fuel, (length jobs < fuel)%nat ->
       batchAnalyze numberToString getContext2d smartcrop_crop resumeOrder
         fuel jobs c true a = Some out) /\
    completed out = length jobs /\
    progressCalls out
    = map (fun k => (k, length jobs)) (seq 1 (length jobs)) /\
    map fst (settledJobs out) ≡ₚ map imageId jobs /\
    (forall job, job ∈ jobs -> is_Some (results out !! imageId job)) /\
    (NoDup (map imageId jobs) ->
     forall i r, (i, r) ∈ settledJobs out -> results out !! i = Some r) /\
    (forall job,
       job ∈ jobs ->
       cropCache a !! jobKey numberToString job = None ->
       (forall job', job' ∈ jobs ->
                     jobKey numberToString job' = jobKey numberToString job ->
                     jobFails getContext2d smartcrop_crop job') ->
       (imageId job, None) ∈ settledJobs out /\
       (NoDup (map imageId jobs) ->
        results out !! imageId job = Some None)) /\
    (NoDup (map (jobKey numberToString) jobs) ->
     (forall job, job ∈ jobs ->
                  cropCache a !! jobKey numberToString job = None) ->
     settledJobs out
     ≡ₚ fst (analyzeInTurn numberToString getContext2d smartcrop_crop
               jobs (detectorCalls a)) /\
     detectorCalls (batchAnalyzer out)
     = snd (analyzeInTurn numberToString getContext2d smartcrop_crop
              jobs (detectorCalls a))).
Proof.
  intros Hc.
  assert (exists out,
             loop (S (length jobs)) true jobs c 0
               {| batchAnalyzer := a; results := ∅; completed := 0;
                  progressCalls := []; settledJobs := [] |} = Some out /\
             completed out = length jobs /\
             progressCalls out
             = map (fun k => (k, length jobs)) (seq 1 (length jobs)) /\
             map fst (settledJobs out) ≡ₚ map imageId jobs /\
             results out = recorded (settledJobs out))
    as (out & L & C & P & Sj & R).
  { apply batchLoop_completes; cbn [completed progressCalls settledJobs results];
      try reflexivity; lia. }
  assert (Own : NoDup (map imageId jobs) ->
                forall i r, (i, r) ∈ settledJobs out -> results out !! i = Some r).
  { intros ND i r Hin. rewrite R. apply recorded_lookup_NoDup; [|exact Hin].
    rewrite Sj. exact ND. }
  assert (K0 : Z.to_nat (Z.min 0 (Z.of_nat (length jobs))) = 0%nat) by lia.
  exists out.
  split; [|split; [|split; [|split; [|split; [|split; [|split]]]]]];
    try assumption.
  - intros fuel Hf. unfold batchAnalyze.
    apply (batchLoop_more_fuel jobs c out (S (length jobs))); [lia|exact L].
  - intros job Hj. rewrite R. apply recorded_lookup_is_Some.
    rewrite Sj. apply list_elem_of_fmap_2. exact Hj.
  - intros job Hj Hmiss Hf.
    assert (Hn : (imageId job, None) ∈ settledJobs out).
    { apply (batchLoop_failed jobs c (key job) Hc Hf (S (length jobs)) 0
               {| batchAnalyzer := a; results := ∅; completed := 0;
                  progressCalls := []; settledJobs := [] |} out
               ltac:(lia) L Hmiss); [|exact Hj | reflexivity].
      rewrite K0. cbn [take]. intros job' Hin. inversion Hin. }
    split; [exact Hn|]. intros ND. exact (Own ND _ _ Hn).
  - intros NDk Hmiss.
    pose proof (batchLoop_miss jobs c a Hc NDk Hmiss (S (length jobs)) 0
                  {| batchAnalyzer := a; results := ∅; completed := 0;
                     progressCalls := []; settledJobs := [] |} out
                  ltac:(lia) L) as BM.
    cbv zeta in BM. rewrite K0 in BM.
    cbn [take settledJobs batchAnalyzer] in BM.
    destruct BM as (T & D);
      [reflexivity | reflexivity | intros k' H; left; exact H |].
    unfold inTurn in T, D. split; [exact T | exact D].
Qed.

End WithEnvironment.

Lemma batchAnalyze_reports_every_job_witness :
  (1 <= 2)%Z /\
  exists out,
    batchAnalyze integerToString anyContext rejectsBitmapZero lastFirst
      6 fiveJobs 2 true emptyAnalyzer = Some out /\
    progressCalls out = [(1, 5); (2, 5); (3, 5); (4, 5); (5, 5)]%nat /\
    results out !! "b" = Some None /\
    results out !! "d" = Some None.
Proof.
  split; [lia|].
  destruct (batchAnalyze_reports_every_job integerToString anyContext
              rejectsBitmapZero lastFirst
              (fun l => Permutation_sym (Permutation_rev l))
              fiveJobs 2 emptyAnalyzer ltac:(lia))
    as (out & F & _ & P & _ & _ & _ & N & _).
  exists out. split; [apply F; cbn; lia|]. split; [exact P|].
  assert (NDi : NoDup (map imageId fiveJobs)).
  { apply (bool_decide_unpack _). vm_compute. reflexivity. }
  assert (Hf : forall (job job' : Job),
             imageId job = "b" \/ imageId job = "d" ->
             job' ∈ fiveJobs ->
             jobKey integerToString job' = jobKey integerToString job ->
             jobFails anyContext rejectsBitmapZero job').
  { intros job job' Hid Hin E. right. intros calls.
    unfold fiveJobs in Hin.
    repeat (apply elem_of_cons in Hin as [->|Hin]);
      try (inversion Hin); try reflexivity;
      destruct Hid as [Hid|Hid]; unfold jobKey, getCacheKey in E;
      rewrite Hid in E; vm_compute in E; discriminate E. }
  split.
  - refine (proj2 (N (sampleJob "b" 0%nat) _ (lookup_empty _) _) NDi).
    + unfold fiveJobs. apply elem_of_cons. right.
      apply elem_of_cons. left. reflexivity.
    + intros job'. apply Hf. left. reflexivity.
  - refine (proj2 (N (sampleJob "d" 0%nat) _ (lookup_empty _) _) NDi).
    + unfold fiveJobs. do 3 (apply elem_of_cons; right).
      apply elem_of_cons. left. reflexivity.
    + intros job'. apply Hf. right. reflexivity.
Defined.

(** The example of the specification: five jobs, a ceiling of two, the
    detector rejecting two of them. *)
Example five_jobs_two_at_a_time :
  match batchAnalyze integerToString anyContext rejectsBitmapZero lastFirst
          6 fiveJobs 2 true emptyAnalyzer with
  | Some out =>
      progressCalls out = [(1, 5); (2, 5); (3, 5); (4, 5); (5, 5)]%nat /\
      map fst (settledJobs out) = ["b"; "a"; "d"; "c"; "e"] /\
      results out !! "b" = Some None /\
      results out !! "d" = Some None /\
      is_Some (results out !! "a")
  | None => False
  end.
Proof. vm_compute. repeat split; try reflexivity. eexists; reflexivity. Qed.

(** C8, as stated, fails for jobs that share an image identity: of two
    jobs for the image "a", at the target sizes 1200 x 800 and 600 x 400
    and with the default ceiling of two, the first fails (the detector
    rejects it, [analyzeImage] returns [null]) and the second yields a
    region.  Progress is reported twice, but the returned map, keyed by
    the image identity, holds the region of the second job for "a": the
    failed job is not reported as a [null] result. *)
Lemma failed_job_result_is_overwritten :
  let failing := mkJob "a" 0%nat 1200 800 in
  let jobs := [failing; mkJob "a" 0%nat 600 400] in
  fst (analyzeImage integerToString anyContext rejectsWideTargets
         (Bitmap (bitmap failing)) (targetWidth failing)
         (targetHeight failing) (imageId failing) emptyAnalyzer) = None /\
  match batchAnalyze integerToString anyContext rejectsWideTargets inOrder
          3 jobs 2 true emptyAnalyzer with
  | Some out =>
      progressCalls out = [(1, 2); (2, 2)]%nat /\
      settledJobs out
      = [("a", None); ("a", Some (mkSmartCropResult 100 50 600 400 1))] /\
      results out !! imageId failing
      = Some (Some (mkSmartCropResult 100 50 600 400 1)) /\
      results out !! imageId failing <> Some None
  | None => False
  end.
Proof.
  cbv zeta. split; [reflexivity|]. vm_compute.
  repeat split; try reflexivity. discriminate.
Qed.

End BatchFacts.

(** ** Export: [exportImages] *)

Module ExportFacts.
Import ExportImages Examples.

Section WithEnvironment.

Variable numberToString : Q -> string.
Variable rasterize :
  ImageBitmap -> CropRect -> ExportSettings -> string + Blob.
Variable today : string.

Let loop := zipLoop numberToString rasterize.
Let filename := generateExportFilename numberToString.

(** The rectangle an image is rasterized with. *)
Let rectOf (img : ImageFile) : CropRect :=
  CropMath.getCropRect (originalWidth img) (originalHeight img)
                       (cropState img).

(** One rasterization failure among the images still to do ends the
    loop with an error, whatever has been added to the archive. *)
Lemma zipLoop_aborts (settings : ExportSettings) (total : nat)
    (rest : list ImageFile) :
  (exists img b e, img ∈ rest /\ bitmap img = Some b /\
                   rasterize b (rectOf img) settings = inl e) ->
  forall i zip progress,
    exists e made, loop rest i total settings zip progress = inl (e, made).
Proof.
  unfold loop, rectOf.
  induction rest as [|image rest IH]; intros (img & b & e & Hin & Hb & Hr).
  - inversion Hin.
  - intros i zip progress. cbn [zipLoop].
    destruct (bitmap image) as [bmp|] eqn:B.
    + unfold processImage.
      destruct (rasterize bmp _ settings) as [e'|blob] eqn:Rz.
      * exists e', progress. reflexivity.
      * apply IH. apply elem_of_cons in Hin as [->|Hin].
        -- congruence.
        -- exists img, b, e. auto.
    + apply IH. apply elem_of_cons in Hin as [->|Hin].
      * congruence.
      * exists img, b, e. auto.
Qed.

(** When every rasterization succeeds the loop ends with an archive
    that keeps what it had and has an entry under the file name of
    every image with a bitmap. *)
Lemma zipLoop_archives (settings : ExportSettings) (total : nat)
    (rest : list ImageFile) :
  (forall img b, img ∈ rest -> bitmap img = Some b ->
                 exists blob, rasterize b (rectOf img) settings = inr blob) ->
  forall i zip progress,
    exists zip' progress',
      loop rest i total settings zip progress = inr (zip', progress') /\
      (forall k, is_Some (zip !! k) -> is_Some (zip' !! k)) /\
      (forall j img b, rest !! j = Some img -> bitmap img = Some b ->
                       is_Some (zip' !! filename (i + j)%nat settings)).
Proof.
  unfold loop, rectOf, filename.
  induction rest as [|image rest IH]; intros Hall i zip progress.
  - exists zip, progress. repeat split; auto.
    intros j img b Hj. rewrite lookup_nil in Hj. discriminate Hj.
  - cbn [zipLoop].
    assert (Hrest : forall img b, img ∈ rest -> bitmap img = Some b ->
              exists blob,
                rasterize b
                  (CropMath.getCropRect (originalWidth img)
                     (originalHeight img) (cropState img)) settings
                = inr blob).
    { intros img b Hin. apply Hall. apply elem_of_cons. right. exact Hin. }
    destruct (bitmap image) as [bmp|] eqn:B.
    + unfold processImage.
      destruct (Hall image bmp) as [blob Rz];
        [apply elem_of_cons; left; reflexivity | exact B |].
      rewrite Rz.
      destruct (IH Hrest (S i)
                  (<[generateExportFilename numberToString i settings
                     := blob]> zip)
                  (progress ++ [(S i, total)]))
        as (zip' & progress' & E & K & J).
      exists zip', progress'. split; [exact E|]. split.
      * intros k Hk. apply K.
        destruct (decide (generateExportFilename numberToString i settings = k))
          as [->|N].
        -- rewrite lookup_insert_eq. eexists; reflexivity.
        -- rewrite lookup_insert_ne by exact N. exact Hk.
      * intros [|j] img b Hj Hb.
        -- rewrite Nat.add_0_r. apply K. rewrite lookup_insert_eq.
           eexists; reflexivity.
        -- rewrite Nat.add_succ_r. apply (J j img b); assumption.
    + destruct (IH Hrest (S i) zip progress)
        as (zip' & progress' & E & K & J).
      exists zip', progress'. split; [exact E|]. split; [exact K|].
      intros [|j] img b Hj Hb.
      * cbn in Hj. injection Hj as <-. congruence.
      * rewrite Nat.add_succ_r. apply (J j img b); assumption.
Qed.

(** C3, amended.  An empty collection is rejected with "No images to
    export".  In an export of more than one image, a rasterization
    failure of any image rejects the whole export: nothing is saved,
    not for the images whose rasterization succeeds either, and the
    caller ends with the error toast "Export failed. Please try again.".
    When every image that has a bitmap rasterizes, the export resolves
    with one archive saved, which has an entry under the file name of
    every such image; images without a bitmap are skipped. *)
Theorem exportImages_multi_image (images : list ImageFile)
    (settings : ExportSettings) :
  (1 < length images)%nat ->
  let run := exportImages numberToString rasterize today images settings in
  exportImages numberToString rasterize today [] settings
  = mkExportRun [] [] (Rejected "No images to export") /\
  ((exists img b e, img ∈ images /\ bitmap img = Some b /\
                    rasterize b (rectOf img) settings = inl e) ->
   (exists e, outcome run = Rejected e) /\
   saved run = [] /\
   handleExport numberToString rasterize today images settings
   = (toast_error "Export failed. Please try again.", [])) /\
  ((forall img b, img ∈ images -> bitmap img = Some b ->
                  exists blob, rasterize b (rectOf img) settings = inr blob) ->
   outcome run = Resolved /\
   exists zip,
     saved run = [(ZipFile zip, "mybirme-export-" +:+ today +:+ ".zip")] /\
     forall j img b, images !! j = Some img -> bitmap img = Some b ->
                     is_Some (zip !! filename j settings)).
Proof.
  intros Hlen run. split; [reflexivity|].
  destruct images as [|i1 [|i2 imgs]]; cbn in Hlen; try lia.
  set (all := i1 :: i2 :: imgs) in *.
  assert (E : run = match zipLoop numberToString rasterize all 0
                            (length all) settings ∅ [] with
                    | inl (e, progress) => mkExportRun [] progress (Rejected e)
                    | inr (zip, progress) =>
                        mkExportRun
                          [(ZipFile zip,
                            "mybirme-export-" +:+ today +:+ ".zip")]
                          progress Resolved
                    end) by reflexivity.
  split.
  - intros Hfail.
    destruct (zipLoop_aborts settings (length all) all Hfail 0%nat ∅ [])
      as (e & made & He).
    unfold loop in He.
    assert (R : run = mkExportRun [] made (Rejected e))
      by (rewrite E, He; reflexivity).
    split; [exists e; rewrite R; reflexivity|].
    split; [rewrite R; reflexivity|].
    unfold handleExport. fold all. fold run. rewrite R. reflexivity.
  - intros Hall.
    destruct (zipLoop_archives settings (length all) all Hall 0%nat ∅ [])
      as (zip & progress & He & _ & J).
    unfold loop in He.
    assert (R : run = mkExportRun
                        [(ZipFile zip, "mybirme-export-" +:+ today +:+ ".zip")]
                        progress Resolved) by (rewrite E, He; reflexivity).
    split; [rewrite R; reflexivity|].
    exists zip. split; [rewrite R; reflexivity|].
    intros j img b Hj Hb. apply (J j img b Hj Hb).
Qed.

End WithEnvironment.

(** C3, as stated, fails: of two images the first fails to rasterize and
    the second rasterizes; the export is rejected and saves nothing, so
    the second image has no output, and the caller shows an error. *)
Lemma rasterization_failure_aborts_export :
  let images := [sampleImage "a" (Some 0%nat); sampleImage "b" (Some 1%nat)] in
  let run :=
    exportImages integerToString failsOnFirst "2026-01-01" images
                 DEFAULT_EXPORT_SETTINGS in
  processImage failsOnFirst 1%nat
    (CropMath.getCropRect 1200 800 DEFAULT_CROP_STATE)
    DEFAULT_EXPORT_SETTINGS = inr 1%nat /\
  outcome run = Rejected "Failed to create blob" /\
  saved run = [] /\
  progress run = [] /\
  handleExport integerToString failsOnFirst "2026-01-01" images
               DEFAULT_EXPORT_SETTINGS
  = (toast_error "Export failed. Please try again.", []).
Proof. cbv zeta. repeat split; reflexivity. Qed.

Lemma exportImages_multi_image_witness :
  let images := [sampleImage "a" (Some 0%nat); sampleImage "b" None;
                 sampleImage "c" (Some 2%nat)] in
  (1 < length images)%nat /\
  exists zip,
    saved (exportImages integerToString alwaysRasterizes "2026-01-01" images
             DEFAULT_EXPORT_SETTINGS)
    = [(ZipFile zip, "mybirme-export-2026-01-01.zip")] /\
    is_Some (zip !! "image-1.jpg") /\ is_Some (zip !! "image-3.jpg").
Proof.
  cbv zeta. split; [cbn; lia|].
  destruct (exportImages_multi_image integerToString alwaysRasterizes
              "2026-01-01"
              [sampleImage "a" (Some 0%nat); sampleImage "b" None;
               sampleImage "c" (Some 2%nat)]
              DEFAULT_EXPORT_SETTINGS ltac:(cbn; lia))
    as (_ & _ & H).
  destruct H as (_ & zip & Hs & Hz).
  - intros img b _ _. eexists. reflexivity.
  - exists zip. split; [exact Hs|]. split.
    + exact (Hz 0%nat (sampleImage "a" (Some 0%nat)) 0%nat eq_refl eq_refl).
    + exact (Hz 2%nat (sampleImage "c" (Some 2%nat)) 2%nat eq_refl eq_refl).
Defined.

End ExportFacts.

(** * Further properties *)

(** ** Crop geometry, continued *)

Module CropMathMore.
Import CropMath CropMathFacts.

(** The fields of [calculateCrop] in terms of one another. *)
Lemma calculateCrop_fields (iw ih : Q) (cs : CropState) :
  let c := calculateCrop iw ih cs in
  cropWidth c = baseWidth c / scale cs /\
  cropHeight c = baseHeight c / scale cs /\
  cropX c = Qmax 0 (Qmin (iw - cropWidth c)
                         (centerX cs * iw - cropWidth c / 2)) /\
  cropY c = Qmax 0 (Qmin (ih - cropHeight c)
                         (centerY cs * ih - cropHeight c / 2)).
Proof.
  unfold calculateCrop.
  destruct (Qle_bool (iw / ih) (aspect cs)); repeat split; reflexivity.
Qed.

(** The base rectangle of [calculateCrop] fits the image and fills it along
    one axis. *)
Lemma calculateCrop_base_fits (iw ih : Q) (cs : CropState) :
  0 < iw -> 0 < ih -> 0 < aspect cs ->
  let c := calculateCrop iw ih cs in
  0 < baseWidth c /\ baseWidth c <= iw /\
  0 < baseHeight c /\ baseHeight c <= ih /\
  (baseWidth c = iw \/ baseHeight c = ih).
Proof.
  intros Hw Hh Ha c.
  pose proof (baseRectangle_fits iw ih (aspect cs) Hw Hh Ha) as B.
  rewrite <- calculateCrop_base in B. cbn [fst snd] in B. fold c in B.
  destruct B as (B1 & B2 & B3 & B4). repeat split; try assumption.
  subst c. unfold calculateCrop.
  destruct (Qle_bool (iw / ih) (aspect cs)); [left | right]; reflexivity.
Qed.

Lemma half_eq (w : Q) : w / 2 == w * (1 # 2).
Proof. field. Qed.

(** [Math.round] is within half a unit of its argument. *)
Lemma Math_round_near (x : Q) :
  x - (1 # 2) < Math_round x /\ Math_round x <= x + (1 # 2).
Proof.
  unfold Math_round. split.
  - pose proof (Qlt_floor (x + (1 # 2))) as H.
    rewrite inject_Z_plus in H. change (inject_Z 1) with 1 in H. lra.
  - apply Qfloor_le.
Qed.

Lemma Math_round_nonneg (x : Q) : 0 <= x -> 0 <= Math_round x.
Proof.
  intros H. unfold Math_round.
  change 0 with (inject_Z 0). rewrite <- Zle_Qle.
  change 0%Z with (Qfloor 0). apply Qfloor_resp_le. lra.
Qed.

Lemma Math_round_mono (x y : Q) : x <= y -> Math_round x <= Math_round y.
Proof.
  intros H. unfold Math_round. rewrite <- Zle_Qle.
  apply Qfloor_resp_le. lra.
Qed.

Lemma Math_round_integer (z : Z) : Math_round (inject_Z z) = inject_Z z.
Proof.
  unfold Math_round. f_equal.
  apply Z.le_antisymm.
  - apply Z.lt_succ_r. rewrite Zlt_Qlt.
    eapply Qle_lt_trans; [apply Qfloor_le|].
    unfold Z.succ. rewrite inject_Z_plus. change (inject_Z 1) with 1. lra.
  - rewrite <- (Qfloor_Z z) at 1. apply Qfloor_resp_le. lra.
Qed.

(** The zoom [smartCropToCropState] returns is clamped to [1, 5]. *)
Lemma smartCropToCropState_zoom_range_aux (r : SmartCropResult)
    (iw ih a : Q) :
  let cs := smartCropToCropState r iw ih a in
  1 <= scale cs /\ scale cs <= 5 /\ aspect cs = a.
Proof.
  unfold smartCropToCropState.
  destruct (Qle_bool (iw / ih) a); cbn [scale aspect]; repeat split;
    try apply Q.le_max_l;
    (apply Q.max_lub; [lra | apply Q.le_min_r]).
Qed.

(** X1: For a region the detector reports inside the image, the centre
    [smartCropToCropState] computes is normalized: both coordinates are
    between 0 and 1. *)
Theorem smartCropToCropState_center_normalized (r : SmartCropResult)
    (imageWidth imageHeight targetAspect : Q) :
  0 < imageWidth -> 0 < imageHeight ->
  0 <= sc_x r -> 0 <= sc_width r -> sc_x r + sc_width r <= imageWidth ->
  0 <= sc_y r -> 0 <= sc_height r -> sc_y r + sc_height r <= imageHeight ->
  let cs := smartCropToCropState r imageWidth imageHeight targetAspect in
  0 <= centerX cs /\ centerX cs <= 1 /\ 0 <= centerY cs /\ centerY cs <= 1.
Proof.
  intros Hw Hh X0 W0 XW Y0 H0 YH.
  pose proof (half_eq (sc_width r)) as Ew.
  pose proof (half_eq (sc_height r)) as Eh.
  unfold smartCropToCropState.
  destruct (Qle_bool (imageWidth / imageHeight) targetAspect);
    cbn [centerX centerY]; repeat split;
    first [ apply Qle_shift_div_l; [assumption | lra]
          | apply Qle_shift_div_r; [assumption | lra] ].
Qed.

Lemma smartCropToCropState_center_normalized_witness :
  let cs := smartCropToCropState (mkSmartCropResult 100 50 600 400 1)
                                 1200 800 (3 # 2) in
  0 <= centerX cs /\ centerX cs <= 1 /\ 0 <= centerY cs /\ centerY cs <= 1.
Proof.
  apply (smartCropToCropState_center_normalized
           (mkSmartCropResult 100 50 600 400 1) 1200 800 (3 # 2));
    vm_compute; first [reflexivity | discriminate].
Defined.

(** X4: [clampCropCenter] for a crop no larger than the image: the clamped
    centre is between the crop's half extent and one minus it, hence
    between 0 and 1, and a centre already in that range is returned as it
    is. *)
Theorem clampCropCenter_range
    (centerX centerY cropWidth cropHeight imageWidth imageHeight : Q) :
  0 < imageWidth -> 0 < imageHeight ->
  0 <= cropWidth -> cropWidth <= imageWidth ->
  0 <= cropHeight -> cropHeight <= imageHeight ->
  let p := clampCropCenter centerX centerY cropWidth cropHeight
                           imageWidth imageHeight in
  let minX := (cropWidth / 2) / imageWidth in
  let minY := (cropHeight / 2) / imageHeight in
  (0 <= minX /\ minX <= fst p /\ fst p <= 1 - minX /\ 1 - minX <= 1) /\
  (0 <= minY /\ minY <= snd p /\ snd p <= 1 - minY /\ 1 - minY <= 1) /\
  (minX <= centerX -> centerX <= 1 - minX -> fst p == centerX) /\
  (minY <= centerY -> centerY <= 1 - minY -> snd p == centerY).
Proof.
  intros Hw Hh W0 W1 H0 H1 p minX minY.
  pose proof (half_eq cropWidth) as Ew.
  pose proof (half_eq cropHeight) as Eh.
  assert (Mx : 0 <= minX /\ minX <= 1 # 2).
  { unfold minX. split.
    - apply Qle_shift_div_l; [exact Hw | lra].
    - apply Qle_shift_div_r; [exact Hw | lra]. }
  assert (My : 0 <= minY /\ minY <= 1 # 2).
  { unfold minY. split.
    - apply Qle_shift_div_l; [exact Hh | lra].
    - apply Qle_shift_div_r; [exact Hh | lra]. }
  subst p. unfold clampCropCenter. cbn [fst snd]. fold minX minY.
  destruct (Qmin_cases (1 - minX) centerX) as [[E1 L1]|[E1 L1]];
    destruct (Qmax_cases minX (Qmin (1 - minX) centerX)) as [[E2 L2]|[E2 L2]];
    destruct (Qmin_cases (1 - minY) centerY) as [[E3 L3]|[E3 L3]];
    destruct (Qmax_cases minY (Qmin (1 - minY) centerY)) as [[E4 L4]|[E4 L4]];
    rewrite ?E2, ?E4; rewrite ?E1, ?E3 in *;
    repeat split; intros; lra.
Qed.

Lemma clampCropCenter_range_witness :
  let p := clampCropCenter 2 (-1) 800 800 1200 800 in
  fst p <= 1 - (800 / 2) / 1200 /\ (800 / 2) / 800 <= snd p.
Proof.
  cbv zeta.
  destruct (clampCropCenter_range 2 (-1) 800 800 1200 800)
    as ((_ & _ & Hx & _) & (_ & Hy & _ & _) & _);
    try (vm_compute; first [reflexivity | discriminate]).
  split; [exact Hx | exact Hy].
Defined.

End CropMathMore.

(** ** The crop editor's hook: [useCropState] *)

Module UseCropStateFacts.
Import CropMath CropMathFacts CropMathMore UseCropState.

(** The sizes [calculateCrop] computes depend on the aspect and the zoom
    only. *)
Lemma calculateCrop_size_indep (iw ih : Q) (cs1 cs2 : CropState) :
  aspect cs1 = aspect cs2 -> scale cs1 = scale cs2 ->
  baseWidth (calculateCrop iw ih cs1) = baseWidth (calculateCrop iw ih cs2) /\
  baseHeight (calculateCrop iw ih cs1) = baseHeight (calculateCrop iw ih cs2) /\
  cropWidth (calculateCrop iw ih cs1) = cropWidth (calculateCrop iw ih cs2) /\
  cropHeight (calculateCrop iw ih cs1) = cropHeight (calculateCrop iw ih cs2).
Proof.
  intros Ea Es. unfold calculateCrop. rewrite Ea, Es.
  destruct (Qle_bool (iw / ih) (aspect cs2)); repeat split; reflexivity.
Qed.

(** X5: [updateCenter] keeps the zoom, the aspect, the rotation and the
    fingerprint, and with them the size of the crop; the centre it sets is
    the requested one put through [clampCropCenter] for that size; and it
    is idempotent: called again with the same request, or with the centre
    it has just set, it returns the state it returned.  Nothing here
    depends on how the divisions are rounded. *)
Theorem updateCenter_idempotent (cs : CropState) (imageWidth imageHeight : Q)
    (x y : Q) :
  let cs' := updateCenter cs imageWidth imageHeight x y in
  let c := calculateCrop imageWidth imageHeight cs in
  let c' := calculateCrop imageWidth imageHeight cs' in
  (scale cs' = scale cs /\ aspect cs' = aspect cs /\
   rotation cs' = rotation cs /\ sourceHash cs' = sourceHash cs) /\
  (cropWidth c' = cropWidth c /\ cropHeight c' = cropHeight c) /\
  (centerX cs', centerY cs')
  = clampCropCenter x y (cropWidth c) (cropHeight c) imageWidth imageHeight /\
  updateCenter cs' imageWidth imageHeight x y = cs' /\
  updateCenter cs' imageWidth imageHeight (centerX cs') (centerY cs') = cs'.
Proof.
  intros cs' c c'.
  destruct (calculateCrop_size_indep imageWidth imageHeight cs' cs
              eq_refl eq_refl) as (_ & _ & Ew & Eh).
  fold c c' in Ew, Eh.
  split; [repeat split|]. split; [split; assumption|].
  split; [reflexivity|]. split.
  - unfold updateCenter at 1. unfold calculation. fold c'. rewrite Ew, Eh.
    reflexivity.
  - unfold updateCenter at 1. unfold calculation. fold c'. rewrite Ew, Eh.
    subst cs'. unfold updateCenter, calculation. fold c.
    unfold clampCropCenter. cbn [fst snd centerX centerY scale aspect
                                   rotation sourceHash].
    f_equal; apply clamp_idempotent.
Qed.

(** X6: [updateScale], for any requested zoom: only the zoom changes, and
    the new zoom is the request clamped,
    [Math.max(1, Math.min(maxScale, request))]: at least one; the request
    itself when that lies between one and [maxScale]; at most [maxScale],
    hence at most ten, where [maxScale] is at least one, and one where it
    is not.  [maxScale] does not depend on the zoom, and clamping a
    clamped zoom returns it. *)
Theorem updateScale_clamps_zoom (cs : CropState)
    (imageWidth imageHeight : Q) (requested : Q) :
  let cs' := updateScale cs imageWidth imageHeight requested in
  let M := maxScale cs imageWidth imageHeight in
  (centerX cs' = centerX cs /\ centerY cs' = centerY cs /\
   aspect cs' = aspect cs /\ rotation cs' = rotation cs /\
   sourceHash cs' = sourceHash cs) /\
  scale cs' = Qmax 1 (Qmin M requested) /\
  1 <= scale cs' /\
  (1 <= requested -> requested <= M -> scale cs' == requested) /\
  (1 <= M -> scale cs' <= M /\ scale cs' <= 10) /\
  (M < 1 -> scale cs' == 1) /\
  maxScale cs' imageWidth imageHeight = M /\
  updateScale cs' imageWidth imageHeight (scale cs') = cs'.
Proof.
  intros cs' M.
  assert (M10 : M <= 10).
  { unfold M, maxScale, getMaxScale.
    destruct (Qle_bool (imageWidth / imageHeight) (aspect cs));
      apply Q.le_min_r. }
  assert (Es : scale cs' = Qmax 1 (Qmin M requested)) by reflexivity.
  assert (Em : maxScale cs' imageWidth imageHeight = M) by reflexivity.
  assert (Ei : updateScale cs' imageWidth imageHeight (scale cs') = cs').
  { unfold updateScale at 1. rewrite Em, Es. subst cs'. unfold updateScale.
    cbn [scale centerX centerY aspect rotation sourceHash]. fold M.
    f_equal. apply (clamp_idempotent 1 M requested). }
  split; [repeat split|]. split; [exact Es|].
  assert (R : 1 <= scale cs' /\
              (1 <= requested -> requested <= M -> scale cs' == requested) /\
              (1 <= M -> scale cs' <= M /\ scale cs' <= 10) /\
              (M < 1 -> scale cs' == 1)).
  { rewrite Es.
    destruct (Qmin_cases M requested) as [[E1 L1]|[E1 L1]];
      destruct (Qmax_cases 1 (Qmin M requested)) as [[E2 L2]|[E2 L2]];
      rewrite E2; rewrite ?E1 in *;
      (split; [lra|]; split; [intros; lra|];
       split; [intros; split; lra | intros; lra]). }
  destruct R as (R1 & R2 & R3 & R4).
  repeat split; try assumption; try apply R3; assumption.
Qed.

(** X7: [fit] and [reset] give the same state.  Its crop is the base
    rectangle, which spans the image along one axis, and it is placed at
    [Math.max(0, (imageWidth - cropWidth) / 2)] and
    [Math.max(0, (imageHeight - cropHeight) / 2)]: centred, and at zero
    along an axis on which the crop is not smaller than the image. *)
Theorem fit_is_centred_base (cs : CropState) (imageWidth imageHeight : Q) :
  let c := calculateCrop imageWidth imageHeight (fit cs) in
  reset cs = fit cs /\
  cropWidth c == baseWidth c /\ cropHeight c == baseHeight c /\
  (baseWidth c = imageWidth \/ baseHeight c = imageHeight) /\
  cropX c == Qmax 0 ((imageWidth - cropWidth c) / 2) /\
  cropY c == Qmax 0 ((imageHeight - cropHeight c) / 2).
Proof.
  intros c.
  destruct (calculateCrop_fields imageWidth imageHeight (fit cs))
    as (Ew & Eh & Ex & Ey).
  fold c in Ew, Eh, Ex, Ey.
  cbn [fit scale centerX centerY] in Ew, Eh, Ex, Ey.
  split; [reflexivity|].
  split; [rewrite Ew; field|]. split; [rewrite Eh; field|].
  split.
  { subst c. unfold calculateCrop.
    destruct (Qle_bool (imageWidth / imageHeight) (aspect (fit cs)));
      [left | right]; reflexivity. }
  pose proof (half_eq (cropWidth c)). pose proof (half_eq (cropHeight c)).
  pose proof (half_eq (imageWidth - cropWidth c)).
  pose proof (half_eq (imageHeight - cropHeight c)).
  split.
  - rewrite Ex at 1.
    destruct (Qmin_cases (imageWidth - cropWidth c)
                ((1 # 2) * imageWidth - cropWidth c / 2)) as [[E1 L1]|[E1 L1]];
      destruct (Qmax_cases 0 (Qmin (imageWidth - cropWidth c)
                  ((1 # 2) * imageWidth - cropWidth c / 2)))
        as [[E2 L2]|[E2 L2]];
      destruct (Qmax_cases 0 ((imageWidth - cropWidth c) / 2))
        as [[E3 L3]|[E3 L3]];
      rewrite E2, E3; rewrite ?E1 in *; lra.
  - rewrite Ey at 1.
    destruct (Qmin_cases (imageHeight - cropHeight c)
                ((1 # 2) * imageHeight - cropHeight c / 2)) as [[E1 L1]|[E1 L1]];
      destruct (Qmax_cases 0 (Qmin (imageHeight - cropHeight c)
                  ((1 # 2) * imageHeight - cropHeight c / 2)))
        as [[E2 L2]|[E2 L2]];
      destruct (Qmax_cases 0 ((imageHeight - cropHeight c) / 2))
        as [[E3 L3]|[E3 L3]];
      rewrite E2, E3; rewrite ?E1 in *; lra.
Qed.

End UseCropStateFacts.

(** ** The reducer and the provider, continued *)

Module AppProviderFacts.
Import AppContext AppProvider AppContextFacts Examples.

Lemma filter_is_sublist {A} (f : A -> bool) (l : list A) :
  sublist (List.filter f l) l.
Proof.
  induction l as [|x l IH]; [constructor|].
  cbn [List.filter]. destruct (f x); constructor; exact IH.
Qed.

(** An update of the entries that keeps their identities keeps the list of
    identities. *)
Lemma map_keeps_ids (g : ImageFile -> ImageFile) (imgs : list ImageFile) :
  (forall img, id (g img) = id img) -> map id (map g imgs) = map id imgs.
Proof.
  intros H. induction imgs as [|img imgs IH]; [reflexivity|].
  cbn [map]. rewrite H, IH. reflexivity.
Qed.

Lemma guarded_keeps_id (f : ImageFile -> ImageFile) (i : string) :
  (forall img, id (f img) = id img) ->
  forall img, id (if String.eqb (id img) i then f img else img) = id img.
Proof. intros H img. destruct (String.eqb (id img) i); [apply H | reflexivity]. Qed.

(** [findImage] after an update guarded by [img.id === i]. *)
Lemma findImage_map_guarded (f : ImageFile -> ImageFile) (i j : string)
    (imgs : list ImageFile) :
  (forall img, id (f img) = id img) ->
  findImage j (map (fun img => if String.eqb (id img) i then f img else img)
                   imgs)
  = if String.eqb j i then f <$> findImage j imgs else findImage j imgs.
Proof.
  intros Hf. unfold findImage.
  induction imgs as [|img imgs IH].
  - cbn. destruct (String.eqb j i); reflexivity.
  - cbn [map List.find].
    rewrite (guarded_keeps_id f i Hf img).
    destruct (String.eqb_spec (id img) j) as [E|N].
    + subst j. destruct (String.eqb (id img) i); reflexivity.
    + exact IH.
Qed.

(** X10: [REMOVE_IMAGE]: the entries left are those of the other identities, in
    their order; the settings, the processing flag and the selected and
    the edited identity are as they were; removing twice is removing once,
    and removing an identity that is not in the collection returns the
    state as it is. *)
Theorem removeImage_keeps_other_entries (s : AppState) (i : string) :
  let s' := appReducer s (REMOVE_IMAGE i) in
  (forall img, In img (images s') <-> In img (images s) /\ id img <> i) /\
  sublist (images s') (images s) /\
  (settings s' = settings s /\
   appIsProcessing s' = appIsProcessing s /\
   selectedImageId s' = selectedImageId s /\
   editingImageId s' = editingImageId s) /\
  appReducer s' (REMOVE_IMAGE i) = s' /\
  ((forall img, In img (images s) -> id img <> i) -> s' = s).
Proof.
  cbn [appReducer withImages images settings appIsProcessing selectedImageId
       editingImageId].
  split; [|split; [|split; [|split]]].
  - intros img. rewrite List.filter_In. split.
    + intros [H Hn]. split; [exact H|]. intros E.
      rewrite E, String.eqb_refl in Hn. discriminate Hn.
    + intros [H N]. split; [exact H|].
      apply (proj2 (String.eqb_neq _ _)) in N. rewrite N. reflexivity.
  - apply filter_is_sublist.
  - repeat split.
  - unfold withImages. cbn [images settings appIsProcessing selectedImageId
                              editingImageId].
    f_equal. apply List.forallb_filter_id. apply List.forallb_filter.
  - intros H. rewrite List.forallb_filter_id; [apply state_eta|].
    apply List.forallb_forall. intros img Hin.
    specialize (H img Hin).
    apply (proj2 (String.eqb_neq _ _)) in H. rewrite H. reflexivity.
Qed.

(** X11: No action other than [ADD_IMAGES] and [LOAD_STATE] brings an identity
    into the collection or reorders it: the identities afterwards are a
    sublist of those before, so identities that were pairwise distinct
    stay so. *)
Theorem only_adding_extends_collection (s : AppState) (a : AppAction) :
  match a with ADD_IMAGES _ | LOAD_STATE _ => False | _ => True end ->
  sublist (map id (images (appReducer s a))) (map id (images s)) /\
  (NoDup (map id (images s)) -> NoDup (map id (images (appReducer s a)))).
Proof.
  intros Ha.
  assert (Sb : sublist (map id (images (appReducer s a))) (map id (images s))).
  { destruct a; try contradiction; cbn [appReducer withImages images];
      try reflexivity.
    - apply (fmap_sublist id). apply filter_is_sublist.
    - apply sublist_nil_l.
    - rewrite map_keeps_ids; [reflexivity|]. apply guarded_keeps_id. reflexivity.
    - rewrite map_keeps_ids; reflexivity.
    - rewrite map_keeps_ids; reflexivity.
    - rewrite map_keeps_ids; [reflexivity|]. apply guarded_keeps_id. reflexivity.
    - rewrite map_keeps_ids; [reflexivity|]. apply guarded_keeps_id. reflexivity.
    - rewrite map_keeps_ids; [reflexivity|]. apply guarded_keeps_id. reflexivity. }
  split; [exact Sb|]. intros ND. eapply sublist_NoDup; eassumption.
Qed.

Lemma only_adding_extends_collection_witness :
  NoDup (map id (images (appReducer (state sampleStore) (REMOVE_IMAGE "a")))).
Proof.
  apply (only_adding_extends_collection (state sampleStore) (REMOVE_IMAGE "a") I).
  cbn. apply NoDup_singleton.
Defined.

(** X12: [UPDATE_CROP_STATE i c], read back with [find]: the entry found for
    [i] is the one found before with its crop state replaced by [c], and
    the entry found for any other identity is the one found before. *)
Theorem updateCropState_lookup (s : AppState) (i j : string) (c : CropState) :
  findImage j (images (appReducer s (UPDATE_CROP_STATE i c)))
  = if String.eqb j i
    then (fun img => withCropState img c) <$> findImage j (images s)
    else findImage j (images s).
Proof.
  cbn [appReducer withImages images].
  apply (findImage_map_guarded (fun img => withCropState img c)).
  reflexivity.
Qed.

Lemma filter_none {A} (f : A -> bool) (l : list A) :
  (forall x, In x l -> f x = false) -> List.filter f l = [].
Proof.
  induction l as [|x l IH]; intros H; [reflexivity|].
  cbn [List.filter]. rewrite (H x) by (left; reflexivity).
  apply IH. intros y Hy. apply H. right. exact Hy.
Qed.

Lemma Forall2_map_self {A} (P : A -> A -> Prop) (g : A -> A) (l : list A) :
  (forall x, P x (g x)) -> Forall2 P l (map g l).
Proof.
  intros H. induction l as [|x l IH]; cbn [map]; constructor; [apply H | exact IH].
Qed.

(** X13: [updateExportSettings] with a new width or height, called with the
    current settings: the export settings take the given fields, every
    entry's aspect becomes the new [targetWidth / targetHeight] while its
    identity, centre, zoom and fingerprint stay, the saliency cache is
    emptied exactly when smart crop is enabled, and the detector is not
    invoked. *)
Theorem updateExportSettings_rescales (p : PartialExportSettings) (w : Store) :
  is_Some (p_targetWidth p) \/ is_Some (p_targetHeight p) ->
  let w' := updateExportSettings (settings (state w)) p w in
  let es' := exportSettings (settings (state w')) in
  es' = spreadExportSettings (exportSettings (settings (state w))) p /\
  Forall2 (fun old new =>
             id new = id old /\
             centerX (cropState new) = centerX (cropState old) /\
             centerY (cropState new) = centerY (cropState old) /\
             scale (cropState new) = scale (cropState old) /\
             sourceHash (cropState new) = sourceHash (cropState old) /\
             isSmartCropPending new = isSmartCropPending old /\
             aspect (cropState new) = targetWidth es' / targetHeight es')
          (images (state w)) (images (state w')) /\
  SmartCropWorker.detectorCalls (analyzer w')
  = SmartCropWorker.detectorCalls (analyzer w) /\
  SmartCropWorker.cropCache (analyzer w')
  = if enableSmartCrop (settings (state w)) then ∅
    else SmartCropWorker.cropCache (analyzer w).
Proof.
  intros Hp w' es'.
  assert (Hw' : w' = let w2 :=
                       dispatch (UPDATE_ALL_CROP_STATES
                                   (targetWidth (spreadExportSettings
                                      (exportSettings (settings (state w))) p)
                                    / targetHeight (spreadExportSettings
                                      (exportSettings (settings (state w))) p)))
                                (dispatch (UPDATE_EXPORT_SETTINGS p) w) in
                     if enableSmartCrop (settings (state w)) then
                       {| state := state w2;
                          analyzer := SmartCropWorker.clearSmartCropCache None
                                        (analyzer w2) |}
                     else w2).
  { subst w'. unfold updateExportSettings, spreadExportSettings.
    cbn [targetWidth targetHeight].
    destruct (p_targetWidth p) as [tw|], (p_targetHeight p) as [th|];
      try reflexivity.
    destruct Hp as [[? H]|[? H]]; discriminate H. }
  assert (E : es' = spreadExportSettings (exportSettings (settings (state w))) p).
  { subst es'. rewrite Hw'. cbv zeta.
    destruct (enableSmartCrop (settings (state w))); reflexivity. }
  split; [exact E|]. rewrite E. clear E. rewrite Hw'. cbv zeta.
  destruct (enableSmartCrop (settings (state w)));
    cbn [state analyzer dispatch appReducer withImages withSettings images
         SmartCropWorker.clearSmartCropCache SmartCropWorker.detectorCalls
         SmartCropWorker.cropCache];
    (split; [apply Forall2_map_self; intros img; repeat split
            | split; reflexivity]).
Qed.

Lemma updateExportSettings_rescales_witness :
  let p := UseAspectRatio.setWidth DEFAULT_EXPORT_SETTINGS 600 in
  let w' := updateExportSettings (settings (state sampleStore)) p sampleStore in
  (is_Some (p_targetWidth p) \/ is_Some (p_targetHeight p)) /\
  SmartCropWorker.cropCache (analyzer w') = ∅ /\
  exportSettings (settings (state w'))
  = spreadExportSettings DEFAULT_EXPORT_SETTINGS p.
Proof.
  cbv zeta.
  assert (Hp : is_Some (p_targetWidth
                          (UseAspectRatio.setWidth DEFAULT_EXPORT_SETTINGS 600))
               \/ is_Some (p_targetHeight
                             (UseAspectRatio.setWidth DEFAULT_EXPORT_SETTINGS 600)))
    by (left; eexists; reflexivity).
  split; [exact Hp|].
  pose proof (updateExportSettings_rescales
                (UseAspectRatio.setWidth DEFAULT_EXPORT_SETTINGS 600)
                sampleStore Hp) as (E & _ & _ & C).
  split; [exact C | exact E].
Defined.

(** X14: The completion of an analysis that yields a result [r], in whatever
    store it resumes: the collection keeps its identities; every entry of
    the run's identity has its pending flag cleared, holds [r], and has a
    crop state with a zoom between 1 and 5, the run's target aspect and the
    fingerprint of the image the run was started for; every other entry is
    as it was. *)
Theorem completed_analysis_commits_framing (run : SmartCropRun) (w : Store)
    (r : SmartCropResult) :
  fst (SmartCropWorker.analyzeImage_finish (run_pending run) (analyzer w))
  = Some r ->
  let w' := runSmartCropForImage_finish run w in
  map id (images (state w')) = map id (images (state w)) /\
  Forall2 (fun old new =>
             if String.eqb (id old) (run_id run) then
               isSmartCropPending new = false /\
               smartCropResult new = Some r /\
               1 <= scale (cropState new) /\ scale (cropState new) <= 5 /\
               aspect (cropState new)
               = run_targetWidth run / run_targetHeight run /\
               sourceHash (cropState new)
               = sourceHash (cropState (run_image run))
             else new = old)
          (images (state w)) (images (state w')).
Proof.
  intros H w'. subst w'. unfold runSmartCropForImage_finish.
  destruct (SmartCropWorker.analyzeImage_finish _ _) as [[r'|] a1];
    cbn [fst] in H; [|discriminate H].
  injection H as ->.
  cbn [state dispatch appReducer withImages images].
  split.
  - rewrite !map_map. apply map_ext. intros img.
    destruct (String.eqb (id img) (run_id run)) eqn:E; cbn [id]; rewrite ?E;
      reflexivity.
  - rewrite map_map. apply Forall2_map_self. intros img.
    destruct (CropMathMore.smartCropToCropState_zoom_range_aux r
                (originalWidth (run_image run)) (originalHeight (run_image run))
                (run_targetWidth run / run_targetHeight run)) as (S1 & S5 & A).
    destruct (String.eqb (id img) (run_id run)) eqn:E; cbn [id]; rewrite E.
    + cbn. repeat split; assumption.
    + reflexivity.
Qed.

Lemma completed_analysis_commits_framing_witness :
  let '(run, w1) :=
    runSmartCropForImage_start integerToString anyContext fixedDetector
      DEFAULT_APP_SETTINGS "a" None sampleStore in
  match run with
  | Some run =>
      map id (images (state (runSmartCropForImage_finish run w1))) = ["a"]
  | None => False
  end.
Proof.
  destruct (runSmartCropForImage_start integerToString anyContext fixedDetector
              DEFAULT_APP_SETTINGS "a" None sampleStore) as [run w1] eqn:E.
  vm_compute in E. injection E as <- <-.
  refine (proj1 (completed_analysis_commits_framing _ _
                   (mkSmartCropResult 100 50 600 400 1) _)).
  vm_compute. reflexivity.
Defined.

(** X15: A result that arrives after its image was removed.  [removeImage] has
    taken the entry out of the collection and has cleared the cache of the
    image's keys, the run's key among them; the completion then does not
    put the entry back, but it writes the result to the saliency cache
    under the run's key, and changes no other key. *)
Theorem late_result_is_cached_after_removal (numberToString : Q -> string)
    (run : SmartCropRun) (w : Store) (top : SmartCropWorker.Crop) :
  let key := SmartCropWorker.getCacheKey numberToString (run_id run)
               (run_targetWidth run) (run_targetHeight run) in
  run_pending run = SmartCropWorker.Awaiting key (Some top) ->
  let removed := removeImage (run_id run) w in
  let w' := runSmartCropForImage_finish run removed in
  (~ inCollection (run_id run) (state removed) /\
   SmartCropWorker.cropCache (analyzer removed) !! key = None) /\
  state w' = state removed /\
  ~ inCollection (run_id run) (state w') /\
  (exists r,
     SmartCropWorker.cropCache (analyzer w') !! key = Some (Some r) /\
     sc_x r = SmartCropWorker.x top /\ sc_y r = SmartCropWorker.y top /\
     sc_width r = SmartCropWorker.width top /\
     sc_height r = SmartCropWorker.height top) /\
  (forall k, k <> key ->
     SmartCropWorker.cropCache (analyzer w') !! k
     = SmartCropWorker.cropCache (analyzer removed) !! k).
Proof.
  intros key Hp removed w'.
  assert (Habs : forall img, In img (images (state removed)) ->
                             id img <> run_id run).
  { intros img Hin. cbn in Hin. apply List.filter_In in Hin as [_ Hn].
    intros E. rewrite E, String.eqb_refl in Hn. discriminate Hn. }
  assert (Es : state w' = state removed).
  { subst w'. unfold runSmartCropForImage_finish. rewrite Hp.
    cbn [SmartCropWorker.analyzeImage_finish].
    unfold dispatch. cbn [state appReducer].
    rewrite map_guarded_absent by exact Habs. rewrite withImages_same.
    cbn [images]. rewrite map_guarded_absent by exact Habs.
    apply withImages_same. }
  assert (Hgone : ~ inCollection (run_id run) (state removed)).
  { intros (img & Hin & E). exact (Habs img Hin E). }
  split; [split; [exact Hgone|]|].
  { subst removed. unfold removeImage. cbn [analyzer dispatch].
    unfold SmartCropWorker.clearSmartCropCache.
    destruct (String.eqb (run_id run) "");
      cbn [SmartCropWorker.cropCache]; [apply lookup_empty|].
    apply map_lookup_filter_None. right. intros v _. cbn [fst].
    unfold key, SmartCropWorker.getCacheKey.
    rewrite AnalyzeFacts.prefix_append. cbn. discriminate. }
  split; [exact Es|]. split; [rewrite Es; exact Hgone|].
  subst w'. unfold runSmartCropForImage_finish. rewrite Hp.
  cbn [SmartCropWorker.analyzeImage_finish dispatch analyzer
       SmartCropWorker.cropCache].
  split.
  - eexists. split; [apply lookup_insert_eq|].
    repeat split; reflexivity.
  - intros k N. apply lookup_insert_ne. congruence.
Qed.

Lemma late_result_is_cached_after_removal_witness :
  let '(run, w1) :=
    runSmartCropForImage_start integerToString anyContext fixedDetector
      DEFAULT_APP_SETTINGS "a" None sampleStore in
  match run with
  | Some run =>
      SmartCropWorker.cropCache (analyzer (removeImage "a" w1))
        !! "a_1200_800" = None /\
      images (state (runSmartCropForImage_finish run (removeImage "a" w1))) = []
  | None => False
  end.
Proof.
  destruct (runSmartCropForImage_start integerToString anyContext fixedDetector
              DEFAULT_APP_SETTINGS "a" None sampleStore) as [run w1] eqn:E.
  vm_compute in E. injection E as <- <-.
  match goal with
  | |- _ /\ images (state (runSmartCropForImage_finish ?run (removeImage _ ?w))) = _ =>
      pose proof (late_result_is_cached_after_removal integerToString run w
                    (SmartCropWorker.mkCrop 100 50 600 400 None)
                    eq_refl) as ((_ & C) & Es & _)
  end.
  cbv zeta in C, Es. cbn [run_id] in C, Es. split; [exact C|].
  rewrite Es. reflexivity.
Defined.

Section WithEnvironment.

Variable numberToString : Q -> string.
Variable getContext2d : ImageBitmap -> bool.
Variable smartcrop_crop :
  list SmartCropWorker.DetectorCall -> SmartCropWorker.DetectorCall ->
  option SmartCropWorker.Crop.

(** What a run of [runSmartCropForImage] leaves alone. *)
Lemma runSmartCropForImage_frame (closure : AppSettings) (i : string)
    (override : option ImageFile) (w : Store) :
  let w' := runSmartCropForImage numberToString getContext2d smartcrop_crop
              closure i override w in
  map id (images (state w')) = map id (images (state w)) /\
  settings (state w') = settings (state w) /\
  selectedImageId (state w') = selectedImageId (state w) /\
  editingImageId (state w') = editingImageId (state w).
Proof.
  unfold runSmartCropForImage, runSmartCropForImage_start.
  destruct (match override with
            | Some img => Some img
            | None => findImage i (images (state w))
            end) as [image|]; [|repeat split].
  destruct (bitmap image) as [bmp|]; [|repeat split].
  destruct (enableSmartCrop closure); cbn [negb]; [|repeat split].
  destruct (SmartCropWorker.analyzeImage_start _ _ _ _ _ _ _ _) as [p a1].
  unfold runSmartCropForImage_finish. cbn [run_pending analyzer state run_id].
  destruct (SmartCropWorker.analyzeImage_finish p a1) as [[r|] a2];
    cbn [state dispatch appReducer withImages images settings
         selectedImageId editingImageId];
    (split; [|repeat split]);
    repeat (rewrite map_keeps_ids; [|apply guarded_keeps_id; reflexivity]);
    reflexivity.
Qed.

(** X16: [recomputeSmartCrop] neither adds, removes nor reorders entries, and
    leaves the settings and the selected and edited identities alone; with
    smart crop disabled it does nothing at all, the cache included. *)
Theorem recomputeSmartCrop_keeps_collection (closure : AppState) (w : Store) :
  let w' := recomputeSmartCrop numberToString getContext2d smartcrop_crop
              closure w in
  map id (images (state w')) = map id (images (state w)) /\
  settings (state w') = settings (state w) /\
  selectedImageId (state w') = selectedImageId (state w) /\
  editingImageId (state w') = editingImageId (state w) /\
  (enableSmartCrop (settings closure) = false -> w' = w).
Proof.
  unfold recomputeSmartCrop.
  destruct (enableSmartCrop (settings closure)); cbn [negb];
    [|repeat split].
  set (w1 := {| state := state w;
                analyzer := SmartCropWorker.clearSmartCropCache None
                              (analyzer w) |}).
  assert (G : forall (l : list ImageFile) (v : Store),
             let v' := fold_left
                         (fun w img =>
                            match bitmap img with
                            | Some _ =>
                                runSmartCropForImage numberToString getContext2d
                                  smartcrop_crop (settings closure) (id img)
                                  None w
                            | None => w
                            end) l v in
             map id (images (state v')) = map id (images (state v)) /\
             settings (state v') = settings (state v) /\
             selectedImageId (state v') = selectedImageId (state v) /\
             editingImageId (state v') = editingImageId (state v)).
  { induction l as [|img l IH]; intros v; [repeat split|].
    cbn [fold_left]. cbv zeta in IH.
    destruct (bitmap img) as [b|]; [|apply IH].
    destruct (IH (runSmartCropForImage numberToString getContext2d
                    smartcrop_crop (settings closure) (id img) None v))
      as (I1 & I2 & I3 & I4).
    destruct (runSmartCropForImage_frame (settings closure) (id img) None v)
      as (F1 & F2 & F3 & F4).
    repeat split; congruence. }
  destruct (G (images closure) w1) as (G1 & G2 & G3 & G4).
  repeat split; try assumption. intros H. discriminate H.
Qed.

End WithEnvironment.

Section Loading.

Variable generateImageId : nat -> string.
Variable loadFile : BrowserFile -> option LoadedFile.

Lemma Forall2_In_r {A B} (R : A -> B -> Prop) (l : list A) (l' : list B) :
  Forall2 R l l' -> forall y, In y l' -> exists x, In x l /\ R x y.
Proof.
  induction 1 as [|x y l l' HR _ IH]; intros z Hz; [destruct Hz|].
  destruct Hz as [<-|Hz].
  - exists x. split; [left; reflexivity | exact HR].
  - destruct (IH z Hz) as (x' & Hx & HR').
    exists x'. split; [right; exact Hx | exact HR'].
Qed.

(** Filtering twice is filtering by the conjunction. *)
Lemma filter_filter {A} (f g : A -> bool) (l : list A) :
  List.filter g (List.filter f l) = List.filter (fun x => f x && g x) l.
Proof.
  induction l as [|x l IH]; [reflexivity|].
  cbn [List.filter]. destruct (f x); cbn [andb List.filter]; rewrite IH;
    reflexivity.
Qed.

(** Whether the three loading steps of a file succeed. *)
Let loads (f : BrowserFile) : bool :=
  match loadFile f with Some _ => true | None => false end.

(** The entry [addImages] builds for a file that loads. *)
Let entryOf (closure : AppSettings) (savedCrops : gmap string CropState)
    (f : BrowserFile) (img : ImageFile) : Prop :=
  exists l,
    loadFile f = Some l /\
    file img = bf_file f /\ name img = bf_name f /\
    bitmap img = Some (lf_bitmap l) /\
    originalWidth img = lf_width l /\ originalHeight img = lf_height l /\
    thumbnail img = lf_thumbnail l /\
    smartCropResult img = None /\ isProcessing img = false /\
    sourceHash (cropState img) = Some (lf_hash l) /\
    match savedCrops !! lf_hash l with
    | Some c =>
        isSmartCropPending img = false /\
        centerX (cropState img) = centerX c /\
        centerY (cropState img) = centerY c /\
        scale (cropState img) = scale c /\
        aspect (cropState img) = aspect c
    | None =>
        isSmartCropPending img = enableSmartCrop closure /\
        centerX (cropState img) = 1 # 2 /\
        centerY (cropState img) = 1 # 2 /\
        scale (cropState img) = 1 /\
        aspect (cropState img)
        = targetWidth (exportSettings closure)
          / targetHeight (exportSettings closure)
    end.

(** The loop of [addImages] builds one entry for each file that loads, in
    the order of the files, and none for a file that does not. *)
Lemma loadImages_entries (closure : AppSettings)
    (savedCrops : gmap string CropState) (validFiles : list BrowserFile)
    (n : nat) :
  Forall2 (entryOf closure savedCrops)
          (List.filter loads validFiles)
          (loadImages generateImageId loadFile closure savedCrops validFiles n).
Proof.
  revert n. induction validFiles as [|f rest IH]; intros n.
  - constructor.
  - cbn [loadImages List.filter]. unfold loads at 1.
    destruct (loadFile f) as [l|] eqn:E; [|apply IH].
    constructor; [|apply IH].
    exists l. split; [exact E|].
    cbn [file name bitmap originalWidth originalHeight thumbnail
         smartCropResult isProcessing cropState sourceHash
         isSmartCropPending centerX centerY scale aspect].
    do 9 (split; [reflexivity|]).
    destruct (savedCrops !! lf_hash l) as [c|].
    + rewrite andb_false_r. repeat split; reflexivity.
    + rewrite andb_true_r. repeat split; reflexivity.
Qed.

(** X17: [addImages]: the new entries are appended to the collection, the
    settings and the saliency cache stay, and the processing flag ends
    cleared.  There is one new entry for each file that is of a valid type
    and loads, in the order of the files, and none for any other file.
    The entry has the file, the name, the bitmap, the size and the
    thumbnail of its file and carries the fingerprint of that file; where a
    framing was saved for the fingerprint the entry takes it over and is
    not pending, otherwise it gets the centred fit framing at the current
    aspect and is pending exactly when smart crop is enabled.  An analysis
    is scheduled for the pending new entries, once each and in their
    order, and for no other image. *)
Theorem addImages_schedules_unframed (closure : AppSettings)
    (savedCrops : gmap string CropState) (files : list BrowserFile)
    (w : Store) :
  let result := addImages generateImageId loadFile closure savedCrops files w in
  let w' := fst result in
  let scheduled := snd result in
  exists newImages,
    images (state w') = images (state w) ++ newImages /\
    appIsProcessing (state w') = false /\
    settings (state w') = settings (state w) /\
    analyzer w' = analyzer w /\
    Forall2 (fun f img =>
               exists l,
                 loadFile f = Some l /\
                 file img = bf_file f /\ name img = bf_name f /\
                 bitmap img = Some (lf_bitmap l) /\
                 originalWidth img = lf_width l /\
                 originalHeight img = lf_height l /\
                 thumbnail img = lf_thumbnail l /\
                 smartCropResult img = None /\ isProcessing img = false /\
                 sourceHash (cropState img) = Some (lf_hash l) /\
                 match savedCrops !! lf_hash l with
                 | Some c =>
                     isSmartCropPending img = false /\
                     centerX (cropState img) = centerX c /\
                     centerY (cropState img) = centerY c /\
                     scale (cropState img) = scale c /\
                     aspect (cropState img) = aspect c
                 | None =>
                     isSmartCropPending img = enableSmartCrop closure /\
                     centerX (cropState img) = 1 # 2 /\
                     centerY (cropState img) = 1 # 2 /\
                     scale (cropState img) = 1 /\
                     aspect (cropState img)
                     = targetWidth (exportSettings closure)
                       / targetHeight (exportSettings closure)
                 end)
            (List.filter
               (fun f => isValidImageFile f
                         && match loadFile f with
                            | Some _ => true
                            | None => false
                            end) files)
            newImages /\
    scheduled
    = map (fun img => (id img, img)) (List.filter isSmartCropPending newImages).
Proof.
  cbv zeta. unfold addImages. cbn [fst snd].
  set (valid := List.filter isValidImageFile files).
  set (newImages := loadImages generateImageId loadFile closure savedCrops valid 0).
  pose proof (loadImages_entries closure savedCrops valid 0) as F.
  fold newImages in F. unfold valid in F at 1. rewrite filter_filter in F.
  exists newImages. split; [reflexivity|]. split; [reflexivity|].
  split; [reflexivity|]. split; [reflexivity|]. split; [exact F|].
  assert (Hb : forall img, In img newImages -> is_Some (bitmap img)).
  { intros img Hin.
    destruct (Forall2_In_r _ _ _ F img Hin) as (f & _ & l & _ & _ & _ & B & _).
    rewrite B. eexists; reflexivity. }
  assert (Ef : List.filter
                 (fun img => isSmartCropPending img
                             && match bitmap img with
                                | Some _ => true
                                | None => false
                                end) newImages
               = List.filter isSmartCropPending newImages).
  { apply List.filter_ext_in. intros img Hin.
    destruct (Hb img Hin) as [b Hbm]. rewrite Hbm. apply andb_true_r. }
  rewrite Ef.
  destruct (enableSmartCrop closure) eqn:En; [reflexivity|].
  assert (Enone : List.filter isSmartCropPending newImages = []).
  { apply filter_none. intros img Hin.
    destruct (Forall2_In_r _ _ _ F img Hin)
      as (f & _ & l & _ & _ & _ & _ & _ & _ & _ & _ & _ & _ & M).
    destruct (savedCrops !! lf_hash l); destruct M as (M & _);
      [exact M | rewrite M; exact En]. }
  rewrite Enone. reflexivity.
Qed.

End Loading.

(** Three files, of which the second is not an image and the third fails
    to load: one entry is added, and its analysis is scheduled. *)
Example addImages_skips_unusable_files :
  let files := [mkBrowserFile 0%nat "a.png" "image/png";
                mkBrowserFile 1%nat "b.txt" "text/plain";
                mkBrowserFile 2%nat "c.jpg" "image/jpeg"] in
  let loadFile := fun f =>
    if Nat.eqb (bf_file f) 2%nat then None
    else Some (mkLoadedFile "h0" (bf_file f) 1200 800 "") in
  let result :=
    addImages (fun n => "img") loadFile DEFAULT_APP_SETTINGS ∅ files
      {| state := initialState;
         analyzer := SmartCropWorker.emptyAnalyzer |} in
  map name (images (state (fst result))) = ["a.png"] /\
  map fst (snd result) = ["img"].
Proof. vm_compute. split; reflexivity. Qed.

Lemma cropStatesOf_snoc (imgs : list ImageFile) (img : ImageFile) :
  cropStatesOf (imgs ++ [img])
  = match sourceHash (cropState img) with
    | Some h => if String.eqb h "" then cropStatesOf imgs
                else <[h := cropState img]> (cropStatesOf imgs)
    | None => cropStatesOf imgs
    end.
Proof. unfold cropStatesOf. rewrite foldl_app. reflexivity. Qed.

Lemma cropStatesOf_sound (imgs : list ImageFile) (h : string) (c : CropState) :
  cropStatesOf imgs !! h = Some c ->
  h <> "" /\ sourceHash c = Some h /\
  exists img, In img imgs /\ cropState img = c.
Proof.
  revert h c. induction imgs as [|img imgs IH] using rev_ind; intros h c H.
  - unfold cropStatesOf in H. cbn in H. rewrite lookup_empty in H.
    discriminate H.
  - assert (Old : cropStatesOf imgs !! h = Some c ->
              h <> "" /\ sourceHash c = Some h /\
              exists img0, In img0 (imgs ++ [img]) /\ cropState img0 = c).
    { intros H0. destruct (IH h c H0) as (N & S & img0 & Hin & E).
      split; [exact N|]. split; [exact S|]. exists img0.
      split; [apply in_or_app; left; exact Hin | exact E]. }
    rewrite cropStatesOf_snoc in H.
    destruct (sourceHash (cropState img)) as [h'|] eqn:Eh; [|exact (Old H)].
    destruct (String.eqb_spec h' "") as [->|N]; [exact (Old H)|].
    destruct (decide (h' = h)) as [->|Nh].
    + rewrite lookup_insert_eq in H. injection H as <-.
      split; [exact N|]. split; [exact Eh|]. exists img.
      split; [apply in_or_app; right; left; reflexivity | reflexivity].
    + rewrite lookup_insert_ne in H by exact Nh. exact (Old H).
Qed.

Lemma cropStatesOf_complete (imgs : list ImageFile) (img : ImageFile)
    (h : string) :
  In img imgs -> sourceHash (cropState img) = Some h -> h <> "" ->
  is_Some (cropStatesOf imgs !! h).
Proof.
  induction imgs as [|img0 imgs IH] using rev_ind; intros Hin Eh N.
  - destruct Hin.
  - rewrite cropStatesOf_snoc.
    apply in_app_or in Hin as [Hin|[->|[]]].
    + specialize (IH Hin Eh N).
      destruct (sourceHash (cropState img0)) as [h'|]; [|exact IH].
      destruct (String.eqb h' ""); [exact IH|].
      destruct (decide (h' = h)) as [->|Nh].
      * rewrite lookup_insert_eq. eexists; reflexivity.
      * rewrite lookup_insert_ne by exact Nh. exact IH.
    + rewrite Eh. apply (proj2 (String.eqb_neq _ _)) in N. rewrite N.
      rewrite lookup_insert_eq. eexists; reflexivity.
Qed.

(** X18: The map of framings the provider persists for a collection: every
    entry of the map is the crop state of an image of the collection, filed
    under that crop state's own, non-empty fingerprint; every image with a
    non-empty fingerprint has an entry under it; and nothing is saved
    exactly when no image has a non-empty fingerprint. *)
Theorem persisted_framings_by_fingerprint (imgs : list ImageFile) :
  (forall h c, cropStatesOf imgs !! h = Some c ->
               h <> "" /\ sourceHash c = Some h /\
               exists img, In img imgs /\ cropState img = c) /\
  (forall img h, In img imgs -> sourceHash (cropState img) = Some h ->
                 h <> "" -> is_Some (cropStatesOf imgs !! h)) /\
  (cropStatesToSave imgs = None <->
   forall img h, In img imgs -> sourceHash (cropState img) = Some h -> h = "").
Proof.
  split; [apply cropStatesOf_sound|].
  split; [apply cropStatesOf_complete|].
  unfold cropStatesToSave. cbv zeta.
  destruct (decide (cropStatesOf imgs = ∅)) as [E|N]; split.
  - intros _ img h Hin Eh.
    destruct (decide (h = "")) as [->|Nh]; [reflexivity|].
    destruct (cropStatesOf_complete imgs img h Hin Eh Nh) as [c Hc].
    rewrite E, lookup_empty in Hc. discriminate Hc.
  - reflexivity.
  - intros H. discriminate H.
  - intros H. exfalso.
    destruct (map_choose _ N) as (h & c & Hc).
    destruct (cropStatesOf_sound imgs h c Hc) as (Nh & Sh & img & Hin & <-).
    apply Nh. exact (H img h Hin Sh).
Qed.

(** X19: [handleApplyToAll]: afterwards all entries have one and the same crop
    state, which has the centre, zoom and fingerprint of the first entry's;
    the identities stay; and applying it again changes nothing. *)
Theorem handleApplyToAll_uniform (w : Store) :
  let w' := handleApplyToAll w in
  map id (images (state w')) = map id (images (state w)) /\
  (forall a b, In a (images (state w')) -> In b (images (state w')) ->
               cropState a = cropState b) /\
  match images (state w) with
  | [] => w' = w
  | firstImage :: _ =>
      Forall (fun img =>
                centerX (cropState img) = centerX (cropState firstImage) /\
                centerY (cropState img) = centerY (cropState firstImage) /\
                scale (cropState img) = scale (cropState firstImage) /\
                sourceHash (cropState img) = sourceHash (cropState firstImage))
             (images (state w'))
  end /\
  handleApplyToAll w' = w'.
Proof.
  unfold handleApplyToAll.
  destruct (images (state w)) as [|firstImage rest] eqn:Ei.
  - rewrite Ei. repeat split. intros a b Ha. destruct Ha.
  - unfold applyCropToAll, dispatch.
    cbn [state analyzer appReducer withImages images settings].
    rewrite Ei.
    set (a := targetWidth (exportSettings (settings (state w)))
              / targetHeight (exportSettings (settings (state w)))).
    set (g := fun img : ImageFile =>
                withCropState img (withAspect (cropState firstImage) a)).
    split; [apply map_keeps_ids; reflexivity|].
    split.
    { intros x y Hx Hy.
      apply in_map_iff in Hx as (x0 & <- & _).
      apply in_map_iff in Hy as (y0 & <- & _). reflexivity. }
    split.
    { apply List.Forall_forall. intros x Hx.
      apply in_map_iff in Hx as (x0 & <- & _). repeat split; reflexivity. }
    cbn [map cropState]. subst g. cbn [withCropState cropState].
    f_equal. unfold withImages.
    cbn [images settings appIsProcessing selectedImageId editingImageId].
    f_equal. change (withAspect (withAspect (cropState firstImage) a) a)
               with (withAspect (cropState firstImage) a).
    f_equal. rewrite map_map. apply map_ext. reflexivity.
Qed.

End AppProviderFacts.

(** ** The saliency cache and the batch analyzer, continued *)

Module WorkerFacts.
Import SmartCropWorker AnalyzeFacts BatchFacts Examples.

Section WithEnvironment.

Variable numberToString : Q -> string.
Variable getContext2d : ImageBitmap -> bool.
Variable smartcrop_crop : list DetectorCall -> DetectorCall -> option Crop.
Variable resumeOrder : list (Job * Pending) -> list (Job * Pending).

(** X20: [clearSmartCropCache(imageId)]: no key of that image is left, whatever
    the target dimensions, so the next analysis of the image goes to the
    detector again; nothing is added to the cache; for a non-empty
    identity the keys that do not start with it keep their values; the
    detector is not invoked.  Without an identity the cache ends empty. *)
Theorem clearSmartCropCache_forgets_image (i : string) (tw th : Q)
    (b : ImageBitmap) (a : Analyzer) :
  getContext2d b = true ->
  let a' := clearSmartCropCache (Some i) a in
  cropCache a' !! getCacheKey numberToString i tw th = None /\
  detectorCalls a' = detectorCalls a /\
  (forall k v, cropCache a' !! k = Some v -> cropCache a !! k = Some v) /\
  (i <> "" -> forall k, String.prefix i k = false ->
                        cropCache a' !! k = cropCache a !! k) /\
  detectorCalls
    (snd (analyzeImage numberToString getContext2d smartcrop_crop
            (Bitmap b) tw th i a'))
  = detectorCalls a ++ [mkDetectorCall (Bitmap b) tw th] /\
  cropCache (clearSmartCropCache None a) = ∅.
Proof.
  intros G a'.
  assert (K : cropCache a' !! getCacheKey numberToString i tw th = None).
  { subst a'. unfold clearSmartCropCache.
    destruct (String.eqb i ""); cbn [cropCache]; [apply lookup_empty|].
    apply map_lookup_filter_None. right. intros v _. cbn [fst].
    unfold getCacheKey. rewrite prefix_append. cbn. discriminate. }
  assert (D : detectorCalls a' = detectorCalls a).
  { subst a'. unfold clearSmartCropCache. destruct (String.eqb i ""); reflexivity. }
  split; [exact K|]. split; [exact D|]. split; [|split; [|split]].
  - intros k v. subst a'. unfold clearSmartCropCache.
    destruct (String.eqb i ""); cbn [cropCache].
    + rewrite lookup_empty. discriminate.
    + intros H. apply map_lookup_filter_Some in H. tauto.
  - intros N k P. subst a'. unfold clearSmartCropCache.
    apply (proj2 (String.eqb_neq _ _)) in N. rewrite N. cbn [cropCache].
    destruct (cropCache a !! k) as [v|] eqn:E.
    + apply map_lookup_filter_Some. split; [exact E|]. cbn [fst].
      rewrite P. reflexivity.
    + apply map_lookup_filter_None. left. exact E.
  - rewrite (analyzeImage_miss_invokes numberToString getContext2d
               smartcrop_crop (Bitmap b) tw th i a' K G).
    rewrite D. reflexivity.
  - reflexivity.
Qed.

(** X21: As long as the cache holds no [null], [analyzeImage] stores none: the
    cache afterwards holds no [null] either, the earlier entries keep
    their values, and a call that answers [null] has missed the cache, so
    that answer tells of a failure of the canvas or the detector.
    [clearSmartCropCache] keeps the cache free of [null] as well. *)
Theorem analyzeImage_never_caches_null (e : ImageElement) (tw th : Q)
    (i : string) (a : Analyzer) :
  (forall k v, cropCache a !! k = Some v -> is_Some v) ->
  let result := analyzeImage numberToString getContext2d smartcrop_crop
                  e tw th i a in
  (forall k v, cropCache (snd result) !! k = Some v -> is_Some v) /\
  (forall k v, cropCache a !! k = Some v ->
               cropCache (snd result) !! k = Some v) /\
  (fst result = None ->
   cropCache a !! getCacheKey numberToString i tw th = None /\
   cropCache (snd result) = cropCache a) /\
  (forall j k v, cropCache (clearSmartCropCache j a) !! k = Some v ->
                 is_Some v).
Proof.
  intros Inv result. subst result.
  unfold analyzeImage, analyzeImage_start.
  set (key := getCacheKey numberToString i tw th).
  assert (Clear : forall j k v,
             cropCache (clearSmartCropCache j a) !! k = Some v -> is_Some v).
  { intros j k v. unfold clearSmartCropCache.
    destruct j as [j|]; [destruct (String.eqb j "")|]; cbn [cropCache];
      try (rewrite lookup_empty; discriminate).
    intros H. apply map_lookup_filter_Some in H as [H _]. exact (Inv k v H). }
  destruct (cropCache a !! key) as [cached|] eqn:C.
  - cbn [analyzeImage_finish fst snd].
    split; [exact Inv|]. split; [auto|]. split; [|exact Clear].
    intros ->. destruct (Inv key None C) as [x Hx]. discriminate Hx.
  - destruct (match e with
              | Bitmap b => if getContext2d b then Some e else None
              | _ => Some e
              end) as [source|].
    + destruct (smartcrop_crop (detectorCalls a)
                  (mkDetectorCall source tw th)) as [top|];
        cbn [analyzeImage_finish fst snd cropCache].
      * split; [|split; [|split; [intros H; discriminate H | exact Clear]]].
        -- intros k v H. destruct (decide (key = k)) as [<-|N].
           ++ rewrite lookup_insert_eq in H. injection H as <-.
              eexists; reflexivity.
           ++ rewrite lookup_insert_ne in H by exact N. exact (Inv k v H).
        -- intros k v H. destruct (decide (key = k)) as [<-|N].
           ++ rewrite C in H. discriminate H.
           ++ rewrite lookup_insert_ne by exact N. exact H.
      * split; [exact Inv|]. split; [auto|]. split; [auto | exact Clear].
    + cbn [analyzeImage_finish fst snd].
      split; [exact Inv|]. split; [auto|]. split; [auto | exact Clear].
Qed.

(** Starting a batch invokes the detector at most once per job, and only
    appends to the log of invocations. *)
Lemma startBatch_invocations (batch : list Job) (a : Analyzer) :
  let a' := snd (startBatch numberToString getContext2d smartcrop_crop batch a) in
  (length (detectorCalls a') <= length (detectorCalls a) + length batch)%nat /\
  cropCache a' = cropCache a.
Proof.
  revert a. induction batch as [|job batch IH]; intros a.
  - cbn. split; [lia | reflexivity].
  - cbn [startBatch].
    destruct (analyzeImage_start _ _ _ _ _ _ _ a) as [p a1] eqn:E.
    assert (L : (length (detectorCalls a1) <= S (length (detectorCalls a)))%nat
                /\ cropCache a1 = cropCache a).
    { unfold analyzeImage_start in E.
      destruct (cropCache a !! _) as [cached|].
      - injection E as _ <-. split; [lia | reflexivity].
      - destruct (getContext2d (bitmap job)).
        + injection E as _ <-. cbn [detectorCalls cropCache].
          rewrite length_app. cbn. split; [lia | reflexivity].
        + injection E as _ <-. split; [lia | reflexivity]. }
    specialize (IH a1). cbv zeta in IH.
    destruct (startBatch _ _ _ batch a1) as [ps a2].
    cbn [snd length] in *. destruct IH as [I1 I2], L as [L1 L2].
    split; [lia | congruence].
Qed.

Lemma resume_keeps_invocations (onProgress : bool) (total : nat)
    (l : list (Job * Pending)) (st : BatchState) :
  detectorCalls (batchAnalyzer (fold_left (resumeJob onProgress total) l st))
  = detectorCalls (batchAnalyzer st).
Proof.
  revert st. induction l as [|jp l IH]; intros st; [reflexivity|].
  cbn [fold_left]. rewrite IH. unfold resumeJob.
  destruct (snd jp) as [r|key [top|]]; reflexivity.
Qed.

Lemma runBatch_invocations (onProgress : bool) (total : nat)
    (batch : list Job) (st : BatchState) :
  (length (detectorCalls (batchAnalyzer
             (runBatch numberToString getContext2d smartcrop_crop resumeOrder
                onProgress total batch st)))
   <= length (detectorCalls (batchAnalyzer st)) + length batch)%nat.
Proof.
  unfold runBatch.
  pose proof (startBatch_invocations batch (batchAnalyzer st)) as [L _].
  destruct (startBatch _ _ _ batch (batchAnalyzer st)) as [ps a1].
  cbn [snd] in L. rewrite resume_keeps_invocations. exact L.
Qed.

(** A batch is never larger than the ceiling. *)
Lemma slice_length {A} (l : list A) (i c : Z) :
  (0 <= i)%Z -> (0 <= c)%Z ->
  (length (slice l i (i + c)) <= Z.to_nat c)%nat /\
  (Z.to_nat (Z.min i (Z.of_nat (length l))) + length (slice l i (i + c))
   <= Z.to_nat (Z.min (i + c) (Z.of_nat (length l))))%nat.
Proof.
  intros Hi Hc. unfold slice, relativeIndex.
  assert ((i <? 0)%Z = false) as -> by lia.
  assert ((i + c <? 0)%Z = false) as -> by lia.
  rewrite length_take, length_drop. lia.
Qed.


(** X23: With a ceiling of at least one, a finished [batchAnalyze] has invoked
    the detector at most once per job. *)
Theorem batchAnalyze_invocations_bounded (fuel : nat) (jobs : list Job)
    (c : Z) (onProgress : bool) (a : Analyzer) (out : BatchState) :
  (1 <= c)%Z ->
  batchAnalyze numberToString getContext2d smartcrop_crop resumeOrder
    fuel jobs c onProgress a = Some out ->
  (length (detectorCalls (batchAnalyzer out))
   <= length (detectorCalls a) + length jobs)%nat.
Proof.
  intros Hc. unfold batchAnalyze.
  assert (G : forall (fuel : nat) (i : Z) (st : BatchState),
             (0 <= i)%Z ->
             (length (detectorCalls (batchAnalyzer st))
              <= length (detectorCalls a)
                 + Z.to_nat (Z.min i (Z.of_nat (length jobs))))%nat ->
             batchLoop numberToString getContext2d smartcrop_crop resumeOrder
               fuel onProgress jobs c i st = Some out ->
             (length (detectorCalls (batchAnalyzer out))
              <= length (detectorCalls a) + length jobs)%nat).
  { clear fuel. induction fuel as [|fuel IH]; intros i st Hi Hd H;
      [discriminate H|].
    cbn [batchLoop] in H.
    destruct (i <? Z.of_nat (length jobs))%Z eqn:Lt.
    - apply (IH (i + c)%Z _ ltac:(lia)) in H; [exact H|].
      pose proof (runBatch_invocations onProgress (length jobs)
                    (slice jobs i (i + c)) st).
      destruct (slice_length jobs i c Hi ltac:(lia)) as [_ L]. lia.
    - injection H as <-. lia. }
  apply G; [lia|]. cbn. lia.
Qed.

(** X24: With a ceiling of zero or less and at least one job, [batchAnalyze]
    never returns: the loop index does not advance past the first job,
    however many iterations are allowed. *)
Theorem batchAnalyze_needs_positive_ceiling (jobs : list Job) (c : Z)
    (onProgress : bool) (a : Analyzer) :
  (c <= 0)%Z -> jobs <> [] ->
  forall fuel,
    batchAnalyze numberToString getContext2d smartcrop_crop resumeOrder
      fuel jobs c onProgress a = None.
Proof.
  intros Hc Hj fuel. unfold batchAnalyze.
  assert (G : forall (fuel : nat) (i : Z) (st : BatchState),
             (i <= 0)%Z ->
             batchLoop numberToString getContext2d smartcrop_crop resumeOrder
               fuel onProgress jobs c i st = None).
  { clear fuel. induction fuel as [|fuel IH]; intros i st Hi; [reflexivity|].
    cbn [batchLoop].
    assert ((i <? Z.of_nat (length jobs))%Z = true) as ->.
    { apply Z.ltb_lt. destruct jobs; [contradiction | cbn [length]; lia]. }
    apply IH. lia. }
  apply G. lia.
Qed.

End WithEnvironment.

Lemma clearSmartCropCache_forgets_image_witness :
  let a1 := snd (analyzeImage integerToString anyContext fixedDetector
                   (Bitmap 0%nat) 1200 800 "a" emptyAnalyzer) in
  cropCache (clearSmartCropCache (Some "a") a1) !! "a_1200_800" = None.
Proof.
  cbv zeta.
  exact (proj1 (clearSmartCropCache_forgets_image integerToString anyContext
                  fixedDetector "a" 1200 800 0%nat _ eq_refl)).
Defined.

Lemma analyzeImage_never_caches_null_witness :
  match cropCache (snd (analyzeImage integerToString anyContext fixedDetector
                          (Bitmap 0%nat) 1200 800 "a" emptyAnalyzer))
        !! "a_1200_800" with
  | Some v => is_Some v
  | None => False
  end.
Proof.
  assert (Inv : forall k v, cropCache emptyAnalyzer !! k = Some v -> is_Some v).
  { intros k v H. cbn in H. rewrite lookup_empty in H. discriminate H. }
  pose proof (proj1 (analyzeImage_never_caches_null integerToString anyContext
                       fixedDetector (Bitmap 0%nat) 1200 800 "a" emptyAnalyzer
                       Inv) "a_1200_800") as H.
  destruct (cropCache _ !! "a_1200_800") as [v|] eqn:E.
  - exact (H v eq_refl).
  - vm_compute in E. discriminate E.
Defined.


Lemma batchAnalyze_invocations_bounded_witness :
  (1 <= 2)%Z /\
  match batchAnalyze integerToString anyContext fixedDetector inOrder
          6 fiveJobs 2 true emptyAnalyzer with
  | Some out => (length (detectorCalls (batchAnalyzer out)) <= 0 + 5)%nat
  | None => False
  end.
Proof.
  assert (Hc : (1 <= 2)%Z) by lia.
  split; [exact Hc|].
  destruct (batchAnalyze integerToString anyContext fixedDetector inOrder
              6 fiveJobs 2 true emptyAnalyzer) as [out|] eqn:E.
  - exact (batchAnalyze_invocations_bounded integerToString anyContext
             fixedDetector inOrder 6 fiveJobs 2 true emptyAnalyzer out Hc E).
  - vm_compute in E. discriminate E.
Defined.

Lemma batchAnalyze_needs_positive_ceiling_witness :
  batchAnalyze integerToString anyContext fixedDetector inOrder
    100 fiveJobs (-1) true emptyAnalyzer = None.
Proof.
  assert (Hc : (-1 <= 0)%Z) by lia.
  assert (Hj : fiveJobs <> []) by discriminate.
  exact (batchAnalyze_needs_positive_ceiling integerToString anyContext
           fixedDetector inOrder fiveJobs (-1) true emptyAnalyzer Hc Hj 100%nat).
Defined.

End WorkerFacts.

(** ** Export, persistence and thumbnails *)

Module ExportMore.
Import ExportImages ImageUtils ExportFacts Examples.

Section WithEnvironment.

Variable numberToString : Q -> string.
Variable rasterize :
  ImageBitmap -> CropRect -> ExportSettings -> string + Blob.
Variable today : string.

(** The progress calls of the archive loop when every rasterization
    succeeds: one per image with a bitmap, with the image's position. *)
Lemma zipLoop_progress (settings : ExportSettings) (total : nat)
    (rest : list ImageFile) :
  (forall img b, img ∈ rest -> bitmap img = Some b ->
     exists blob,
       rasterize b (CropMath.getCropRect (originalWidth img)
                      (originalHeight img) (cropState img)) settings
       = inr blob) ->
  forall i zip progress,
    exists zip',
      zipLoop numberToString rasterize rest i total settings zip progress
      = inr (zip',
             progress
               ++ omap (fun x => x)
                    (imap (fun j img =>
                             match bitmap img with
                             | Some _ => Some (S (i + j), total)
                             | None => None
                             end) rest)).
Proof.
  induction rest as [|image rest IH]; intros Hall i zip progress.
  - exists zip. cbn. rewrite app_nil_r. reflexivity.
  - assert (Hrest : forall img b, img ∈ rest -> bitmap img = Some b ->
              exists blob,
                rasterize b (CropMath.getCropRect (originalWidth img)
                               (originalHeight img) (cropState img)) settings
                = inr blob).
    { intros img b Hin. apply Hall. apply elem_of_cons. right. exact Hin. }
    assert (Shift : imap (fun j img =>
                            match bitmap img with
                            | Some _ => Some (S (i + S j), total)
                            | None => None
                            end) rest
                    = imap (fun j img =>
                              match bitmap img with
                              | Some _ => Some (S (S i + j), total)
                              | None => None
                              end) rest).
    { apply imap_ext. intros j img _. rewrite Nat.add_succ_r. reflexivity. }
    cbn [zipLoop imap]. unfold compose. rewrite Shift.
    destruct (bitmap image) as [bmp|] eqn:B.
    + unfold processImage.
      destruct (Hall image bmp) as [blob Rz];
        [apply elem_of_cons; left; reflexivity | exact B |].
      rewrite Rz.
      destruct (IH Hrest (S i)
                  (<[generateExportFilename numberToString i settings := blob]>
                     zip)
                  (progress ++ [(S i, total)])) as [zip' E].
      exists zip'. rewrite E. cbn [omap list_omap]. rewrite Nat.add_0_r.
      rewrite <- app_assoc. reflexivity.
    + destruct (IH Hrest (S i) zip progress) as [zip' E].
      exists zip'. rewrite E. reflexivity.
Qed.

(** X25: Progress of an export of more than one image in which every
    rasterization succeeds: [onProgress] is called once for each image
    that has a bitmap, in order, with the image's position in the
    collection (counted from one) and the size of the collection; images
    without a bitmap are passed over without a call. *)
Theorem exportImages_progress (images : list ImageFile)
    (settings : ExportSettings) :
  (1 < length images)%nat ->
  (forall img b, img ∈ images -> bitmap img = Some b ->
     exists blob,
       rasterize b (CropMath.getCropRect (originalWidth img)
                      (originalHeight img) (cropState img)) settings
       = inr blob) ->
  progress (exportImages numberToString rasterize today images settings)
  = omap (fun x => x)
      (imap (fun j img =>
               match bitmap img with
               | Some _ => Some (S j, length images)
               | None => None
               end) images).
Proof.
  intros Hlen Hall.
  destruct images as [|i1 [|i2 imgs]]; cbn in Hlen; try lia.
  set (all := i1 :: i2 :: imgs) in *.
  destruct (zipLoop_progress settings (length all) all Hall 0%nat ∅ [])
    as [zip E].
  change (exportImages numberToString rasterize today all settings)
    with (match zipLoop numberToString rasterize all 0 (length all)
                  settings ∅ [] with
          | inl (e, progress) => mkExportRun [] progress (Rejected e)
          | inr (zip, progress) =>
              mkExportRun
                [(ZipFile zip, "mybirme-export-" +:+ today +:+ ".zip")]
                progress Resolved
          end).
  rewrite E. reflexivity.
Qed.

(** X26: An export of a single image is [exportSingleImage] at index 0: the same
    download, or none, and the same outcome.  It resolves exactly when one
    blob is saved, under the file name of index 0, and then reports
    progress (1, 1); an image without a bitmap is rejected with "Image not
    loaded", where the archive loop would pass it over. *)
Theorem exportImages_single_is_exportSingleImage (image : ImageFile)
    (settings : ExportSettings) :
  let run := exportImages numberToString rasterize today [image] settings in
  exportSingleImage numberToString rasterize image settings 0
  = (saved run, outcome run) /\
  (outcome run = Resolved <->
   exists blob,
     saved run
     = [(BlobFile blob, generateExportFilename numberToString 0 settings)]) /\
  (outcome run = Resolved -> progress run = [(1, 1)]%nat) /\
  (outcome run <> Resolved -> saved run = [] /\ progress run = []) /\
  (bitmap image = None ->
   outcome run = Rejected "Image not loaded" /\
   zipLoop numberToString rasterize [image] 0 1 settings ∅ [] = inr (∅, [])).
Proof.
  cbv zeta. unfold exportImages, exportSingleImage. cbn [zipLoop].
  destruct (bitmap image) as [bmp|];
    [destruct (processImage rasterize bmp _ settings) as [e|blob]|];
    cbn [saved outcome progress];
    (split; [reflexivity|]);
    (split; [split; [intros H; first [discriminate H | eexists; reflexivity]
                    | intros [b H]; first [discriminate H | reflexivity]]|]);
    (split; [intros H; first [discriminate H | reflexivity]|]);
    (split; [intros H; first [contradiction | split; reflexivity]|]);
    intros H; first [discriminate H | split; reflexivity].
Qed.

End WithEnvironment.

Lemma exportImages_progress_witness :
  let images := [sampleImage "a" (Some 0%nat); sampleImage "b" None;
                 sampleImage "c" (Some 2%nat)] in
  (1 < length images)%nat /\
  progress (exportImages integerToString alwaysRasterizes "2026-01-01" images
              DEFAULT_EXPORT_SETTINGS)
  = [(1, 3); (3, 3)]%nat.
Proof.
  cbv zeta.
  assert (L : (1 < length [sampleImage "a" (Some 0%nat); sampleImage "b" None;
                           sampleImage "c" (Some 2%nat)])%nat) by (cbn; lia).
  split; [exact L|].
  rewrite (exportImages_progress integerToString alwaysRasterizes "2026-01-01"
             _ DEFAULT_EXPORT_SETTINGS L).
  - reflexivity.
  - intros img b _ _. eexists. reflexivity.
Defined.

End ExportMore.

Module StorageFacts.
Import Storage.

Section WithJson.

Variable stringifySettings : AppSettings -> string.
Variable parseSettings : string -> option AppSettings.
Variable stringifyCrops : gmap string CropState -> string.
Variable parseCrops : string -> option (gmap string CropState).
Variable setItemThrows : gmap string string -> string -> string -> bool.

Let load := loadCropStates parseCrops.
Let get := getCropStateByHash parseCrops.
Let update := updateCropState stringifyCrops parseCrops setItemThrows.

(** X27: [updateCropState] read back with [getCropStateByHash], when the write
    goes through and the written text parses back to the map written: the
    fingerprint just stored yields the crop state stored, every other
    fingerprint yields what it yielded before, and the saved settings are
    not touched.  When the write throws, the storage is left as it was. *)
Theorem updateCropState_then_get (hash : string) (cropState : CropState)
    (storage : gmap string string) :
  let written := <[hash := cropState]> (default ∅ (load storage)) in
  stringifyCrops written <> "" ->
  parseCrops (stringifyCrops written) = Some written ->
  (setItemThrows storage CROPS_KEY (stringifyCrops written) = false ->
   get hash (update hash cropState storage) = Some cropState /\
   (forall other, other <> hash ->
      get other (update hash cropState storage) = get other storage) /\
   loadSettings parseSettings (update hash cropState storage)
   = loadSettings parseSettings storage) /\
  (setItemThrows storage CROPS_KEY (stringifyCrops written) = true ->
   update hash cropState storage = storage).
Proof.
  intros written Hne Hparse. split.
  - intros Hok.
    assert (L : load (update hash cropState storage) = Some written).
    { unfold load, update, loadCropStates, updateCropState, saveCropStates,
        trySetItem.
      fold (load storage). fold written. rewrite Hok.
      rewrite lookup_insert_eq.
      apply (proj2 (String.eqb_neq _ _)) in Hne. rewrite Hne. exact Hparse. }
    split; [|split].
    + unfold get, getCropStateByHash. fold load. rewrite L.
      apply lookup_insert_eq.
    + intros other N. unfold get, getCropStateByHash. fold load. rewrite L.
      unfold written. rewrite lookup_insert_ne by congruence.
      destruct (load storage); [reflexivity | apply lookup_empty].
    + unfold update, loadSettings, updateCropState, saveCropStates, trySetItem.
      fold (load storage). fold written. rewrite Hok.
      rewrite lookup_insert_ne by discriminate. reflexivity.
  - intros Hthrows.
    unfold update, updateCropState, saveCropStates, trySetItem.
    fold (load storage). fold written. rewrite Hthrows. reflexivity.
Qed.

(** X28: [clearStorage], whatever was saved before: settings and crop states
    both load as nothing, no fingerprint yields a crop state, and the keys
    of the storage that are not the application's are left as they are. *)
Theorem clearStorage_forgets_saved_data (storage : gmap string string)
    (settings : AppSettings) (crops : gmap string CropState) :
  let saved :=
    saveCropStates stringifyCrops setItemThrows crops
      (saveSettings stringifySettings setItemThrows settings storage) in
  loadSettings parseSettings (clearStorage saved) = None /\
  load (clearStorage saved) = None /\
  (forall hash, get hash (clearStorage saved) = None) /\
  (forall key, key <> SETTINGS_KEY -> key <> CROPS_KEY ->
               clearStorage saved !! key = storage !! key).
Proof.
  intros saved.
  assert (S : clearStorage saved !! SETTINGS_KEY = None).
  { unfold clearStorage. rewrite lookup_delete_ne by discriminate.
    apply lookup_delete_eq. }
  assert (C : clearStorage saved !! CROPS_KEY = None).
  { unfold clearStorage. apply lookup_delete_eq. }
  split; [unfold loadSettings; rewrite S; reflexivity|].
  split; [unfold load, loadCropStates; rewrite C; reflexivity|].
  split.
  - intros hash. unfold get, getCropStateByHash, loadCropStates.
    rewrite C. reflexivity.
  - intros key N1 N2. unfold clearStorage.
    rewrite !lookup_delete_ne by congruence.
    subst saved. unfold saveCropStates, saveSettings, trySetItem.
    repeat match goal with
           | |- context [if ?b then _ else _] => destruct b
           end;
      rewrite ?lookup_insert_ne by congruence; reflexivity.
Qed.

End WithJson.

Lemma updateCropState_then_get_witness :
  let written := <[ "abc" := DEFAULT_CROP_STATE ]> (∅ : gmap string CropState) in
  getCropStateByHash (fun _ => Some written) "abc"
    (updateCropState (fun _ => "{}") (fun _ => Some written)
       (fun _ _ _ => false) "abc" DEFAULT_CROP_STATE ∅)
  = Some DEFAULT_CROP_STATE.
Proof.
  cbv zeta.
  refine (proj1 (proj1 (updateCropState_then_get
                          (fun _ => None)
                          (fun _ => "{}")
                          (fun _ => Some (<[ "abc" := DEFAULT_CROP_STATE ]> ∅))
                          (fun _ _ _ => false)
                          "abc" DEFAULT_CROP_STATE ∅ _ _) _)).
  - discriminate.
  - reflexivity.
  - reflexivity.
Defined.

End StorageFacts.

Module ThumbnailFacts.
Import CropMath CropMathFacts CropMathMore ImageUtils.

Lemma Math_round_proper (x y : Q) : x == y -> Math_round x = Math_round y.
Proof.
  intros E. unfold Math_round. f_equal. apply Qfloor_comp. rewrite E. reflexivity.
Qed.

(** X29: The canvas [generateThumbnail] draws to, for a bitmap of [w] by [h]
    pixels and a limit of [m] pixels, all positive integers: neither side
    exceeds the limit or the bitmap's own side, and a bitmap that fits
    within the limit keeps its size. *)
Theorem thumbnail_fits (w h m : Z) :
  (1 <= w)%Z -> (1 <= h)%Z -> (1 <= m)%Z ->
  let size := thumbnailSize (inject_Z w) (inject_Z h) (inject_Z m) in
  (0 <= fst size /\ fst size <= inject_Z (Z.min w m)) /\
  (0 <= snd size /\ snd size <= inject_Z (Z.min h m)) /\
  ((w <= m)%Z -> (h <= m)%Z ->
   fst size = inject_Z w /\ snd size = inject_Z h) /\
  forall (bitmapSize : ImageBitmap -> Q * Q)
         (draw : ImageBitmap -> Q -> Q -> option string) (b : ImageBitmap),
    bitmapSize b = (inject_Z w, inject_Z h) ->
    generateThumbnail bitmapSize draw b (inject_Z m)
    = draw b (fst size) (snd size).
Proof.
  intros Hw Hh Hm size.
  assert (Qw : 1 <= inject_Z w) by (change 1 with (inject_Z 1); rewrite <- Zle_Qle; lia).
  assert (Qh : 1 <= inject_Z h) by (change 1 with (inject_Z 1); rewrite <- Zle_Qle; lia).
  assert (Qm : 1 <= inject_Z m) by (change 1 with (inject_Z 1); rewrite <- Zle_Qle; lia).
  set (s := Qmin (Qmin (inject_Z m / inject_Z w) (inject_Z m / inject_Z h)) 1).
  assert (S0 : 0 < s).
  { unfold s. apply Q.min_glb_lt; [apply Q.min_glb_lt; apply div_pos|]; lra. }
  assert (S1 : s <= 1) by apply Q.le_min_r.
  assert (Sw : s <= inject_Z m / inject_Z w).
  { unfold s. eapply Qle_trans; [apply Q.le_min_l | apply Q.le_min_l]. }
  assert (Sh : s <= inject_Z m / inject_Z h).
  { unfold s. eapply Qle_trans; [apply Q.le_min_l | apply Q.le_min_r]. }
  assert (Ww : inject_Z w * s <= inject_Z w) by nra.
  assert (Wh : inject_Z h * s <= inject_Z h) by nra.
  assert (Mw : inject_Z w * s <= inject_Z m).
  { assert (E : inject_Z m == inject_Z w * (inject_Z m / inject_Z w))
      by (field; lra).
    rewrite E. apply Qmult_le_l; lra. }
  assert (Mh : inject_Z h * s <= inject_Z m).
  { assert (E : inject_Z m == inject_Z h * (inject_Z m / inject_Z h))
      by (field; lra).
    rewrite E. apply Qmult_le_l; lra. }
  assert (Pw : 0 <= inject_Z w * s) by (apply Qmult_le_0_compat; lra).
  assert (Ph : 0 <= inject_Z h * s) by (apply Qmult_le_0_compat; lra).
  assert (Fw : fst size = Math_round (inject_Z w * s)) by reflexivity.
  assert (Fh : snd size = Math_round (inject_Z h * s)) by reflexivity.
  split; [|split; [|split]].
  - rewrite Fw. split; [apply Math_round_nonneg; exact Pw|].
    destruct (Z.min_spec w m) as [[_ ->]|[_ ->]].
    + rewrite <- (Math_round_integer w). apply Math_round_mono.
      rewrite Math_round_integer. exact Ww.
    + rewrite <- (Math_round_integer m). apply Math_round_mono. exact Mw.
  - rewrite Fh. split; [apply Math_round_nonneg; exact Ph|].
    destruct (Z.min_spec h m) as [[_ ->]|[_ ->]].
    + rewrite <- (Math_round_integer h). apply Math_round_mono.
      rewrite Math_round_integer. exact Wh.
    + rewrite <- (Math_round_integer m). apply Math_round_mono. exact Mh.
  - intros Lw Lh.
    assert (Lw' : inject_Z w <= inject_Z m) by (rewrite <- Zle_Qle; exact Lw).
    assert (Lh' : inject_Z h <= inject_Z m) by (rewrite <- Zle_Qle; exact Lh).
    assert (R1 : 1 <= inject_Z m / inject_Z w)
      by (apply Qle_shift_div_l; lra).
    assert (R2 : 1 <= inject_Z m / inject_Z h)
      by (apply Qle_shift_div_l; lra).
    assert (Es : s == 1).
    { apply Qle_antisym; [exact S1|]. unfold s.
      apply Q.min_glb; [apply Q.min_glb; assumption | lra]. }
    rewrite Fw, Fh. split.
    + rewrite (Math_round_proper (inject_Z w * s) (inject_Z w))
        by (rewrite Es; ring).
      apply Math_round_integer.
    + rewrite (Math_round_proper (inject_Z h * s) (inject_Z h))
        by (rewrite Es; ring).
      apply Math_round_integer.
  - intros bitmapSize draw b Eb. unfold generateThumbnail. rewrite Eb.
    reflexivity.
Qed.

Lemma thumbnail_fits_witness :
  let size := thumbnailSize (inject_Z 1200) (inject_Z 800) (inject_Z 400) in
  fst size <= inject_Z (Z.min 1200 400) /\
  snd size <= inject_Z (Z.min 800 400).
Proof.
  cbv zeta.
  assert (H1 : (1 <= 1200)%Z) by lia.
  assert (H2 : (1 <= 800)%Z) by lia.
  assert (H3 : (1 <= 400)%Z) by lia.
  pose proof (thumbnail_fits 1200 800 400 H1 H2 H3) as ((_ & A) & (_ & B) & _).
  split; [exact A | exact B].
Defined.

End ThumbnailFacts.
